(** * Tekdaqc firmware: calibration table, calibration engine, command interpreter

    A shallow embedding of
    - [Tekdaqc_CalibrationTable.c] (the calibration lookup table),
    - [Tekdaqc_Calibration.c] (the run time calibration processes),
    - [Tekdaqc_CommandInterpreter.c] (the line oriented command interpreter),
      with the macros, the enumerators and the prototypes of its header
      [Tekdaqc_CommandInterpreter.h],
    followed by the properties established about them.

    Conventions.
    - A [uintN_t] is a [Z] with its wrap-around written out ([wrap8], [wrap32]).
    - A C [float] is an IEEE 754 binary32 number: [spec_float] with a 24 bit
      significand, rounded to nearest even by the operations of [SpecFloat].
    - C statements whose behaviour the language leaves undefined (a read or
      a store outside an array, a [float] converted to an integer type that
      cannot hold it, [strcpy] from [NULL]) end a run with [Undefined]; a loop that
      is still running when its fuel is used up ends it with [OutOfFuel];
      [NVIC_SystemReset] ends it with [SystemReset].
    - An automatic variable that is read before it is written holds whatever
      its stack slot held: those prior contents are an explicit argument. *)

From Stdlib Require Import ZArith Lia Ascii Floats.SpecFloat.
From stdpp Require Import base list gmap strings.

Local Open Scope Z_scope.

(** ** Outcome of a run *)

Inductive Run (A : Type) : Type :=
  | Ok (a : A)
  | Undefined
  | OutOfFuel
  | SystemReset.
Arguments Ok {A} a.
Arguments Undefined {A}.
Arguments OutOfFuel {A}.
Arguments SystemReset {A}.

Definition run_bind {A B : Type} (m : Run A) (k : A -> Run B) : Run B :=
  match m with
  | Ok a => k a
  | Undefined => Undefined
  | OutOfFuel => OutOfFuel
  | SystemReset => SystemReset
  end.

#[global] Instance Run_bind : MBind Run := fun A B k m => run_bind m k.
#[global] Instance Run_ret : MRet Run := fun A a => Ok a.

(** The value of a run that also yields a state. *)
Definition run_value {A S : Type} (r : Run (A * S)) : Run A :=
  match r with
  | Ok (a, _) => Ok a
  | Undefined => Undefined
  | OutOfFuel => OutOfFuel
  | SystemReset => SystemReset
  end.

Definition run_of_option {A : Type} (o : option A) : Run A :=
  match o with
  | Some a => Ok a
  | None => Undefined
  end.

(** ** Machine integers *)

Definition wrap8 (z : Z) : Z := z mod 256.
Definition wrap32 (z : Z) : Z := z mod 4294967296.

(** The conversion to [int8_t]. *)
Definition to_int8 (z : Z) : Z :=
  let w := wrap8 z in if w <? 128 then w else w - 256.

(** ** Single precision floating point *)

Definition float32 : Type := spec_float.

Definition f32_prec : Z := 24.
Definition f32_emax : Z := 128.

Definition f32_add : float32 -> float32 -> float32 := SFadd f32_prec f32_emax.
Definition f32_sub : float32 -> float32 -> float32 := SFsub f32_prec f32_emax.
Definition f32_mul : float32 -> float32 -> float32 := SFmul f32_prec f32_emax.
Definition f32_div : float32 -> float32 -> float32 := SFdiv f32_prec f32_emax.
Definition f32_lt : float32 -> float32 -> bool := SFltb.

(** Conversion of an integer to [float] (rounds to nearest even). *)
Definition f32_of_Z (z : Z) : float32 := binary_normalize f32_prec f32_emax z 0 false.

(** Conversion of a [float] to an unsigned integer type of [bits] bits: the
    fractional part is discarded; the behaviour is undefined when the integral
    part is not a value of the type. *)
Definition f32_to_uint (bits : Z) (f : float32) : option Z :=
  match f with
  | S754_zero _ => Some 0
  | S754_finite s m e =>
      let v := Z.shiftl (Z.pos m) e in
      if s then (if v =? 0 then Some 0 else None)
      else if v <? 2 ^ bits then Some v else None
  | S754_infinity _ => None
  | S754_nan => None
  end.

(** * The calibration table: [Tekdaqc_CalibrationTable.c] *)

(** ** Types of the ADC driver and of the flash driver

    The enumerations are declared in headers that are not part of the sources
    at hand.  Each one is given the enumerators the code names, and one more
    constructor for a value of the C type that is none of them (the [default]
    branch of the code's [switch] statements). *)

Inductive ADS1256_SPS_t : Type :=
  | ADS1256_SPS_30000 | ADS1256_SPS_15000 | ADS1256_SPS_7500 | ADS1256_SPS_3750
  | ADS1256_SPS_2000 | ADS1256_SPS_1000 | ADS1256_SPS_500 | ADS1256_SPS_100
  | ADS1256_SPS_60 | ADS1256_SPS_50 | ADS1256_SPS_30 | ADS1256_SPS_25
  | ADS1256_SPS_15 | ADS1256_SPS_10 | ADS1256_SPS_5 | ADS1256_SPS_2_5
  | ADS1256_SPS_unlisted.

Inductive ADS1256_PGA_t : Type :=
  | ADS1256_PGAx1 | ADS1256_PGAx2 | ADS1256_PGAx4 | ADS1256_PGAx8
  | ADS1256_PGAx16 | ADS1256_PGAx32 | ADS1256_PGAx64
  | ADS1256_PGA_unlisted.

Inductive ADS1256_BUFFER_t : Type :=
  | ADS1256_BUFFER_DISABLED
  | ADS1256_BUFFER_ENABLED
  | ADS1256_BUFFER_unlisted.

Inductive FLASH_Status : Type :=
  | FLASH_COMPLETE
  | FLASH_ERROR_WRP
  | FLASH_ERROR_PROGRAM
  | FLASH_ERROR_other.

Definition FLASH_Status_eqb (a b : FLASH_Status) : bool :=
  match a, b with
  | FLASH_COMPLETE, FLASH_COMPLETE => true
  | FLASH_ERROR_WRP, FLASH_ERROR_WRP => true
  | FLASH_ERROR_PROGRAM, FLASH_ERROR_PROGRAM => true
  | FLASH_ERROR_other, FLASH_ERROR_other => true
  | _, _ => false
  end.

(** A programming request made to the flash driver. *)
Inductive FlashOp : Type :=
  | ProgramWord (Address Data : Z)
  | ProgramByte (Address Data : Z).

(** A message handed to [TelnetWriteErrorMessage]. *)
Inductive Diagnostic : Type :=
  | LookupOffsetError (rate : ADS1256_SPS_t) (gain : ADS1256_PGA_t)
      (buffer : ADS1256_BUFFER_t) (temperature : float32)
  | TemperatureOutOfRange (temperature low high : float32).

(** ** The board header and the flash driver

    The address macros of [Tekdaqc_CalibrationTable.h] and the programming
    primitives of the flash driver are outside the sources; the model takes
    them as parameters.  [FLASH_outcome] is the status the driver answers a
    request with, given the requests made before it. *)

Class Board : Type := {
  CAL_DATA_START_ADDR : Z;
  CALIBRATION_BUFFER_OFFSET : Z;
  CAL_TEMP_LOW_ADDR : Z;
  CAL_TEMP_HIGH_ADDR : Z;
  CAL_TEMP_STEP_ADDR : Z;
  BOARD_SERIAL_NUM_ADDR : Z;
  BOARD_SERIAL_NUM_LENGTH : Z;
  FLASH_outcome : list FlashOp -> FlashOp -> FLASH_Status
}.

(** Modelled from the spec: the bounds [NUM_SAMPLE_RATES], [NUM_PGA_SETTINGS]
    and [NUM_BUFFER_SETTINGS] of the two RAM tables are macros of a header
    outside the sources; the tables are indexed by sample rate, gain and buffer
    setting, and the bounds are the numbers of settings [ComputeTableIndices]
    maps: sixteen rates, seven gains, two buffer settings. *)
Definition NUM_SAMPLE_RATES : Z := 16.
Definition NUM_PGA_SETTINGS : Z := 7.
Definition NUM_BUFFER_SETTINGS : Z := 2.

(** ** State *)

(** [uint32_t t[NUM_SAMPLE_RATES][NUM_PGA_SETTINGS][NUM_BUFFER_SETTINGS]], a
    static array: every element is zero until it is written. *)
Abbreviation table := (gmap (Z * Z * Z) Z).

(** The three index variables a caller passes the addresses of to
    [ComputeTableIndices]. *)
Record Indices : Type := {
  rate_index : Z;
  gain_index : Z;
  buffer_index : Z
}.

Definition in_table (i : Indices) : bool :=
  (0 <=? rate_index i) && (rate_index i <? NUM_SAMPLE_RATES) &&
  (0 <=? gain_index i) && (gain_index i <? NUM_PGA_SETTINGS) &&
  (0 <=? buffer_index i) && (buffer_index i <? NUM_BUFFER_SETTINGS).

Definition table_key (i : Indices) : Z * Z * Z :=
  (rate_index i, gain_index i, buffer_index i).

(** [t[r][g][b]] read, and [t[r][g][b] = v]; outside the array the behaviour is
    undefined. *)
Definition table_load (t : table) (i : Indices) : Run Z :=
  if in_table i then Ok (default 0 (t !! table_key i)) else Undefined.

Definition table_store (t : table) (i : Indices) (v : Z) : Run table :=
  if in_table i then Ok (<[table_key i := v]> t) else Undefined.

(** Byte addressed memory, as the processor reads it. *)
Abbreviation memory := (Z -> Z).

(** [*(__IO uint32_t* ) Address] on the little endian target. *)
Definition read_word (m : memory) (Address : Z) : Z :=
  m Address + 256 * m (Address + 1) + 65536 * m (Address + 2) + 16777216 * m (Address + 3).

Definition write_byte (m : memory) (Address Data : Z) : memory :=
  fun a => if a =? Address then Data else m a.

Definition write_word (m : memory) (Address Data : Z) : memory :=
  write_byte
    (write_byte
       (write_byte
          (write_byte m Address (Data mod 256))
          (Address + 1) (Data / 256 mod 256))
       (Address + 2) (Data / 65536 mod 256))
    (Address + 3) (Data / 16777216 mod 256).

(** The private variables of the file, the memory, the requests made to the
    flash driver (latest first) and the error messages written to the Telnet
    connection (latest first). *)
Record State : Type := {
  CAL_TEMP_HIGH : float32;
  CAL_TEMP_LOW : float32;
  CAL_TEMP_STEP : float32;
  CAL_TEMP_CNT : Z;
  CALIBRATION_VALID : bool;
  CalibrationModeEnabled : bool;
  offsetCalibrations : table;
  baseGainCalibrations : table;
  mem : memory;
  flash_ops : list FlashOp;
  telnet_errors : list Diagnostic
}.

Definition set_offsetCalibrations (t : table) (st : State) : State :=
  {| CAL_TEMP_HIGH := CAL_TEMP_HIGH st; CAL_TEMP_LOW := CAL_TEMP_LOW st;
     CAL_TEMP_STEP := CAL_TEMP_STEP st; CAL_TEMP_CNT := CAL_TEMP_CNT st;
     CALIBRATION_VALID := CALIBRATION_VALID st;
     CalibrationModeEnabled := CalibrationModeEnabled st;
     offsetCalibrations := t;
     baseGainCalibrations := baseGainCalibrations st;
     mem := mem st; flash_ops := flash_ops st; telnet_errors := telnet_errors st |}.

Definition set_baseGainCalibrations (t : table) (st : State) : State :=
  {| CAL_TEMP_HIGH := CAL_TEMP_HIGH st; CAL_TEMP_LOW := CAL_TEMP_LOW st;
     CAL_TEMP_STEP := CAL_TEMP_STEP st; CAL_TEMP_CNT := CAL_TEMP_CNT st;
     CALIBRATION_VALID := CALIBRATION_VALID st;
     CalibrationModeEnabled := CalibrationModeEnabled st;
     offsetCalibrations := offsetCalibrations st;
     baseGainCalibrations := t;
     mem := mem st; flash_ops := flash_ops st; telnet_errors := telnet_errors st |}.

Definition set_CalibrationModeEnabled (b : bool) (st : State) : State :=
  {| CAL_TEMP_HIGH := CAL_TEMP_HIGH st; CAL_TEMP_LOW := CAL_TEMP_LOW st;
     CAL_TEMP_STEP := CAL_TEMP_STEP st; CAL_TEMP_CNT := CAL_TEMP_CNT st;
     CALIBRATION_VALID := CALIBRATION_VALID st;
     CalibrationModeEnabled := b;
     offsetCalibrations := offsetCalibrations st;
     baseGainCalibrations := baseGainCalibrations st;
     mem := mem st; flash_ops := flash_ops st; telnet_errors := telnet_errors st |}.

Definition set_flash (m : memory) (ops : list FlashOp) (st : State) : State :=
  {| CAL_TEMP_HIGH := CAL_TEMP_HIGH st; CAL_TEMP_LOW := CAL_TEMP_LOW st;
     CAL_TEMP_STEP := CAL_TEMP_STEP st; CAL_TEMP_CNT := CAL_TEMP_CNT st;
     CALIBRATION_VALID := CALIBRATION_VALID st;
     CalibrationModeEnabled := CalibrationModeEnabled st;
     offsetCalibrations := offsetCalibrations st;
     baseGainCalibrations := baseGainCalibrations st;
     mem := m; flash_ops := ops; telnet_errors := telnet_errors st |}.

Definition TelnetWriteErrorMessage (d : Diagnostic) (st : State) : State :=
  {| CAL_TEMP_HIGH := CAL_TEMP_HIGH st; CAL_TEMP_LOW := CAL_TEMP_LOW st;
     CAL_TEMP_STEP := CAL_TEMP_STEP st; CAL_TEMP_CNT := CAL_TEMP_CNT st;
     CALIBRATION_VALID := CALIBRATION_VALID st;
     CalibrationModeEnabled := CalibrationModeEnabled st;
     offsetCalibrations := offsetCalibrations st;
     baseGainCalibrations := baseGainCalibrations st;
     mem := mem st; flash_ops := flash_ops st;
     telnet_errors := d :: telnet_errors st |}.

(** A [char*] argument: the bytes of the array it points to, up to the
    terminating null character that ends the array. *)
Record c_string : Type := {
  text : list Z
}.

Fixpoint strlen_bytes (l : list Z) : Z :=
  match l with
  | [] => 0
  | b :: l' => if b =? 0 then 0 else 1 + strlen_bytes l'
  end.

Definition strlen (s : c_string) : Z := strlen_bytes (text s).

(** [s[i]]: the bytes of the text, then the terminating null character.  A
    read outside the array is undefined. *)
Definition c_index (s : c_string) (i : Z) : Run Z :=
  if (0 <=? i) && (i <=? Z.of_nat (length (text s)))
  then Ok (default 0 (text s !! Z.to_nat i))
  else Undefined.

Section CalibrationTable.

Context {board : Board}.

(** ** The flash driver

    Modelled from the spec: [FLASH_ProgramWord] and [FLASH_ProgramByte] are
    the program primitives of the storage medium, collaborators outside the
    sources.  A request is recorded; the driver answers with a status; a request
    that completes makes the programmed address read back the programmed
    data. *)

Definition FLASH_ProgramWord (Address Data : Z) (st : State) : FLASH_Status * State :=
  let op := ProgramWord Address Data in
  let status := FLASH_outcome (flash_ops st) op in
  (status,
   set_flash
     (if FLASH_Status_eqb status FLASH_COMPLETE then write_word (mem st) Address Data
      else mem st)
     (op :: flash_ops st) st).

Definition FLASH_ProgramByte (Address Data : Z) (st : State) : FLASH_Status * State :=
  let op := ProgramByte Address Data in
  let status := FLASH_outcome (flash_ops st) op in
  (status,
   set_flash
     (if FLASH_Status_eqb status FLASH_COMPLETE then write_byte (mem st) Address Data
      else mem st)
     (op :: flash_ops st) st).

(** ** Private methods *)

Definition ComputeOffset (rate : ADS1256_SPS_t) (gain : ADS1256_PGA_t)
    (buffer : ADS1256_BUFFER_t) (temperature : float32) (st : State) : Z * State :=
  let offset := 0 in
  match buffer with
  | ADS1256_BUFFER_ENABLED => (wrap32 (offset + CALIBRATION_BUFFER_OFFSET), st)
  | ADS1256_BUFFER_DISABLED => (offset, st)
  | ADS1256_BUFFER_unlisted =>
      (offset, TelnetWriteErrorMessage (LookupOffsetError rate gain buffer temperature) st)
  end.

(** [uint32_t value = low + (high - low) * factor;]: the difference is taken in
    [uint32_t], the product and the sum in [float], and the sum is converted
    back to [uint32_t]. *)
Definition InterpolateValue (low high : Z) (factor : float32) : Run Z :=
  run_of_option
    (f32_to_uint 32
       (f32_add (f32_of_Z low) (f32_mul (f32_of_Z (wrap32 (high - low))) factor))).

(** [locals] holds the three variables of the caller the pointers point to, as
    they are when the call is made; the result holds them as they are when it
    returns.  In the [default] branch of the rate the code assigns to the
    pointer [rate_index] itself, so the variable of the caller keeps its
    value. *)
Definition ComputeTableIndices (locals : Indices) (rate : ADS1256_SPS_t)
    (gain : ADS1256_PGA_t) (buffer : ADS1256_BUFFER_t) : Indices :=
  let buffer_index' :=
    match buffer with
    | ADS1256_BUFFER_ENABLED => 0
    | _ => 1
    end in
  let gain_index' :=
    match gain with
    | ADS1256_PGAx1 => 0
    | ADS1256_PGAx2 => 1
    | ADS1256_PGAx4 => 2
    | ADS1256_PGAx8 => 3
    | ADS1256_PGAx16 => 4
    | ADS1256_PGAx32 => 5
    | ADS1256_PGAx64 => 6
    | ADS1256_PGA_unlisted => 0
    end in
  let rate_index' :=
    match rate with
    | ADS1256_SPS_30000 => 0
    | ADS1256_SPS_15000 => 1
    | ADS1256_SPS_7500 => 2
    | ADS1256_SPS_3750 => 3
    | ADS1256_SPS_2000 => 4
    | ADS1256_SPS_1000 => 5
    | ADS1256_SPS_500 => 6
    | ADS1256_SPS_100 => 7
    | ADS1256_SPS_60 => 8
    | ADS1256_SPS_50 => 9
    | ADS1256_SPS_30 => 10
    | ADS1256_SPS_25 => 11
    | ADS1256_SPS_15 => 12
    | ADS1256_SPS_10 => 13
    | ADS1256_SPS_5 => 14
    | ADS1256_SPS_2_5 => 15
    | ADS1256_SPS_unlisted => rate_index locals
    end in
  {| rate_index := rate_index'; gain_index := gain_index'; buffer_index := buffer_index' |}.

(** ** Public methods *)

(** The three index variables are declared without an initialiser: [locals]
    is what their stack slots hold. *)
Definition Tekdaqc_Calibration_SetBaseGainValue (locals : Indices) (val : Z)
    (rate : ADS1256_SPS_t) (gain : ADS1256_PGA_t) (buffer : ADS1256_BUFFER_t)
    (st : State) : Run State :=
  let i := ComputeTableIndices locals rate gain buffer in
  t ← table_store (baseGainCalibrations st) i val;
  Ok (set_baseGainCalibrations t st).

(** The address a calibration word is fetched from. *)
Definition fetch_address (offset : Z) : Z := wrap32 (CAL_DATA_START_ADDR + 4 * offset).

(** [(temperature - CAL_TEMP_LOW) / CAL_TEMP_STEP], the factor handed to
    [InterpolateValue]. *)
Definition interpolation_factor (temperature : float32) (st : State) : float32 :=
  f32_div (f32_sub temperature (CAL_TEMP_LOW st)) (CAL_TEMP_STEP st).

Definition Tekdaqc_GetGainCalibration (rate : ADS1256_SPS_t) (gain : ADS1256_PGA_t)
    (buffer : ADS1256_BUFFER_t) (temperature : float32) (st : State) : Run (Z * State) :=
  let i := ComputeTableIndices {| rate_index := 0; gain_index := 0; buffer_index := 0 |}
             rate gain buffer in
  baseGain ← table_load (baseGainCalibrations st) i;
  if negb (CALIBRATION_VALID st) then Ok (baseGain, st)
  else
    let out_of_range :=
      f32_lt temperature (CAL_TEMP_LOW st) || f32_lt (CAL_TEMP_HIGH st) temperature in
    let st1 :=
      if out_of_range
      then TelnetWriteErrorMessage
             (TemperatureOutOfRange temperature (CAL_TEMP_LOW st) (CAL_TEMP_HIGH st)) st
      else st in
    let temperature :=
      if out_of_range
      then (if f32_lt temperature (CAL_TEMP_LOW st) then CAL_TEMP_LOW st else CAL_TEMP_HIGH st)
      else temperature in
    num_temp_steps ← run_of_option (f32_to_uint 8 (f32_div temperature (CAL_TEMP_STEP st)));
    let low_temp := f32_mul (CAL_TEMP_LOW st) (f32_of_Z num_temp_steps) in
    let high_temp := f32_mul (CAL_TEMP_HIGH st) (f32_of_Z num_temp_steps) in
    let factor := interpolation_factor temperature st in
    let '(offset, st2) := ComputeOffset rate gain buffer low_temp st1 in
    let Address := fetch_address offset in
    let data_low := read_word (mem st2) Address in
    let '(offset, st3) := ComputeOffset rate gain buffer high_temp st2 in
    let Address := fetch_address offset in
    let data_high := read_word (mem st3) Address in
    v ← InterpolateValue data_low data_high factor;
    Ok (wrap32 (baseGain + v), st3).

Definition Tekdaqc_GetOffsetCalibration (locals : Indices) (rate : ADS1256_SPS_t)
    (gain : ADS1256_PGA_t) (buffer : ADS1256_BUFFER_t) (st : State) : Run Z :=
  let i := ComputeTableIndices locals rate gain buffer in
  table_load (offsetCalibrations st) i.

Definition Tekdaqc_EndCalibrationMode (st : State) : State :=
  set_CalibrationModeEnabled false st.

(** The loop of [Tekdaqc_SetSerialNumber]: [n] iterations are left, [i] is the
    loop variable (an address, also used as the index into [serial]).  The
    argument [serial[i]] is read before [FLASH_ProgramByte] is called. *)
Fixpoint program_serial (n : nat) (i : Z) (serial : c_string) (retval : FLASH_Status)
    (st : State) : Run (FLASH_Status * State) :=
  match n with
  | O => Ok (retval, st)
  | S n' =>
      byte ← c_index serial i;
      let '(status, st') := FLASH_ProgramByte (wrap32 i) (wrap8 byte) st in
      program_serial n' (i + 1) serial
        (if FLASH_Status_eqb status FLASH_COMPLETE then retval else status) st'
  end.

Definition Tekdaqc_SetSerialNumber (serial : c_string) (st : State)
    : Run (FLASH_Status * State) :=
  let retval := FLASH_COMPLETE in
  if negb (CalibrationModeEnabled st) then Ok (FLASH_ERROR_WRP, st)
  else
    let retval := if strlen serial <? BOARD_SERIAL_NUM_LENGTH then FLASH_ERROR_PROGRAM else retval in
    if FLASH_Status_eqb retval FLASH_COMPLETE
    then program_serial (Z.to_nat BOARD_SERIAL_NUM_LENGTH) BOARD_SERIAL_NUM_ADDR serial retval st
    else Ok (retval, st).

(** [FLASH_ProgramWord(ADDR, temp)] converts the [float] to the [uint32_t] the
    driver takes. *)
Definition Tekdaqc_SetCalibrationLowTemperature (temp : float32) (st : State)
    : Run (FLASH_Status * State) :=
  if negb (CalibrationModeEnabled st) then Ok (FLASH_ERROR_WRP, st)
  else
    data ← run_of_option (f32_to_uint 32 temp);
    Ok (FLASH_ProgramWord CAL_TEMP_LOW_ADDR data st).

Definition Tekdaqc_SetCalibrationHighTemperature (temp : float32) (st : State)
    : Run (FLASH_Status * State) :=
  if negb (CalibrationModeEnabled st) then Ok (FLASH_ERROR_WRP, st)
  else
    data ← run_of_option (f32_to_uint 32 temp);
    Ok (FLASH_ProgramWord CAL_TEMP_HIGH_ADDR data st).

Definition Tekdaqc_SetCalibrationStepTemperature (temp : float32) (st : State)
    : Run (FLASH_Status * State) :=
  if negb (CalibrationModeEnabled st) then Ok (FLASH_ERROR_WRP, st)
  else
    data ← run_of_option (f32_to_uint 32 temp);
    Ok (FLASH_ProgramWord CAL_TEMP_STEP_ADDR data st).

Definition Tekdaqc_SetGainCalibration (cal : Z) (rate : ADS1256_SPS_t) (gain : ADS1256_PGA_t)
    (buffer : ADS1256_BUFFER_t) (temperature : float32) (st : State) : FLASH_Status * State :=
  if negb (CalibrationModeEnabled st) then (FLASH_ERROR_WRP, st)
  else
    let '(addr, st1) := ComputeOffset rate gain buffer temperature st in
    FLASH_ProgramWord addr cal st1.

Definition Tekdaqc_SetOffsetCalibration (locals : Indices) (cal : Z) (rate : ADS1256_SPS_t)
    (gain : ADS1256_PGA_t) (buffer : ADS1256_BUFFER_t) (st : State) : Run State :=
  let i := ComputeTableIndices locals rate gain buffer in
  t ← table_store (offsetCalibrations st) i cal;
  Ok (set_offsetCalibrations t st).

Definition Tekdaqc_SetBaseGainCalibration (locals : Indices) (cal : Z) (rate : ADS1256_SPS_t)
    (gain : ADS1256_PGA_t) (buffer : ADS1256_BUFFER_t) (st : State) : Run State :=
  let i := ComputeTableIndices locals rate gain buffer in
  t ← table_store (baseGainCalibrations st) i cal;
  Ok (set_baseGainCalibrations t st).

End CalibrationTable.

(** * The run time calibration processes: [Tekdaqc_Calibration.c] *)

Inductive Tekdaqc_Function_Error_t : Type :=
  | ERR_FUNCTION_OK
  | ERR_AIN_PARSE_ERROR
  | ERR_AIN_PARSE_MISSING_KEY
  | ERR_FUNCTION_unlisted.

Definition Tekdaqc_Function_Error_eqb (a b : Tekdaqc_Function_Error_t) : bool :=
  match a, b with
  | ERR_FUNCTION_OK, ERR_FUNCTION_OK => true
  | ERR_AIN_PARSE_ERROR, ERR_AIN_PARSE_ERROR => true
  | ERR_AIN_PARSE_MISSING_KEY, ERR_AIN_PARSE_MISSING_KEY => true
  | ERR_FUNCTION_unlisted, ERR_FUNCTION_unlisted => true
  | _, _ => false
  end.

(** A [PhysicalAnalogInput_t] is kept as the integer value of the enumerator. *)
Definition PhysicalAnalogInput_t : Type := Z.

(** A call made to the ADC driver or to the ADC state machine. *)
Inductive AdcCall : Type :=
  | ADS1256_SetInputBufferSetting (buffer : ADS1256_BUFFER_t)
  | ADS1256_SetDataRate (rate : ADS1256_SPS_t)
  | ADS1256_SetPGASetting (pga : ADS1256_PGA_t)
  | ADC_Calibrate
  | ADC_GainCalibrate (input : PhysicalAnalogInput_t).

(** The ADC driver and the board temperature service are outside the sources:
    the string parsers of the driver, the integer value of a buffer setting (the
    code stores the result of [ADS1256_StringToBuffer] in a
    [PhysicalAnalogInput_t]), the enumerator [EXTERNAL_0], the recorded
    temperature extremes and the limits they are compared with. *)
Class AdcDriver : Type := {
  ADS1256_StringToBuffer : string -> ADS1256_BUFFER_t;
  ADS1256_StringToDataRate : string -> ADS1256_SPS_t;
  ADS1256_StringToPGA : string -> ADS1256_PGA_t;
  ADS1256_BUFFER_value : ADS1256_BUFFER_t -> PhysicalAnalogInput_t;
  EXTERNAL_0 : PhysicalAnalogInput_t;
  getMaximumBoardTemperature : float32;
  getMinimumBoardTemperature : float32;
  CALIBRATION_VALID_MAX_TEMP : float32;
  CALIBRATION_VALID_MIN_TEMP : float32
}.

(** The parameter keys: the macros [PARAMETER_...] of the interpreter header
    [Tekdaqc_CommandInterpreter.h], in the order the header defines them. *)
Definition PARAMETER_INPUT : string := "INPUT".
Definition PARAMETER_RATE : string := "RATE".
Definition PARAMETER_GAIN : string := "GAIN".
Definition PARAMETER_BUFFER : string := "BUFFER".
Definition PARAMETER_NUMBER : string := "NUMBER".
Definition PARAMETER_NAME : string := "NAME".
Definition PARAMETER_OUTPUT : string := "OUTPUT".
Definition PARAMETER_STATE : string := "STATE".
Definition PARAMETER_VALUE : string := "VALUE".

(** The parameter lists of the two calibration commands, from the interpreter
    source, and their lengths, macros of the interpreter header. *)
Definition SYSTEM_GCAL_PARAMS : list string :=
  [PARAMETER_BUFFER; PARAMETER_RATE; PARAMETER_GAIN; PARAMETER_INPUT].
Definition NUM_SYSTEM_GCAL_PARAMS : nat := 4.

Definition SYSTEM_CAL_PARAMS : list string :=
  [PARAMETER_BUFFER; PARAMETER_RATE; PARAMETER_GAIN].
Definition NUM_SYSTEM_CAL_PARAMS : nat := 3.

(** [a[i]] for an array of C strings kept as a list; an entry the list does not
    hold reads as the empty string. *)
Definition string_at (a : list string) (i : nat) : string := default "" (a !! i).

(** [GetIndexOfArgument] of the command interpreter: the loop looks at
    [keys[i]], [n] entries being left.  The result is an [int8_t]: the
    assignment [index = i] converts the loop counter. *)
Fixpoint GetIndexOfArgument_loop (keys : list string) (target : string) (n : nat) (i : nat) : Z :=
  match n with
  | O => -1
  | S n' =>
      if String.eqb (string_at keys i) target then to_int8 (Z.of_nat i)
      else GetIndexOfArgument_loop keys target n' (S i)
  end.

Definition GetIndexOfArgument (keys : list string) (target : string) (total : nat) : Z :=
  GetIndexOfArgument_loop keys target total 0.

Section Calibration.

Context {driver : AdcDriver}.

(** The local variables of [SetADCParameters] that its loop updates. *)
Record AdcParameters : Type := {
  par_retval : Tekdaqc_Function_Error_t;
  par_pga : ADS1256_PGA_t;
  par_rate : ADS1256_SPS_t;
  par_buffer : ADS1256_BUFFER_t
}.

(** One iteration of the loop of [SetADCParameters], for the loop index [i]. *)
Definition SetADCParameters_body (keys values : list string) (count : nat) (i : nat)
    (p : AdcParameters) : AdcParameters :=
  let index := GetIndexOfArgument keys (string_at SYSTEM_CAL_PARAMS i) count in
  if 0 <=? index then
    match i with
    | 0%nat =>
        {| par_retval := par_retval p; par_pga := par_pga p; par_rate := par_rate p;
           par_buffer := ADS1256_StringToBuffer (string_at values (Z.to_nat index)) |}
    | 1%nat =>
        {| par_retval := par_retval p; par_pga := par_pga p;
           par_rate := ADS1256_StringToDataRate (string_at values (Z.to_nat index));
           par_buffer := par_buffer p |}
    | 2%nat =>
        {| par_retval := par_retval p;
           par_pga := ADS1256_StringToPGA (string_at values (Z.to_nat index));
           par_rate := par_rate p; par_buffer := par_buffer p |}
    | _ =>
        {| par_retval := ERR_AIN_PARSE_ERROR; par_pga := par_pga p; par_rate := par_rate p;
           par_buffer := par_buffer p |}
    end
  else if (i =? 0)%nat || (i =? 1)%nat || (i =? 2)%nat || (i =? 3)%nat then p
  else
    {| par_retval := ERR_AIN_PARSE_MISSING_KEY; par_pga := par_pga p; par_rate := par_rate p;
       par_buffer := par_buffer p |}.

(** The status, and the calls made to the driver in the order they are made. *)
Definition SetADCParameters (keys values : list string) (count : nat)
    : Tekdaqc_Function_Error_t * list AdcCall :=
  let p0 := {| par_retval := ERR_FUNCTION_OK; par_pga := ADS1256_PGAx1;
               par_rate := ADS1256_SPS_60; par_buffer := ADS1256_BUFFER_DISABLED |} in
  let p := foldl (fun p i => SetADCParameters_body keys values count i p) p0
             (seq 0 NUM_SYSTEM_CAL_PARAMS) in
  (par_retval p,
   [ADS1256_SetInputBufferSetting (par_buffer p);
    ADS1256_SetDataRate (par_rate p);
    ADS1256_SetPGASetting (par_pga p)]).

Definition PerformSystemCalibration : Tekdaqc_Function_Error_t * list AdcCall :=
  (ERR_FUNCTION_OK, [ADC_Calibrate]).

(** One iteration of the loop of [PerformSystemGainCalibration]: [ri] is
    [(retval, input)]. *)
Definition PerformSystemGainCalibration_body (keys values : list string) (count : nat)
    (i : nat) (ri : Tekdaqc_Function_Error_t * PhysicalAnalogInput_t)
    : Tekdaqc_Function_Error_t * PhysicalAnalogInput_t :=
  let index := GetIndexOfArgument keys (string_at SYSTEM_GCAL_PARAMS i) count in
  if 0 <=? index then
    match i with
    | 3%nat =>
        (fst ri, ADS1256_BUFFER_value (ADS1256_StringToBuffer (string_at values (Z.to_nat index))))
    | _ => (ERR_AIN_PARSE_ERROR, snd ri)
    end
  else if (i =? 0)%nat || (i =? 1)%nat || (i =? 2)%nat then ri
  else (ERR_AIN_PARSE_MISSING_KEY, snd ri).

Definition PerformSystemGainCalibration (keys values : list string) (count : nat)
    : Tekdaqc_Function_Error_t * list AdcCall :=
  let '(retval, calls) := SetADCParameters keys values count in
  let input := EXTERNAL_0 in
  let '(retval, input) :=
    foldl (fun ri i => PerformSystemGainCalibration_body keys values count i ri)
      (retval, input) (seq 0 NUM_SYSTEM_GCAL_PARAMS) in
  (retval, calls ++ [ADC_GainCalibrate input]).

Definition isTekdaqc_CalibrationValid : bool :=
  let max := getMaximumBoardTemperature in
  let min := getMinimumBoardTemperature in
  if f32_lt CALIBRATION_VALID_MAX_TEMP max || f32_lt min CALIBRATION_VALID_MIN_TEMP
  then false else true.

End Calibration.

(** * The command interpreter: [Tekdaqc_CommandInterpreter.c] *)

(** ** C strings

    A C string is kept as the [string] of its characters before the
    terminating null character; a pointer into it is the suffix it points
    to. *)

Definition is_one_of (set : string) (c : ascii) : bool :=
  existsb (Ascii.eqb c) (String.list_ascii_of_string set).

Fixpoint count_chars (set : string) (s : string) : Z :=
  match s with
  | EmptyString => 0
  | String c s' => (if is_one_of set c then 1 else 0) + count_chars set s'
  end.

Fixpoint strcspn (s : string) (set : string) : Z :=
  match s with
  | EmptyString => 0
  | String c s' => if is_one_of set c then 0 else 1 + strcspn s' set
  end.

Fixpoint skip_delimiters (set : string) (s : string) : string :=
  match s with
  | EmptyString => EmptyString
  | String c s' => if is_one_of set c then skip_delimiters set s' else s
  end.

(** The token at the head of [s] and what follows the delimiter that ends it. *)
Fixpoint split_token (set : string) (s : string) : string * string :=
  match s with
  | EmptyString => (EmptyString, EmptyString)
  | String c s' =>
      if is_one_of set c then (EmptyString, s')
      else let '(tok, rest) := split_token set s' in (String c tok, rest)
  end.

(** [strtok]: [None] is the null pointer; otherwise the token and the saved
    position the next call with a null first argument continues from. *)
Definition strtok (s : string) (set : string) : option (string * string) :=
  match skip_delimiters set s with
  | EmptyString => None
  | s' => Some (split_token set s')
  end.

(** What a call of [strtok] leaves of the characters it passes over: the
    delimiters before the token and the token stay, the delimiter that ends
    the token is overwritten with a null character.  The characters from the
    saved position on are not touched. *)
Fixpoint strtok_token_written (set : string) (s : string) : string :=
  match s with
  | EmptyString => EmptyString
  | String c s' =>
      if is_one_of set c then String "000" EmptyString
      else String c (strtok_token_written set s')
  end.

Fixpoint strtok_written (set : string) (s : string) : string :=
  match s with
  | EmptyString => EmptyString
  | String c s' =>
      if is_one_of set c then String c (strtok_written set s')
      else strtok_token_written set s
  end.

(** An array of characters read as a C string: the characters before the
    first null character, and the characters of the array from that null
    character on. *)
Fixpoint c_str (s : string) : string :=
  match s with
  | EmptyString => EmptyString
  | String c s' => if Ascii.eqb c "000" then EmptyString else String c (c_str s')
  end.

Fixpoint after_c_str (s : string) : string :=
  match s with
  | EmptyString => EmptyString
  | String c s' => if Ascii.eqb c "000" then s else after_c_str s'
  end.

Definition strchr (s : string) (c : ascii) : bool := is_one_of s c.

(** [strncmp(s, flag, 2) == 0] for a flag of two characters. *)
Definition starts_with (flag : string) (s : string) : bool :=
  String.eqb (String.substring 0 (String.length flag) s) flag.

Definition is_digit (c : ascii) : bool :=
  let n := Ascii.N_of_ascii c in ((48 <=? n) && (n <=? 57))%N.

Definition is_space (c : ascii) : bool :=
  let n := Ascii.N_of_ascii c in ((n =? 32) || ((9 <=? n) && (n <=? 13)))%N.

Fixpoint skip_spaces (s : string) : string :=
  match s with
  | String c s' => if is_space c then skip_spaces s' else s
  | EmptyString => EmptyString
  end.

(** The decimal digits at the head of [s], accumulated into [acc]: the value,
    the number of digits read, and the rest. *)
Fixpoint read_digits (s : string) (acc : Z) (n : nat) : Z * nat * string :=
  match s with
  | String c s' =>
      if is_digit c
      then read_digits s' (10 * acc + Z.of_N (Ascii.N_of_ascii c - 48)) (S n)
      else (acc, n, s)
  | EmptyString => (acc, n, s)
  end.

Definition LONG_MAX : Z := 2147483647.
Definition LONG_MIN : Z := -2147483648.

(** [strtol(s, &end, 10)]: the value and [end].  Without a digit to convert
    the value is 0 and [end] is [s]. *)
Definition strtol (s : string) : Z * string :=
  let s1 := skip_spaces s in
  let '(negative, s2) :=
    match s1 with
    | String "-" r => (true, r)
    | String "+" r => (false, r)
    | _ => (false, s1)
    end in
  let '(v, n, rest) := read_digits s2 0 0 in
  match n with
  | O => (0, s)
  | _ =>
      let v := if negative then - v else v in
      (Z.max LONG_MIN (Z.min LONG_MAX v), rest)
  end.

(** [*ptr] compared with a character, and [ptr + 1]; past the terminating null
    character the memory is not part of the string. *)
Definition points_at (ptr : string) (c : ascii) : bool :=
  match ptr with
  | String c' _ => Ascii.eqb c' c
  | EmptyString => false
  end.

Definition ptr_succ (ptr : string) : Run string :=
  match ptr with
  | String _ r => Ok r
  | EmptyString => Undefined
  end.

Definition isValidTextCharacter (character : ascii) : bool :=
  let n := Ascii.N_of_ascii character in
  ((n =? 95) || ((65 <=? n) && (n <=? 90)) || ((97 <=? n) && (n <=? 122)))%N.

Definition ToUpperCase_char (character : ascii) : ascii :=
  let n := Ascii.N_of_ascii character in
  if isValidTextCharacter character then
    if negb ((65 <=? n) && (n <=? 90))%N then
      if negb (n =? 95)%N then Ascii.ascii_of_N (n - 32) else character
    else character
  else character.

Fixpoint ToUpperCase (s : string) : string :=
  match s with
  | EmptyString => EmptyString
  | String c s' => String (ToUpperCase_char c) (ToUpperCase s')
  end.

(** ** Commands and errors *)

(** The enumerators of [Command_t], with the values 0 to 27 the interpreter
    header gives them, which is the order of [COMMAND_STRINGS];
    [COMMAND_unlisted] is the value past [COMMAND_NONE] that [ParseCommand]
    ends its search with. *)
Inductive Command_t : Type :=
  | COMMAND_LIST_ANALOG_INPUTS | COMMAND_READ_ADC_REGISTERS | COMMAND_READ_ANALOG_INPUT
  | COMMAND_ADD_ANALOG_INPUT | COMMAND_REMOVE_ANALOG_INPUT | COMMAND_CHECK_ANALOG_INPUT
  | COMMAND_SYSTEM_GCAL | COMMAND_SYSTEM_CAL | COMMAND_LIST_DIGITAL_INPUTS
  | COMMAND_READ_DIGITAL_INPUT | COMMAND_ADD_DIGITAL_INPUT | COMMAND_REMOVE_DIGITAL_INPUT
  | COMMAND_LIST_DIGITAL_OUTPUTS | COMMAND_SET_DIGITAL_OUTPUT | COMMAND_READ_DIGITAL_OUTPUT
  | COMMAND_ADD_DIGITAL_OUTPUT | COMMAND_REMOVE_DIGITAL_OUTPUT | COMMAND_CLEAR_DIG_OUTPUT_FAULT
  | COMMAND_DISCONNECT | COMMAND_UPGRADE | COMMAND_IDENTIFY | COMMAND_SAMPLE | COMMAND_HALT
  | COMMAND_SET_RTC | COMMAND_SET_USER_MAC | COMMAND_SET_STATIC_IP
  | COMMAND_GET_CALIBRATION_STATUS | COMMAND_NONE
  | COMMAND_unlisted.

Definition COMMAND_STRINGS : list (string * Command_t) :=
  [ ("LIST_ANALOG_INPUTS", COMMAND_LIST_ANALOG_INPUTS);
    ("READ_ADC_REGISTERS", COMMAND_READ_ADC_REGISTERS);
    ("READ_ANALOG_INPUT", COMMAND_READ_ANALOG_INPUT);
    ("ADD_ANALOG_INPUT", COMMAND_ADD_ANALOG_INPUT);
    ("REMOVE_ANALOG_INPUT", COMMAND_REMOVE_ANALOG_INPUT);
    ("CHECK_ANALOG_INPUT", COMMAND_CHECK_ANALOG_INPUT);
    ("SYSTEM_GCAL", COMMAND_SYSTEM_GCAL);
    ("SYSTEM_CAL", COMMAND_SYSTEM_CAL);
    ("LIST_DIGITAL_INPUTS", COMMAND_LIST_DIGITAL_INPUTS);
    ("READ_DIGITAL_INPUT", COMMAND_READ_DIGITAL_INPUT);
    ("ADD_DIGITAL_INPUT", COMMAND_ADD_DIGITAL_INPUT);
    ("REMOVE_DIGITAL_INPUT", COMMAND_REMOVE_DIGITAL_INPUT);
    ("LIST_DIGITAL_OUTPUTS", COMMAND_LIST_DIGITAL_OUTPUTS);
    ("SET_DIGITAL_OUTPUT", COMMAND_SET_DIGITAL_OUTPUT);
    ("READ_DIGITAL_OUTPUT", COMMAND_READ_DIGITAL_OUTPUT);
    ("ADD_DIGITAL_OUTPUT", COMMAND_ADD_DIGITAL_OUTPUT);
    ("REMOVE_DIGITAL_OUTPUT", COMMAND_REMOVE_DIGITAL_OUTPUT);
    ("CLEAR_DIG_OUTPUT_FAULT", COMMAND_CLEAR_DIG_OUTPUT_FAULT);
    ("DISCONNECT", COMMAND_DISCONNECT);
    ("UPGRADE", COMMAND_UPGRADE);
    ("IDENTIFY", COMMAND_IDENTIFY);
    ("SAMPLE", COMMAND_SAMPLE);
    ("HALT", COMMAND_HALT);
    ("SET_RTC", COMMAND_SET_RTC);
    ("SET_USER_MAC", COMMAND_SET_USER_MAC);
    ("SET_STATIC_IP", COMMAND_SET_STATIC_IP);
    ("GET_CALIBRATION_STATUS", COMMAND_GET_CALIBRATION_STATUS);
    ("NONE", COMMAND_NONE) ].

Inductive Tekdaqc_Command_Error_t : Type :=
  | ERR_COMMAND_OK
  | ERR_COMMAND_BAD_PARAM
  | ERR_COMMAND_BAD_COMMAND
  | ERR_COMMAND_PARSE_ERROR
  | ERR_COMMAND_FUNCTION_ERROR
  | ERR_COMMAND_UNKNOWN_ERROR
  | ERR_COMMAND_ADC_INVALID_OPERATION
  | ERR_COMMAND_DI_INVALID_OPERATION
  | ERR_COMMAND_DO_INVALID_OPERATION
  | ERR_COMMAND_unlisted.

(** What the interpreter hands to the Telnet server. *)
Inductive TelnetEvent : Type :=
  | StatusMessage (message : string)
  | ErrorMessage (message : string)
  | WriteString (message : string)
  | Close.

Inductive Channel_List_t : Type :=
  | SINGLE_CHANNEL
  | CHANNEL_RANGE
  | CHANNEL_SET
  | ALL_CHANNELS.

Definition ALL_CHANNELS_STRING : string := "ALL".
Definition KEY_VALUE_PAIR_FLAG : string := "--".
Definition RANGE_DELIMETER : ascii := "-"%char.
Definition SET_DELIMETER : ascii := ","%char.
Definition KEY_VALUE_PAIR_DELIMETER : string := "=".
Definition COMMAND_DELIMETER : string := " ".

(** The private variables of the file: the characters of the command buffer
    before its write cursor (their number is [buffer_position]; the characters
    of the array from the cursor on are null characters) and the last
    function error. *)
Record Interpreter : Type := {
  command_buffer : string;
  lastFunctionError : Tekdaqc_Function_Error_t
}.

Definition buffer_position (st : Interpreter) : Z :=
  Z.of_nat (String.length (command_buffer st)).

(** The arrays [raw_args], [keys] and [values] are automatic variables without
    an initialiser: these are the strings their stack slots hold. *)
Record Stack : Type := {
  stack_raw_args : list string;
  stack_keys : list string;
  stack_values : list string
}.

(** The configuration header and the collaborators of the interpreter are
    outside the sources: the size macros, the number of analog inputs and the
    channel table of the analog input module, the error to string
    conversions, and the identity text [Ex_Identify] assembles from the
    locator service. *)
Class CommandPlatform : Type := {
  MAX_COMMANDPART_LENGTH : Z;
  MAX_NUM_ARGUMENTS : Z;
  MAX_COMMANDLINE_LENGTH : Z;
  NUM_ANALOG_INPUTS : Z;
  GetAnalogInputByNumber : Z -> option Z;
  Tekdaqc_CommandError_ToString : Tekdaqc_Command_Error_t -> string;
  Tekdaqc_FunctionError_ToString : Tekdaqc_Function_Error_t -> string;
  identity_text : string
}.

(** ** Argument checking *)

(** The inner loop of [InputArgsCheck]: [params[idx]] is looked at, [n]
    parameters being left. *)
Fixpoint InputArgsCheck_find (key : string) (params : list string) (n : nat) (idx : nat) : bool :=
  match n with
  | O => false
  | S n' =>
      if String.eqb key (string_at params idx) then true
      else InputArgsCheck_find key params n' (S idx)
  end.

(** The outer loop: [keys[i]] is looked at, [n] keys being left. *)
Fixpoint InputArgsCheck_loop (keys params : list string) (num_params : nat) (n : nat) (i : nat)
    : bool :=
  match n with
  | O => true
  | S n' =>
      if InputArgsCheck_find (string_at keys i) params num_params 0
      then InputArgsCheck_loop keys params num_params n' (S i)
      else false
  end.

Definition InputArgsCheck (keys values : list string) (count num_params : nat)
    (params : list string) : bool :=
  if (num_params <? count)%nat then false
  else InputArgsCheck_loop keys params num_params count 0.

Definition GetChannelListType (arg : string) : Channel_List_t :=
  if String.eqb arg ALL_CHANNELS_STRING then ALL_CHANNELS
  else if strchr arg SET_DELIMETER then CHANNEL_SET
  else if strchr arg RANGE_DELIMETER then CHANNEL_RANGE
  else SINGLE_CHANNEL.

Section CommandInterpreter.

Context {platform : CommandPlatform} {driver : AdcDriver}.

(** ** Channel lists *)

(** [aInputs[i] = p] *)
Definition aInputs_store (aInputs : list (option Z)) (i : Z) (p : option Z)
    : Run (list (option Z)) :=
  if (0 <=? i) && (i <? NUM_ANALOG_INPUTS) then Ok (<[Z.to_nat i := p]> aInputs)
  else Undefined.

(** [for (int i = ...; i < count; ++i) aInputs[i] = GetAnalogInputByNumber(start + i);]
    with [n] iterations left. *)
Fixpoint fill_from (n : nat) (i : Z) (start : Z) (aInputs : list (option Z))
    : Run (list (option Z)) :=
  match n with
  | O => Ok aInputs
  | S n' =>
      a ← aInputs_store aInputs i (GetAnalogInputByNumber (start + i));
      fill_from n' (i + 1) start a
  end.

(** The counting loop of the [CHANNEL_SET] case:
    [while (value != 0L) { ++count; if ( *ptr == SET_DELIMETER) str = ptr + 1;
    value = strtol(str, &ptr, 10); }].  [str] is [None] while it is the null
    pointer. *)
Fixpoint count_set (fuel : nat) (value : Z) (ptr : string) (str : option string) (count : Z)
    : Run (Z * option string) :=
  if value =? 0 then Ok (count, str)
  else
    match fuel with
    | O => OutOfFuel
    | S fuel' =>
        let count := wrap8 (count + 1) in
        str ← (if points_at ptr SET_DELIMETER
                then s ← ptr_succ ptr; Ok (Some s)
                else Ok str);
        match str with
        | None => Undefined
        | Some s =>
            let '(value, ptr) := strtol s in
            count_set fuel' value ptr str count
        end
    end.

(** The filling loop of the [CHANNEL_SET] case, [n] iterations left. *)
Fixpoint fill_set (n : nat) (i : Z) (ptr : string) (str : option string)
    (aInputs : list (option Z)) : Run (list (option Z)) :=
  match n with
  | O => Ok aInputs
  | S n' =>
      str ← (if points_at ptr SET_DELIMETER
              then s ← ptr_succ ptr; Ok (Some s)
              else Ok str);
      match str with
      | None => Undefined
      | Some s =>
          let '(value, ptr) := strtol s in
          a ← aInputs_store aInputs i (GetAnalogInputByNumber value);
          fill_set n' (i + 1) ptr str a
      end
  end.

(** The array [aInputs] as the call leaves it. *)
Definition BuildAnalogInputList (fuel : nat) (list_type : Channel_List_t) (param : string)
    : Run (list (option Z)) :=
  let aInputs := replicate (Z.to_nat NUM_ANALOG_INPUTS) (@None Z) in
  match list_type with
  | SINGLE_CHANNEL =>
      let channel := to_int8 (fst (strtol param)) in
      if (channel <? 0) || (NUM_ANALOG_INPUTS <? channel) then Ok aInputs
      else aInputs_store aInputs 0 (GetAnalogInputByNumber channel)
  | CHANNEL_SET =>
      let '(value, ptr) := strtol param in
      '(count, str) ← count_set fuel value ptr None 0;
      let '(value, ptr) := strtol param in
      fill_set (Z.to_nat count) 0 ptr str aInputs
  | CHANNEL_RANGE =>
      let '(v1, ptr) := strtol param in
      let value1 := wrap8 v1 in
      p ← ptr_succ ptr;
      let value2 := wrap8 (fst (strtol p)) in
      let '(start, end_) :=
        if negb (value1 =? 0)
        then (value1, if negb (value2 =? 0) then value2 else wrap8 NUM_ANALOG_INPUTS)
        else (0, 0) in
      let count := wrap8 (end_ - start + 1) in
      fill_from (Z.to_nat count) 0 start aInputs
  | ALL_CHANNELS =>
      let count := wrap8 NUM_ANALOG_INPUTS in
      fill_from (Z.to_nat count) 0 0 aInputs
  end.

(** ** Parsing a line *)

(** The search of [ParseCommand] through the command strings that are left. *)
Fixpoint ParseCommand_loop (command : string) (commands : list (string * Command_t))
    : Command_t :=
  match commands with
  | [] => COMMAND_unlisted
  | (name, ret_command) :: rest =>
      if String.eqb command name then ret_command else ParseCommand_loop command rest
  end.

Definition ParseCommand (command : string) : Command_t :=
  ParseCommand_loop command COMMAND_STRINGS.

(** The message [ProcessCommandError] writes.  For a function error
    [ProcessFunctionError] overwrites the text prepared before it. *)
Definition ProcessCommandError (error : Tekdaqc_Command_Error_t)
    (lastFunctionError : Tekdaqc_Function_Error_t) : TelnetEvent :=
  let error_string := Tekdaqc_CommandError_ToString error in
  match error with
  | ERR_COMMAND_OK => StatusMessage ("SUCCESS - " +:+ error_string)
  | ERR_COMMAND_BAD_PARAM => ErrorMessage ("FAIL - " +:+ error_string +:+ ".")
  | ERR_COMMAND_BAD_COMMAND => ErrorMessage ("FAIL - " +:+ error_string)
  | ERR_COMMAND_PARSE_ERROR => ErrorMessage ("FAIL - " +:+ error_string)
  | ERR_COMMAND_FUNCTION_ERROR =>
      ErrorMessage ("Function Error: " +:+ Tekdaqc_FunctionError_ToString lastFunctionError)
  | ERR_COMMAND_UNKNOWN_ERROR => ErrorMessage ("FAIL - " +:+ error_string)
  | ERR_COMMAND_ADC_INVALID_OPERATION => ErrorMessage ("FAIL - " +:+ error_string)
  | ERR_COMMAND_DI_INVALID_OPERATION => ErrorMessage ("FAIL - " +:+ error_string)
  | ERR_COMMAND_DO_INVALID_OPERATION => ErrorMessage ("FAIL - " +:+ error_string)
  | ERR_COMMAND_unlisted => ErrorMessage ("ERROR - " +:+ error_string)
  end.

(** [strcpy] into a [char[MAX_COMMANDPART_LENGTH]]. *)
Definition fits (s : string) : bool :=
  Z.of_nat (String.length s) <? MAX_COMMANDPART_LENGTH.

Definition strcpy_local (s : string) : Run string :=
  if fits s then Ok s else Undefined.

(** [strcpy(a[i], s)] and [a[i]] for a [char a[MAX_NUM_ARGUMENTS][MAX_COMMANDPART_LENGTH]]. *)
Definition strcpy_into (a : list string) (i : nat) (s : string) : Run (list string) :=
  if fits s && (Z.of_nat i <? MAX_NUM_ARGUMENTS) then Ok (<[i := s]> a) else Undefined.

Definition array_load (a : list string) (i : nat) : Run string :=
  if Z.of_nat i <? MAX_NUM_ARGUMENTS then Ok (string_at a i) else Undefined.

(** An array of [MAX_NUM_ARGUMENTS] strings with the given prior contents. *)
Definition array_of (prior : list string) : list string :=
  resize (Z.to_nat MAX_NUM_ARGUMENTS) EmptyString prior.

(** [s + n], for [n] not past the terminating null character. *)
Fixpoint string_drop (n : nat) (s : string) : string :=
  match n, s with
  | O, _ => s
  | S n', String _ s' => string_drop n' s'
  | S _, EmptyString => EmptyString
  end.

Fixpoint ParseKeyValuePairs_loop (n : nat) (i : nat) (raw_args keys values : list string)
    : Run (list string * list string) :=
  match n with
  | O => Ok (keys, values)
  | S n' =>
      raw ← array_load raw_args i;
      if starts_with KEY_VALUE_PAIR_FLAG raw then
        temp ← strcpy_local (string_drop 2 raw);
        match strtok temp KEY_VALUE_PAIR_DELIMETER with
        | None => Undefined
        | Some (raw, saved) =>
            keys ← strcpy_into keys i (ToUpperCase raw);
            values ← match strtok saved KEY_VALUE_PAIR_DELIMETER with
                      | Some (raw, _) => strcpy_into values i (ToUpperCase raw)
                      | None => strcpy_into values i EmptyString
                      end;
            ParseKeyValuePairs_loop n' (S i) raw_args keys values
        end
      else ParseKeyValuePairs_loop n' (S i) raw_args keys values
  end.

Definition ParseKeyValuePairs (raw_args keys values : list string) (count : nat)
    : Run (list string * list string) :=
  ParseKeyValuePairs_loop count 0 raw_args keys values.

End CommandInterpreter.

(** ** Digital channel lists

    The digital input and output modules are outside the sources: the numbers
    of channels and the channel tables are parameters. *)

Class DigitalPlatform : Type := {
  NUM_DIGITAL_INPUTS : Z;
  NUM_DIGITAL_OUTPUTS : Z;
  GetDigitalInputByNumber : Z -> option Z;
  GetDigitalOutputByNumber : Z -> option Z
}.

Section DigitalLists.

(** [BuildDigitalInputList] and [BuildDigitalOutputList] are the same text but
    for the array they fill, its bound and the channel table they read:
    [channels[NUM]] and [GetChannelByNumber] stand for these. *)
Variable NUM : Z.
Variable GetChannelByNumber : Z -> option Z.

(** [channels[i] = p] *)
Definition channels_store (channels : list (option Z)) (i : Z) (p : option Z)
    : Run (list (option Z)) :=
  if (0 <=? i) && (i <? NUM) then Ok (<[Z.to_nat i := p]> channels) else Undefined.

(** [for (int i = ...; i < count; ++i) channels[i] = GetChannelByNumber(start + i);]
    with [n] iterations left. *)
Fixpoint fill_channels_from (n : nat) (i : Z) (start : Z) (channels : list (option Z))
    : Run (list (option Z)) :=
  match n with
  | O => Ok channels
  | S n' =>
      a ← channels_store channels i (GetChannelByNumber (start + i));
      fill_channels_from n' (i + 1) start a
  end.

(** The filling loop of the [CHANNEL_SET] case, [n] iterations left. *)
Fixpoint fill_channels_set (n : nat) (i : Z) (ptr : string) (str : string)
    (channels : list (option Z)) : Run (list (option Z)) :=
  match n with
  | O => Ok channels
  | S n' =>
      str ← (if points_at ptr SET_DELIMETER then ptr_succ ptr else Ok str);
      let '(value, ptr) := strtol str in
      a ← channels_store channels i (GetChannelByNumber value);
      fill_channels_set n' (i + 1) ptr str a
  end.

(** The array as the call leaves it.  In the [CHANNEL_SET] case [str] is set
    to [param] before each of the two loops. *)
Definition BuildDigitalList (fuel : nat) (list_type : Channel_List_t) (param : string)
    : Run (list (option Z)) :=
  let channels := replicate (Z.to_nat NUM) (@None Z) in
  match list_type with
  | SINGLE_CHANNEL =>
      let channel := to_int8 (fst (strtol param)) in
      if (channel <? 0) || (NUM <? channel) then Ok channels
      else channels_store channels 0 (GetChannelByNumber channel)
  | CHANNEL_SET =>
      let '(value, ptr) := strtol param in
      '(count, _) ← count_set fuel value ptr (Some param) 0;
      let '(value, ptr) := strtol param in
      fill_channels_set (Z.to_nat count) 0 ptr param channels
  | CHANNEL_RANGE =>
      let '(v1, ptr) := strtol param in
      let value1 := wrap8 v1 in
      p ← ptr_succ ptr;
      let value2 := wrap8 (fst (strtol p)) in
      let '(start, end_) :=
        if negb (value1 =? 0)
        then (value1, if negb (value2 =? 0) then value2 else wrap8 NUM)
        else (0, 0) in
      let count := wrap8 (end_ - start + 1) in
      fill_channels_from (Z.to_nat count) 0 start channels
  | ALL_CHANNELS =>
      let count := wrap8 NUM in
      fill_channels_from (Z.to_nat count) 0 0 channels
  end.

End DigitalLists.

Section DigitalChannelLists.

Context {digital : DigitalPlatform}.

Definition BuildDigitalInputList (fuel : nat) (list_type : Channel_List_t) (param : string)
    : Run (list (option Z)) :=
  BuildDigitalList NUM_DIGITAL_INPUTS GetDigitalInputByNumber fuel list_type param.

Definition BuildDigitalOutputList (fuel : nat) (list_type : Channel_List_t) (param : string)
    : Run (list (option Z)) :=
  BuildDigitalList NUM_DIGITAL_OUTPUTS GetDigitalOutputByNumber fuel list_type param.

End DigitalChannelLists.

(** ** Adding and removing an analog input

    The analog input module is outside the sources: whether the ADC is
    sampling, and the status [CreateAnalogInput] and [RemoveAnalogInput]
    return. *)

Class AnalogInputModule : Type := {
  isADCSampling : bool;
  CreateAnalogInput : list string -> list string -> nat -> Tekdaqc_Function_Error_t;
  RemoveAnalogInput : list string -> list string -> nat -> Tekdaqc_Function_Error_t
}.

(** A call made to the analog input module. *)
Inductive AnalogInputCall : Type :=
  | CreateAnalogInput_call (keys values : list string) (count : nat)
  | RemoveAnalogInput_call (keys values : list string) (count : nat).

Definition ADD_ANALOG_INPUT_PARAMS : list string :=
  [PARAMETER_INPUT; PARAMETER_BUFFER; PARAMETER_RATE; PARAMETER_GAIN; PARAMETER_NAME].
Definition NUM_ADD_ANALOG_INPUT_PARAMS : nat := 5.

Definition REMOVE_ANALOG_INPUT_PARAMS : list string := [PARAMETER_INPUT].
Definition NUM_REMOVE_ANALOG_INPUT_PARAMS : nat := 1.

Section AnalogInputHandlers.

Context {module : AnalogInputModule}.

(** The command error, the last function error and the calls made. *)
Definition Ex_AddAnalogInput (keys values : list string) (count : nat)
    (lastFunctionError : Tekdaqc_Function_Error_t)
    : Tekdaqc_Command_Error_t * Tekdaqc_Function_Error_t * list AnalogInputCall :=
  let retval := ERR_COMMAND_OK in
  if negb isADCSampling then
    if InputArgsCheck keys values count NUM_ADD_ANALOG_INPUT_PARAMS ADD_ANALOG_INPUT_PARAMS then
      let status := CreateAnalogInput keys values count in
      if negb (Tekdaqc_Function_Error_eqb status ERR_FUNCTION_OK)
      then (ERR_COMMAND_FUNCTION_ERROR, status, [CreateAnalogInput_call keys values count])
      else (retval, lastFunctionError, [CreateAnalogInput_call keys values count])
    else (ERR_COMMAND_OK, lastFunctionError, [])
  else (ERR_COMMAND_ADC_INVALID_OPERATION, lastFunctionError, []).

Definition Ex_RemoveAnalogInput (keys values : list string) (count : nat)
    (lastFunctionError : Tekdaqc_Function_Error_t)
    : Tekdaqc_Command_Error_t * Tekdaqc_Function_Error_t * list AnalogInputCall :=
  let retval := ERR_COMMAND_OK in
  if negb isADCSampling then
    if InputArgsCheck keys values count NUM_REMOVE_ANALOG_INPUT_PARAMS
         REMOVE_ANALOG_INPUT_PARAMS then
      let status := RemoveAnalogInput keys values count in
      if negb (Tekdaqc_Function_Error_eqb status ERR_FUNCTION_OK)
      then (ERR_COMMAND_FUNCTION_ERROR, status, [RemoveAnalogInput_call keys values count])
      else (retval, lastFunctionError, [RemoveAnalogInput_call keys values count])
    else (ERR_COMMAND_BAD_PARAM, lastFunctionError, [])
  else (ERR_COMMAND_ADC_INVALID_OPERATION, lastFunctionError, []).

End AnalogInputHandlers.

(** ** Handlers

    The parameter lists of the commands, from the interpreter source, and
    their lengths, macros of the interpreter header. *)

Definition LIST_ANALOG_INPUTS_PARAMS : list string := [].
Definition NUM_LIST_ANALOG_INPUTS_PARAMS : nat := 0.

Definition READ_ADC_REGISTERS_PARAMS : list string := [].
Definition NUM_READ_ADC_REGISTERS_PARAMS : nat := 0.

Definition READ_ANALOG_INPUT_PARAMS : list string := [PARAMETER_INPUT; PARAMETER_NUMBER].
Definition NUM_READ_ANALOG_INPUT_PARAMS : nat := 2.

Definition LIST_DIGITAL_INPUTS_PARAMS : list string := [].
Definition NUM_LIST_DIGITAL_INPUTS_PARAMS : nat := 0.

Definition READ_DIGITAL_INPUT_PARAMS : list string := [PARAMETER_INPUT; PARAMETER_NUMBER].
Definition NUM_READ_DIGITAL_INPUT_PARAMS : nat := 2.

Definition ADD_DIGITAL_INPUT_PARAMS : list string := [PARAMETER_INPUT; PARAMETER_NAME].
Definition NUM_ADD_DIGITAL_INPUT_PARAMS : nat := 2.

Definition REMOVE_DIGITAL_INPUT_PARAMS : list string := [PARAMETER_INPUT].
Definition NUM_REMOVE_DIGITAL_INPUT_PARAMS : nat := 1.

Definition LIST_DIGITAL_OUTPUTS_PARAMS : list string := [].
Definition NUM_LIST_DIGITAL_OUTPUTS_PARAMS : nat := 0.

Definition SET_DIGITAL_OUTPUT_PARAMS : list string := [PARAMETER_OUTPUT; PARAMETER_RATE].
Definition NUM_SET_DIGITAL_OUTPUT_PARAMS : nat := 2.

Definition READ_DIGITAL_OUTPUT_PARAMS : list string := [PARAMETER_OUTPUT; PARAMETER_NUMBER].
Definition NUM_READ_DIGITAL_OUTPUT_PARAMS : nat := 2.

Definition ADD_DIGITAL_OUTPUT_PARAMS : list string := [PARAMETER_OUTPUT; PARAMETER_NAME].
Definition NUM_ADD_DIGITAL_OUTPUT_PARAMS : nat := 2.

Definition REMOVE_DIGITAL_OUTPUT_PARAMS : list string := [PARAMETER_OUTPUT].
Definition NUM_REMOVE_DIGITAL_OUTPUT_PARAMS : nat := 1.

Definition SAMPLE_PARAMS : list string := [PARAMETER_NUMBER].
Definition NUM_SAMPLE_PARAMS : nat := 1.

(** The modules the handlers call are outside the sources: the analog and
    digital input and output modules, the three sampling state machines, the
    command state, the ADC driver.  For each function a handler calls, the
    model takes as parameters the status it returns, where the handler reads
    one, and what the call writes to the Telnet connection;
    [ADS1256_RegistersToString] is the text the call leaves in
    [TOSTRING_BUFFER]; the two arguments of a sampling function are the number
    of samples and the single channel flag (its first argument is the channel
    array of the interpreter).  Every call is taken to return. *)
Class CommandModules : Type := {
  ListAnalogInputs : Tekdaqc_Function_Error_t * list TelnetEvent;
  ADS1256_RegistersToString : string;
  ADC_Machine_Input_Sample : Z -> bool -> list TelnetEvent;
  CommandStateMoveToAnalogInputSample : list TelnetEvent;
  AnalogInputCall_output : AnalogInputCall -> list TelnetEvent;
  ListDigitalInputs : Tekdaqc_Function_Error_t * list TelnetEvent;
  DI_Machine_Input_Sample : Z -> bool -> list TelnetEvent;
  CommandStateMoveToDigitalInputSample : list TelnetEvent;
  isDISampling : bool;
  CreateDigitalInput :
    list string -> list string -> nat -> Tekdaqc_Function_Error_t * list TelnetEvent;
  RemoveDigitalInput :
    list string -> list string -> nat -> Tekdaqc_Function_Error_t * list TelnetEvent;
  ListDigitalOutputs : Tekdaqc_Function_Error_t * list TelnetEvent;
  SetDigitalOutput :
    list string -> list string -> nat -> Tekdaqc_Function_Error_t * list TelnetEvent;
  DO_Machine_Output_Sample : Z -> bool -> list TelnetEvent;
  CommandStateMoveToDigitalOutputSample : list TelnetEvent;
  isDOSampling : bool;
  CreateDigitalOutput :
    list string -> list string -> nat -> Tekdaqc_Function_Error_t * list TelnetEvent;
  RemoveDigitalOutput :
    list string -> list string -> nat -> Tekdaqc_Function_Error_t * list TelnetEvent;
  CommandStateMoveToGeneralSample : list TelnetEvent;
  HaltTasks : list TelnetEvent
}.

Definition Tekdaqc_Command_Error_eqb (a b : Tekdaqc_Command_Error_t) : bool :=
  match a, b with
  | ERR_COMMAND_OK, ERR_COMMAND_OK => true
  | ERR_COMMAND_BAD_PARAM, ERR_COMMAND_BAD_PARAM => true
  | ERR_COMMAND_BAD_COMMAND, ERR_COMMAND_BAD_COMMAND => true
  | ERR_COMMAND_PARSE_ERROR, ERR_COMMAND_PARSE_ERROR => true
  | ERR_COMMAND_FUNCTION_ERROR, ERR_COMMAND_FUNCTION_ERROR => true
  | ERR_COMMAND_UNKNOWN_ERROR, ERR_COMMAND_UNKNOWN_ERROR => true
  | ERR_COMMAND_ADC_INVALID_OPERATION, ERR_COMMAND_ADC_INVALID_OPERATION => true
  | ERR_COMMAND_DI_INVALID_OPERATION, ERR_COMMAND_DI_INVALID_OPERATION => true
  | ERR_COMMAND_DO_INVALID_OPERATION, ERR_COMMAND_DO_INVALID_OPERATION => true
  | ERR_COMMAND_unlisted, ERR_COMMAND_unlisted => true
  | _, _ => false
  end.

(** What a handler yields: the command error it returns, the last function
    error as it leaves it, and what has been written to the Telnet
    connection. *)
Definition HandlerResult : Type :=
  Tekdaqc_Command_Error_t * Tekdaqc_Function_Error_t * list TelnetEvent.

(** The local variables of the READ and SAMPLE handlers that their loops
    update. *)
Record SampleParameters : Type := {
  smp_retval : Tekdaqc_Command_Error_t;
  smp_numSamples : Z;
  smp_list_type : Channel_List_t
}.

(** [for (int i = 0; i < NUM; ++i) { ...; if (retval != ERR_COMMAND_OK) break; }]
    with [n] iterations left; [body] is the text before the test. *)
Fixpoint parameters_loop (body : nat -> SampleParameters -> Run SampleParameters)
    (n : nat) (i : nat) (p : SampleParameters) : Run SampleParameters :=
  match n with
  | O => Ok p
  | S n' =>
      p ← body i p;
      if negb (Tekdaqc_Command_Error_eqb (smp_retval p) ERR_COMMAND_OK) then Ok p
      else parameters_loop body n' (S i) p
  end.

Section CommandHandlers.

Context {platform : CommandPlatform} {driver : AdcDriver} {digital : DigitalPlatform}
        {module : AnalogInputModule} {modules : CommandModules}.

(** [if (status != ERR_FUNCTION_OK) { lastFunctionError = status;
    retval = ERR_COMMAND_FUNCTION_ERROR; }], for [retval] that is
    [ERR_COMMAND_OK] before: the command error and the last function error. *)
Definition function_status (status lastFunctionError : Tekdaqc_Function_Error_t)
    : Tekdaqc_Command_Error_t * Tekdaqc_Function_Error_t :=
  if negb (Tekdaqc_Function_Error_eqb status ERR_FUNCTION_OK)
  then (ERR_COMMAND_FUNCTION_ERROR, status)
  else (ERR_COMMAND_OK, lastFunctionError).

Definition Ex_ListAnalogInputs (keys values : list string) (count : nat)
    (lastFunctionError : Tekdaqc_Function_Error_t) : HandlerResult :=
  if InputArgsCheck keys values count NUM_LIST_ANALOG_INPUTS_PARAMS LIST_ANALOG_INPUTS_PARAMS
  then
    let '(status, output) := ListAnalogInputs in
    (function_status status lastFunctionError, output)
  else (ERR_COMMAND_BAD_PARAM, lastFunctionError, []).

(** A buffer left empty is reported as [ERR_COMMAND_FUNCTION_ERROR] without
    the last function error being set. *)
Definition Ex_ReadADCRegisters (keys values : list string) (count : nat)
    (lastFunctionError : Tekdaqc_Function_Error_t) : HandlerResult :=
  if InputArgsCheck keys values count NUM_READ_ADC_REGISTERS_PARAMS READ_ADC_REGISTERS_PARAMS
  then
    let TOSTRING_BUFFER := ADS1256_RegistersToString in
    if negb (String.eqb TOSTRING_BUFFER EmptyString)
    then (ERR_COMMAND_OK, lastFunctionError, [WriteString TOSTRING_BUFFER])
    else (ERR_COMMAND_FUNCTION_ERROR, lastFunctionError, [])
  else (ERR_COMMAND_BAD_PARAM, lastFunctionError, []).

(** One iteration of the loop of [Ex_ReadAnalogInput], for the loop index
    [i], up to the test that ends the loop. *)
Definition Ex_ReadAnalogInput_body (fuel : nat) (keys values : list string) (count : nat)
    (i : nat) (p : SampleParameters) : Run SampleParameters :=
  let index := GetIndexOfArgument keys (string_at READ_ANALOG_INPUT_PARAMS i) count in
  if 0 <=? index then
    let value := string_at values (Z.to_nat index) in
    match i with
    | 0%nat =>
        let list_type := GetChannelListType value in
        _ ← BuildAnalogInputList fuel list_type value;
        Ok {| smp_retval := smp_retval p; smp_numSamples := smp_numSamples p;
              smp_list_type := list_type |}
    | 1%nat =>
        Ok {| smp_retval := smp_retval p; smp_numSamples := fst (strtol value);
              smp_list_type := smp_list_type p |}
    | _ =>
        Ok {| smp_retval := ERR_COMMAND_PARSE_ERROR; smp_numSamples := smp_numSamples p;
              smp_list_type := smp_list_type p |}
    end
  else Ok p.

(** The four cases of the [switch] on the list type differ in the single
    channel flag only. *)
Definition Ex_ReadAnalogInput (fuel : nat) (keys values : list string) (count : nat)
    (lastFunctionError : Tekdaqc_Function_Error_t) : Run HandlerResult :=
  if InputArgsCheck keys values count NUM_READ_ANALOG_INPUT_PARAMS READ_ANALOG_INPUT_PARAMS
  then
    p ← parameters_loop (Ex_ReadAnalogInput_body fuel keys values count)
          NUM_READ_ANALOG_INPUT_PARAMS 0
          {| smp_retval := ERR_COMMAND_OK; smp_numSamples := 0;
             smp_list_type := ALL_CHANNELS |};
    if Tekdaqc_Command_Error_eqb (smp_retval p) ERR_COMMAND_OK then
      let singleChannel :=
        match smp_list_type p with SINGLE_CHANNEL => true | _ => false end in
      Ok (ERR_COMMAND_OK, lastFunctionError,
          ADC_Machine_Input_Sample (smp_numSamples p) singleChannel
            ++ CommandStateMoveToAnalogInputSample)
    else Ok (smp_retval p, lastFunctionError, [])
  else Ok (ERR_COMMAND_BAD_PARAM, lastFunctionError, []).

Definition Ex_CheckAnalogInput : Tekdaqc_Command_Error_t := ERR_COMMAND_OK.

Definition Ex_SystemGainCal (keys values : list string) (count : nat)
    (lastFunctionError : Tekdaqc_Function_Error_t)
    : Tekdaqc_Command_Error_t * Tekdaqc_Function_Error_t :=
  if InputArgsCheck keys values count NUM_SYSTEM_GCAL_PARAMS SYSTEM_GCAL_PARAMS then
    let status := fst (PerformSystemGainCalibration keys values count) in
    if negb (Tekdaqc_Function_Error_eqb status ERR_FUNCTION_OK)
    then (ERR_COMMAND_FUNCTION_ERROR, status)
    else (ERR_COMMAND_OK, lastFunctionError)
  else (ERR_COMMAND_BAD_PARAM, lastFunctionError).

Definition Ex_SystemCal (lastFunctionError : Tekdaqc_Function_Error_t)
    : Tekdaqc_Command_Error_t * Tekdaqc_Function_Error_t :=
  let status := fst PerformSystemCalibration in
  if negb (Tekdaqc_Function_Error_eqb status ERR_FUNCTION_OK)
  then (ERR_COMMAND_FUNCTION_ERROR, status)
  else (ERR_COMMAND_OK, lastFunctionError).

Definition Ex_ListDigitalInputs (keys values : list string) (count : nat)
    (lastFunctionError : Tekdaqc_Function_Error_t) : HandlerResult :=
  if InputArgsCheck keys values count NUM_LIST_DIGITAL_INPUTS_PARAMS LIST_DIGITAL_INPUTS_PARAMS
  then
    let '(status, output) := ListDigitalInputs in
    (function_status status lastFunctionError, output)
  else (ERR_COMMAND_BAD_PARAM, lastFunctionError, []).

Definition Ex_ReadDigitalInput_body (fuel : nat) (keys values : list string) (count : nat)
    (i : nat) (p : SampleParameters) : Run SampleParameters :=
  let index := GetIndexOfArgument keys (string_at READ_DIGITAL_INPUT_PARAMS i) count in
  if 0 <=? index then
    let value := string_at values (Z.to_nat index) in
    match i with
    | 0%nat =>
        let list_type := GetChannelListType value in
        _ ← BuildDigitalInputList fuel list_type value;
        Ok {| smp_retval := smp_retval p; smp_numSamples := smp_numSamples p;
              smp_list_type := list_type |}
    | 1%nat =>
        Ok {| smp_retval := smp_retval p; smp_numSamples := fst (strtol value);
              smp_list_type := smp_list_type p |}
    | _ =>
        Ok {| smp_retval := ERR_COMMAND_PARSE_ERROR; smp_numSamples := smp_numSamples p;
              smp_list_type := smp_list_type p |}
    end
  else Ok p.

(** The list type starts as 0, the enumerator [SINGLE_CHANNEL]; arguments
    that [InputArgsCheck] rejects have no branch of their own and leave
    [ERR_COMMAND_OK]. *)
Definition Ex_ReadDigitalInput (fuel : nat) (keys values : list string) (count : nat)
    (lastFunctionError : Tekdaqc_Function_Error_t) : Run HandlerResult :=
  if InputArgsCheck keys values count NUM_READ_DIGITAL_INPUT_PARAMS READ_DIGITAL_INPUT_PARAMS
  then
    p ← parameters_loop (Ex_ReadDigitalInput_body fuel keys values count)
          NUM_READ_DIGITAL_INPUT_PARAMS 0
          {| smp_retval := ERR_COMMAND_OK; smp_numSamples := 0;
             smp_list_type := SINGLE_CHANNEL |};
    if Tekdaqc_Command_Error_eqb (smp_retval p) ERR_COMMAND_OK then
      let singleChannel :=
        match smp_list_type p with SINGLE_CHANNEL => true | _ => false end in
      Ok (ERR_COMMAND_OK, lastFunctionError,
          DI_Machine_Input_Sample (smp_numSamples p) singleChannel
            ++ CommandStateMoveToDigitalInputSample)
    else Ok (smp_retval p, lastFunctionError, [])
  else Ok (ERR_COMMAND_OK, lastFunctionError, []).

Definition Ex_AddDigitalInput (keys values : list string) (count : nat)
    (lastFunctionError : Tekdaqc_Function_Error_t) : HandlerResult :=
  if negb isDISampling then
    if InputArgsCheck keys values count NUM_ADD_DIGITAL_INPUT_PARAMS ADD_DIGITAL_INPUT_PARAMS
    then
      let '(status, output) := CreateDigitalInput keys values count in
      (function_status status lastFunctionError, output)
    else (ERR_COMMAND_BAD_PARAM, lastFunctionError, [])
  else (ERR_COMMAND_DI_INVALID_OPERATION, lastFunctionError, []).

Definition Ex_RemoveDigitalInput (keys values : list string) (count : nat)
    (lastFunctionError : Tekdaqc_Function_Error_t) : HandlerResult :=
  if negb isDISampling then
    if InputArgsCheck keys values count NUM_REMOVE_DIGITAL_INPUT_PARAMS
         REMOVE_DIGITAL_INPUT_PARAMS
    then
      let '(status, output) := RemoveDigitalInput keys values count in
      (function_status status lastFunctionError, output)
    else (ERR_COMMAND_BAD_PARAM, lastFunctionError, [])
  else (ERR_COMMAND_DI_INVALID_OPERATION, lastFunctionError, []).

Definition Ex_ListDigitalOutputs (keys values : list string) (count : nat)
    (lastFunctionError : Tekdaqc_Function_Error_t) : HandlerResult :=
  if InputArgsCheck keys values count NUM_LIST_DIGITAL_OUTPUTS_PARAMS
       LIST_DIGITAL_OUTPUTS_PARAMS
  then
    let '(status, output) := ListDigitalOutputs in
    (function_status status lastFunctionError, output)
  else (ERR_COMMAND_BAD_PARAM, lastFunctionError, []).

Definition Ex_SetDigitalOutput (keys values : list string) (count : nat)
    (lastFunctionError : Tekdaqc_Function_Error_t) : HandlerResult :=
  if InputArgsCheck keys values count NUM_SET_DIGITAL_OUTPUT_PARAMS SET_DIGITAL_OUTPUT_PARAMS
  then
    let '(status, output) := SetDigitalOutput keys values count in
    (function_status status lastFunctionError, output)
  else (ERR_COMMAND_BAD_PARAM, lastFunctionError, []).

Definition Ex_ReadDigitalOutput_body (fuel : nat) (keys values : list string) (count : nat)
    (i : nat) (p : SampleParameters) : Run SampleParameters :=
  let index := GetIndexOfArgument keys (string_at READ_DIGITAL_OUTPUT_PARAMS i) count in
  if 0 <=? index then
    let value := string_at values (Z.to_nat index) in
    match i with
    | 0%nat =>
        let list_type := GetChannelListType value in
        _ ← BuildDigitalOutputList fuel list_type value;
        Ok {| smp_retval := smp_retval p; smp_numSamples := smp_numSamples p;
              smp_list_type := list_type |}
    | 1%nat =>
        Ok {| smp_retval := smp_retval p; smp_numSamples := fst (strtol value);
              smp_list_type := smp_list_type p |}
    | _ =>
        Ok {| smp_retval := ERR_COMMAND_PARSE_ERROR; smp_numSamples := smp_numSamples p;
              smp_list_type := smp_list_type p |}
    end
  else Ok p.

Definition Ex_ReadDigitalOutput (fuel : nat) (keys values : list string) (count : nat)
    (lastFunctionError : Tekdaqc_Function_Error_t) : Run HandlerResult :=
  if InputArgsCheck keys values count NUM_READ_DIGITAL_OUTPUT_PARAMS
       READ_DIGITAL_OUTPUT_PARAMS
  then
    p ← parameters_loop (Ex_ReadDigitalOutput_body fuel keys values count)
          NUM_READ_DIGITAL_OUTPUT_PARAMS 0
          {| smp_retval := ERR_COMMAND_OK; smp_numSamples := 0;
             smp_list_type := SINGLE_CHANNEL |};
    if Tekdaqc_Command_Error_eqb (smp_retval p) ERR_COMMAND_OK then
      let singleChannel :=
        match smp_list_type p with SINGLE_CHANNEL => true | _ => false end in
      Ok (ERR_COMMAND_OK, lastFunctionError,
          DO_Machine_Output_Sample (smp_numSamples p) singleChannel
            ++ CommandStateMoveToDigitalOutputSample)
    else Ok (smp_retval p, lastFunctionError, [])
  else Ok (ERR_COMMAND_BAD_PARAM, lastFunctionError, []).

Definition Ex_AddDigitalOutput (keys values : list string) (count : nat)
    (lastFunctionError : Tekdaqc_Function_Error_t) : HandlerResult :=
  if negb isDOSampling then
    if InputArgsCheck keys values count NUM_ADD_DIGITAL_OUTPUT_PARAMS
         ADD_DIGITAL_OUTPUT_PARAMS
    then
      let '(status, output) := CreateDigitalOutput keys values count in
      (function_status status lastFunctionError, output)
    else (ERR_COMMAND_BAD_PARAM, lastFunctionError, [])
  else (ERR_COMMAND_DO_INVALID_OPERATION, lastFunctionError, []).

Definition Ex_RemoveDigitalOutput (keys values : list string) (count : nat)
    (lastFunctionError : Tekdaqc_Function_Error_t) : HandlerResult :=
  if negb isDOSampling then
    if InputArgsCheck keys values count NUM_REMOVE_DIGITAL_OUTPUT_PARAMS
         REMOVE_DIGITAL_OUTPUT_PARAMS
    then
      let '(status, output) := RemoveDigitalOutput keys values count in
      (function_status status lastFunctionError, output)
    else (ERR_COMMAND_BAD_PARAM, lastFunctionError, [])
  else (ERR_COMMAND_DO_INVALID_OPERATION, lastFunctionError, []).

Definition Ex_ClearDigitalOutputFault : Tekdaqc_Command_Error_t := ERR_COMMAND_OK.

Definition Ex_Sample_body (keys values : list string) (count : nat)
    (i : nat) (p : SampleParameters) : Run SampleParameters :=
  let index := GetIndexOfArgument keys (string_at SAMPLE_PARAMS i) count in
  if 0 <=? index then
    let value := string_at values (Z.to_nat index) in
    match i with
    | 0%nat =>
        Ok {| smp_retval := smp_retval p; smp_numSamples := fst (strtol value);
              smp_list_type := smp_list_type p |}
    | _ =>
        Ok {| smp_retval := ERR_COMMAND_PARSE_ERROR; smp_numSamples := smp_numSamples p;
              smp_list_type := smp_list_type p |}
    end
  else Ok p.

(** The three list builders are handed [ALL_CHANNELS] and a null pointer,
    which that case does not read. *)
Definition Ex_Sample (fuel : nat) (keys values : list string) (count : nat)
    (lastFunctionError : Tekdaqc_Function_Error_t) : Run HandlerResult :=
  if InputArgsCheck keys values count NUM_SAMPLE_PARAMS SAMPLE_PARAMS then
    p ← parameters_loop (Ex_Sample_body keys values count) NUM_SAMPLE_PARAMS 0
          {| smp_retval := ERR_COMMAND_OK; smp_numSamples := 0;
             smp_list_type := ALL_CHANNELS |};
    if Tekdaqc_Command_Error_eqb (smp_retval p) ERR_COMMAND_OK then
      _ ← BuildAnalogInputList fuel ALL_CHANNELS EmptyString;
      _ ← BuildDigitalInputList fuel ALL_CHANNELS EmptyString;
      _ ← BuildDigitalOutputList fuel ALL_CHANNELS EmptyString;
      Ok (ERR_COMMAND_OK, lastFunctionError,
          ADC_Machine_Input_Sample (smp_numSamples p) false
            ++ DI_Machine_Input_Sample (smp_numSamples p) false
            ++ DO_Machine_Output_Sample (smp_numSamples p) false
            ++ CommandStateMoveToGeneralSample)
    else Ok (smp_retval p, lastFunctionError, [])
  else Ok (ERR_COMMAND_BAD_PARAM, lastFunctionError, []).

Definition Ex_Identify : Tekdaqc_Command_Error_t * list TelnetEvent :=
  (ERR_COMMAND_OK, [StatusMessage identity_text]).

Definition Ex_SetRTC : Tekdaqc_Command_Error_t := ERR_COMMAND_OK.
Definition Ex_SetUserMac : Tekdaqc_Command_Error_t := ERR_COMMAND_OK.
Definition Ex_SetStaticIP : Tekdaqc_Command_Error_t := ERR_COMMAND_OK.

Definition Ex_GetCalibrationStatus : Tekdaqc_Command_Error_t * list TelnetEvent :=
  (ERR_COMMAND_OK,
   [StatusMessage ("Calibration Status: " +:+
                   (if isTekdaqc_CalibrationValid then "VALID" else "INVALID"))]).

(** The command error, the last function error and the Telnet output.  The
    return value of [Ex_Identify] is not used; [NVIC_SystemReset] ends the
    run of the UPGRADE command. *)
Definition ExecuteCommand (fuel : nat) (command : Command_t) (keys values : list string)
    (count : nat) (lastFunctionError : Tekdaqc_Function_Error_t) : Run HandlerResult :=
  match command with
  | COMMAND_LIST_ANALOG_INPUTS => Ok (Ex_ListAnalogInputs keys values count lastFunctionError)
  | COMMAND_READ_ADC_REGISTERS => Ok (Ex_ReadADCRegisters keys values count lastFunctionError)
  | COMMAND_READ_ANALOG_INPUT => Ex_ReadAnalogInput fuel keys values count lastFunctionError
  | COMMAND_ADD_ANALOG_INPUT =>
      let '(retval, e, calls) := Ex_AddAnalogInput keys values count lastFunctionError in
      Ok (retval, e, calls ≫= AnalogInputCall_output)
  | COMMAND_REMOVE_ANALOG_INPUT =>
      let '(retval, e, calls) := Ex_RemoveAnalogInput keys values count lastFunctionError in
      Ok (retval, e, calls ≫= AnalogInputCall_output)
  | COMMAND_CHECK_ANALOG_INPUT => Ok (Ex_CheckAnalogInput, lastFunctionError, [])
  | COMMAND_SYSTEM_GCAL =>
      let '(retval, e) := Ex_SystemGainCal keys values count lastFunctionError in
      Ok (retval, e, [])
  | COMMAND_SYSTEM_CAL =>
      let '(retval, e) := Ex_SystemCal lastFunctionError in
      Ok (retval, e, [])
  | COMMAND_LIST_DIGITAL_INPUTS => Ok (Ex_ListDigitalInputs keys values count lastFunctionError)
  | COMMAND_READ_DIGITAL_INPUT => Ex_ReadDigitalInput fuel keys values count lastFunctionError
  | COMMAND_ADD_DIGITAL_INPUT => Ok (Ex_AddDigitalInput keys values count lastFunctionError)
  | COMMAND_REMOVE_DIGITAL_INPUT =>
      Ok (Ex_RemoveDigitalInput keys values count lastFunctionError)
  | COMMAND_LIST_DIGITAL_OUTPUTS =>
      Ok (Ex_ListDigitalOutputs keys values count lastFunctionError)
  | COMMAND_SET_DIGITAL_OUTPUT => Ok (Ex_SetDigitalOutput keys values count lastFunctionError)
  | COMMAND_READ_DIGITAL_OUTPUT => Ex_ReadDigitalOutput fuel keys values count lastFunctionError
  | COMMAND_ADD_DIGITAL_OUTPUT => Ok (Ex_AddDigitalOutput keys values count lastFunctionError)
  | COMMAND_REMOVE_DIGITAL_OUTPUT =>
      Ok (Ex_RemoveDigitalOutput keys values count lastFunctionError)
  | COMMAND_CLEAR_DIG_OUTPUT_FAULT => Ok (Ex_ClearDigitalOutputFault, lastFunctionError, [])
  | COMMAND_DISCONNECT => Ok (ERR_COMMAND_OK, lastFunctionError, [Close])
  | COMMAND_UPGRADE => SystemReset
  | COMMAND_IDENTIFY => Ok (ERR_COMMAND_OK, lastFunctionError, snd Ex_Identify)
  | COMMAND_SAMPLE => Ex_Sample fuel keys values count lastFunctionError
  | COMMAND_HALT => Ok (ERR_COMMAND_OK, lastFunctionError, HaltTasks)
  | COMMAND_SET_RTC => Ok (Ex_SetRTC, lastFunctionError, [])
  | COMMAND_SET_USER_MAC => Ok (Ex_SetUserMac, lastFunctionError, [])
  | COMMAND_SET_STATIC_IP => Ok (Ex_SetStaticIP, lastFunctionError, [])
  | COMMAND_GET_CALIBRATION_STATUS =>
      Ok (fst Ex_GetCalibrationStatus, lastFunctionError, snd Ex_GetCalibrationStatus)
  | COMMAND_NONE => Ok (ERR_COMMAND_OK, lastFunctionError, [])
  | COMMAND_unlisted => Ok (ERR_COMMAND_BAD_COMMAND, lastFunctionError, [])
  end.

(** ** Processing a line *)

Definition set_lastFunctionError (e : Tekdaqc_Function_Error_t) (st : Interpreter) : Interpreter :=
  {| command_buffer := command_buffer st; lastFunctionError := e |}.

Definition set_command_buffer (buffer : string) (st : Interpreter) : Interpreter :=
  {| command_buffer := buffer; lastFunctionError := lastFunctionError st |}.

Definition ClearCommandBuffer (st : Interpreter) : Interpreter :=
  {| command_buffer := EmptyString; lastFunctionError := lastFunctionError st |}.

Definition ProcessCommand (fuel : nat) (stack : Stack) (command : string)
    (raw_args : list string) (arg_count : nat) (st : Interpreter)
    : Run (Interpreter * list TelnetEvent) :=
  let command := ToUpperCase command in
  let command_type := ParseCommand command in
  '(keys, values) ← ParseKeyValuePairs raw_args (array_of (stack_keys stack))
                       (array_of (stack_values stack)) arg_count;
  '(error, e, output) ← ExecuteCommand fuel command_type keys values arg_count
                           (lastFunctionError st);
  Ok (set_lastFunctionError e st, output ++ [ProcessCommandError error e]).

(** The loop of [Command_ParseLine] that copies the argument tokens: [saved]
    is where [strtok] continues, [n] iterations are left. *)
Fixpoint copy_arguments (n : nat) (i : nat) (saved : string) (raw_args : list string)
    : Run (list string) :=
  match n with
  | O => Ok raw_args
  | S n' =>
      match strtok saved COMMAND_DELIMETER with
      | None => Ok raw_args
      | Some (pch, saved') =>
          a ← strcpy_into raw_args i pch;
          copy_arguments n' (S i) saved' a
      end
  end.

(** The characters from [s] on as the calls of [strtok] leave them, [n] calls
    being left: a call that finds a token overwrites the delimiter that ends
    it, a call that finds none is the last. *)
Fixpoint strtok_leaves (n : nat) (s : string) : string :=
  match n with
  | O => s
  | S n' =>
      match strtok s COMMAND_DELIMETER with
      | None => s
      | Some (_, saved) => strtok_written COMMAND_DELIMETER s +:+ strtok_leaves n' saved
      end
  end.

(** The command buffer read as a C string.  A buffer filled up to its last
    character without a null character among them has no terminating null
    character inside the array. *)
Definition buffer_text (st : Interpreter) : Run string :=
  if negb (String.eqb (after_c_str (command_buffer st)) EmptyString)
     || (buffer_position st <? MAX_COMMANDLINE_LENGTH)
  then Ok (c_str (command_buffer st))
  else Undefined.

(** The state handed on is the one the tokenizer leaves: the calls of
    [strtok], one for the command and one for each turn of the loop, write
    into the command buffer; a line without arguments is copied and the
    buffer stays as it is. *)
Definition Command_ParseLine (fuel : nat) (stack : Stack) (st : Interpreter)
    : Run (Interpreter * list TelnetEvent) :=
  let raw_args := array_of (stack_raw_args stack) in
  line ← buffer_text st;
  let count := wrap8 (count_chars COMMAND_DELIMETER line) in
  if 0 <? count then
    let command_end := strcspn line COMMAND_DELIMETER in
    if command_end =? MAX_COMMANDPART_LENGTH then Ok (ClearCommandBuffer st, [])
    else
      match strtok line COMMAND_DELIMETER with
      | None => Undefined
      | Some (pch, saved) =>
          command ← strcpy_local pch;
          raw_args ← copy_arguments (Z.to_nat count) 0 saved raw_args;
          ProcessCommand fuel stack command raw_args (Z.to_nat count)
            (set_command_buffer
               (strtok_leaves (S (Z.to_nat count)) line
                  +:+ after_c_str (command_buffer st)) st)
      end
  else
    let length := Z.of_nat (String.length line) in
    if MAX_COMMANDPART_LENGTH - 1 <? length then Ok (ClearCommandBuffer st, [])
    else ProcessCommand fuel stack line raw_args (Z.to_nat count) st.


Fixpoint remove_last (s : string) : string :=
  match s with
  | EmptyString => EmptyString
  | String c EmptyString => EmptyString
  | String c s' => String c (remove_last s')
  end.

Definition Command_AddChar (fuel : nat) (stack : Stack) (character : ascii) (st : Interpreter)
    : Run (Interpreter * list TelnetEvent) :=
  let code := Ascii.N_of_ascii character in
  if negb (code =? 0)%N && (buffer_position st <? MAX_COMMANDLINE_LENGTH) then
    if ((code =? 10) || (code =? 13))%N then
      '(st', output) ← Command_ParseLine fuel stack st;
      Ok (ClearCommandBuffer st', output)
    else if ((code =? 8) || (code =? 127))%N then
      if 0 <? buffer_position st
      then Ok ({| command_buffer := remove_last (command_buffer st);
                  lastFunctionError := lastFunctionError st |}, [])
      else Ok (st, [])
    else
      Ok ({| command_buffer := command_buffer st +:+ String character EmptyString;
             lastFunctionError := lastFunctionError st |}, [])
  else Ok (st, []).

(** ** The character stream *)

(** Modelled from the spec: the Telnet server, which is outside the sources,
    hands the interpreter the bytes it receives one by one, in the order they
    arrive.  The state after the last byte, and the Telnet output of all the
    calls. *)
Fixpoint Command_AddChars (fuel : nat) (stack : Stack) (characters : list ascii)
    (st : Interpreter) : Run (Interpreter * list TelnetEvent) :=
  match characters with
  | [] => Ok (st, [])
  | c :: rest =>
      '(st1, output1) ← Command_AddChar fuel stack c st;
      '(st2, output2) ← Command_AddChars fuel stack rest st1;
      Ok (st2, output1 ++ output2)
  end.

End CommandHandlers.

(** A character that [Command_AddChar] stores: not the null character, not a
    line end, not a backspace or delete. *)
Definition is_text_character (c : ascii) : bool :=
  let code := Ascii.N_of_ascii c in
  negb ((code =? 0) || (code =? 10) || (code =? 13) || (code =? 8) || (code =? 127))%N.

Definition string_of_characters (characters : list ascii) : string :=
  String.string_of_list_ascii characters.

(** * The calibration table, continued *)

(** ** Entering calibration mode and initialisation

    The macros of the calibration sector and the sector erase of the flash
    driver are outside the sources; the model takes them as parameters.
    [FLASH_EraseSector_outcome] is the status the driver answers the erase
    with, given the programming requests made before it;
    [FLASH_EraseSector_memory] is what a completed erase makes of the memory.
    [FLASH_Unlock], [FLASH_ClearFlag], [FLASH_Lock] and [FLASH_SetLatency] act
    on registers of the flash controller that are not part of the state. *)

Class CalibrationSector : Type := {
  ADDR_CALIBRATION_BASE : Z;
  ADDR_CALIBRATION_END : Z;
  CALIBRATION_ERASE_DATA : Z;
  CAL_TEMP_CNT_ADDR : Z;
  CAL_VALID_ADDR : Z;
  FLASH_EraseSector_outcome : list FlashOp -> FLASH_Status;
  FLASH_EraseSector_memory : memory -> memory
}.

(** [*(__IO float* ) Address]: the binary32 number a 32 bit word encodes. *)
Definition f32_of_bits (w : Z) : float32 :=
  let sign := Z.testbit w 31 in
  let exponent := Z.land (Z.shiftr w 23) 255 in
  let fraction := Z.land w 8388607 in
  if exponent =? 0 then
    match fraction with
    | Z.pos m => S754_finite sign m (-149)
    | _ => S754_zero sign
    end
  else if exponent =? 255 then
    (if fraction =? 0 then S754_infinity sign else S754_nan)
  else
    match fraction + 8388608 with
    | Z.pos m => S754_finite sign m (exponent - 150)
    | _ => S754_nan
    end.

Section CalibrationMode.

Context {board : Board} {sector : CalibrationSector}.

(** The three temperatures are read as [float] and the count as [uint32_t]
    from their addresses; the data is valid unless the byte at
    [CAL_VALID_ADDR] is [0xFF]. *)
Definition Tekdaqc_CalibrationInit (st : State) : bool * State :=
  (true,
   {| CAL_TEMP_HIGH := f32_of_bits (read_word (mem st) CAL_TEMP_HIGH_ADDR);
      CAL_TEMP_LOW := f32_of_bits (read_word (mem st) CAL_TEMP_LOW_ADDR);
      CAL_TEMP_STEP := f32_of_bits (read_word (mem st) CAL_TEMP_STEP_ADDR);
      CAL_TEMP_CNT := read_word (mem st) CAL_TEMP_CNT_ADDR;
      CALIBRATION_VALID := negb (mem st CAL_VALID_ADDR =? 255);
      CalibrationModeEnabled := CalibrationModeEnabled st;
      offsetCalibrations := offsetCalibrations st;
      baseGainCalibrations := baseGainCalibrations st;
      mem := mem st; flash_ops := flash_ops st; telnet_errors := telnet_errors st |}).

(** Modelled from the spec: [FLASH_EraseSector] is the erase primitive of the
    storage medium, a collaborator outside the sources.  The driver answers
    [FLASH_EraseSector(CALIBRATION_SECTOR, FLASH_VOLTAGE_RANGE)] with a status;
    an erase that completes changes the memory.  The erase is no programming
    request and is not recorded among them. *)
Definition FLASH_EraseSector (st : State) : FLASH_Status * State :=
  let status := FLASH_EraseSector_outcome (flash_ops st) in
  (status,
   set_flash
     (if FLASH_Status_eqb status FLASH_COMPLETE then FLASH_EraseSector_memory (mem st)
      else mem st)
     (flash_ops st) st).

(** The loop of [Tekdaqc_SetCalibrationMode] and the two statements after it:
    [while (Address < ADDR_CALIBRATION_END) { status = FLASH_ProgramWord(...);
    if (status == FLASH_COMPLETE) Address = Address + 4; else return status; }
    CalibrationModeEnabled = true; return status;]. *)
Fixpoint erase_calibration_words (fuel : nat) (Address : Z) (status : FLASH_Status)
    (st : State) : Run (FLASH_Status * State) :=
  if Address <? ADDR_CALIBRATION_END then
    match fuel with
    | O => OutOfFuel
    | S fuel' =>
        let '(status, st1) := FLASH_ProgramWord Address CALIBRATION_ERASE_DATA st in
        if FLASH_Status_eqb status FLASH_COMPLETE
        then erase_calibration_words fuel' (wrap32 (Address + 4)) status st1
        else Ok (status, st1)
    end
  else Ok (status, set_CalibrationModeEnabled true st).

Definition Tekdaqc_SetCalibrationMode (fuel : nat) (st : State) : Run (FLASH_Status * State) :=
  let '(status, st1) := FLASH_EraseSector st in
  if negb (FLASH_Status_eqb status FLASH_COMPLETE) then Ok (status, st1)
  else erase_calibration_words fuel (wrap32 ADDR_CALIBRATION_BASE) status st1.

End CalibrationMode.

(** * An example board

    Concrete values for the parameters of the model: the theorems below are
    run on them.  The addresses lie in the last sector of the flash of the
    processor; the flash driver completes every request. *)

Definition example_board : Board := {|
  CAL_DATA_START_ADDR := 0x080E0020;
  CALIBRATION_BUFFER_OFFSET := 0x400;
  CAL_TEMP_LOW_ADDR := 0x080E0000;
  CAL_TEMP_HIGH_ADDR := 0x080E0004;
  CAL_TEMP_STEP_ADDR := 0x080E0008;
  BOARD_SERIAL_NUM_ADDR := 0x080E0010;
  BOARD_SERIAL_NUM_LENGTH := 16;
  FLASH_outcome := fun _ _ => FLASH_COMPLETE
|}.

(** Calibration words 1000, 2000, ..., 11000 for the temperatures 0, 10, ...,
    100 degrees, one word after the other from [CAL_DATA_START_ADDR] on;
    erased flash elsewhere. *)
Definition example_memory : memory :=
  foldl (fun m k => write_word m (0x080E0020 + 4 * k) (1000 * (k + 1)))
    (fun _ => 255) (seqZ 0 11).

Definition example_state (valid mode : bool) : State := {|
  CAL_TEMP_HIGH := f32_of_Z 100;
  CAL_TEMP_LOW := f32_of_Z 0;
  CAL_TEMP_STEP := f32_of_Z 10;
  CAL_TEMP_CNT := 11;
  CALIBRATION_VALID := valid;
  CalibrationModeEnabled := mode;
  offsetCalibrations := ∅;
  baseGainCalibrations := ∅;
  mem := example_memory;
  flash_ops := [];
  telnet_errors := []
|}.

Definition example_driver : AdcDriver := {|
  ADS1256_StringToBuffer :=
    fun s => if String.eqb s "ENABLED" then ADS1256_BUFFER_ENABLED else ADS1256_BUFFER_DISABLED;
  ADS1256_StringToDataRate := fun _ => ADS1256_SPS_60;
  ADS1256_StringToPGA := fun _ => ADS1256_PGAx1;
  ADS1256_BUFFER_value :=
    fun b => match b with ADS1256_BUFFER_ENABLED => 1 | _ => 0 end;
  EXTERNAL_0 := 0;
  getMaximumBoardTemperature := f32_of_Z 40;
  getMinimumBoardTemperature := f32_of_Z 10;
  CALIBRATION_VALID_MAX_TEMP := f32_of_Z 50;
  CALIBRATION_VALID_MIN_TEMP := f32_of_Z 0
|}.

Definition example_platform : CommandPlatform := {|
  MAX_COMMANDPART_LENGTH := 32;
  MAX_NUM_ARGUMENTS := 8;
  MAX_COMMANDLINE_LENGTH := 256;
  NUM_ANALOG_INPUTS := 36;
  GetAnalogInputByNumber := fun n => if (0 <=? n) && (n <? 36) then Some (1000 + n) else None;
  Tekdaqc_CommandError_ToString :=
    fun e => match e with ERR_COMMAND_OK => "Command OK" | _ => "Command error" end;
  Tekdaqc_FunctionError_ToString := fun _ => "Function error";
  identity_text := "Board Identity"
|}.

(** ** Well formed lines

    The lines the protocol describes: a command word and arguments, one space
    before each argument.  A token is not empty, holds no space and fits a
    command part; an argument is a token that either lacks the key/value flag
    or has a character other than the key/value delimiter right after it. *)


Fixpoint free_of (set : string) (s : string) : bool :=
  match s with
  | EmptyString => true
  | String c s' => negb (is_one_of set c) && free_of set s'
  end.




Definition example_stack : Stack :=
  {| stack_raw_args := []; stack_keys := []; stack_values := [] |}.

Definition example_interpreter (line : string) : Interpreter :=
  {| command_buffer := line; lastFunctionError := ERR_FUNCTION_OK |}.

(** ** Further examples *)

Definition example_sector : CalibrationSector := {|
  ADDR_CALIBRATION_BASE := 0x080E0000;
  ADDR_CALIBRATION_END := 0x080E0040;
  CALIBRATION_ERASE_DATA := 0xFFFFFFFF;
  CAL_TEMP_CNT_ADDR := 0x080E000C;
  CAL_VALID_ADDR := 0x080E000D;
  FLASH_EraseSector_outcome := fun _ => FLASH_COMPLETE;
  FLASH_EraseSector_memory := fun _ _ => 255
|}.

(** A calibration sector whose erase fails. *)
Definition example_worn_sector : CalibrationSector := {|
  ADDR_CALIBRATION_BASE := 0x080E0000;
  ADDR_CALIBRATION_END := 0x080E0040;
  CALIBRATION_ERASE_DATA := 0xFFFFFFFF;
  CAL_TEMP_CNT_ADDR := 0x080E000C;
  CAL_VALID_ADDR := 0x080E000D;
  FLASH_EraseSector_outcome := fun _ => FLASH_ERROR_PROGRAM;
  FLASH_EraseSector_memory := fun _ _ => 255
|}.

(** A board whose serial number area is the addresses 4 to 11, indices inside
    a serial number of eleven characters or more, and whose flash driver does
    not complete the requests for the addresses 5 and 9. *)
Definition example_low_board : Board := {|
  CAL_DATA_START_ADDR := 0x080E0020;
  CALIBRATION_BUFFER_OFFSET := 0x400;
  CAL_TEMP_LOW_ADDR := 0x080E0000;
  CAL_TEMP_HIGH_ADDR := 0x080E0004;
  CAL_TEMP_STEP_ADDR := 0x080E0008;
  BOARD_SERIAL_NUM_ADDR := 4;
  BOARD_SERIAL_NUM_LENGTH := 8;
  FLASH_outcome := fun _ op =>
    match op with
    | ProgramByte 5 _ => FLASH_ERROR_other
    | ProgramByte 9 _ => FLASH_ERROR_PROGRAM
    | _ => FLASH_COMPLETE
    end
|}.

Definition example_digital : DigitalPlatform := {|
  NUM_DIGITAL_INPUTS := 24;
  NUM_DIGITAL_OUTPUTS := 16;
  GetDigitalInputByNumber := fun n => if (0 <=? n) && (n <? 24) then Some (2000 + n) else None;
  GetDigitalOutputByNumber := fun n => if (0 <=? n) && (n <? 16) then Some (3000 + n) else None
|}.

Definition example_module : AnalogInputModule := {|
  isADCSampling := false;
  CreateAnalogInput := fun _ _ _ => ERR_FUNCTION_OK;
  RemoveAnalogInput := fun _ _ _ => ERR_FUNCTION_OK
|}.

(** Modules that answer every call with [ERR_FUNCTION_OK], write the list
    they are asked for and nothing else, and are not sampling. *)
Definition example_modules : CommandModules := {|
  ListAnalogInputs := (ERR_FUNCTION_OK, [WriteString "Analog Inputs"]);
  ADS1256_RegistersToString := "ADC Registers";
  ADC_Machine_Input_Sample := fun _ _ => [];
  CommandStateMoveToAnalogInputSample := [];
  AnalogInputCall_output := fun _ => [];
  ListDigitalInputs := (ERR_FUNCTION_OK, [WriteString "Digital Inputs"]);
  DI_Machine_Input_Sample := fun _ _ => [];
  CommandStateMoveToDigitalInputSample := [];
  isDISampling := false;
  CreateDigitalInput := fun _ _ _ => (ERR_FUNCTION_OK, []);
  RemoveDigitalInput := fun _ _ _ => (ERR_FUNCTION_OK, []);
  ListDigitalOutputs := (ERR_FUNCTION_OK, [WriteString "Digital Outputs"]);
  SetDigitalOutput := fun _ _ _ => (ERR_FUNCTION_OK, []);
  DO_Machine_Output_Sample := fun _ _ => [];
  CommandStateMoveToDigitalOutputSample := [];
  isDOSampling := false;
  CreateDigitalOutput := fun _ _ _ => (ERR_FUNCTION_OK, []);
  RemoveDigitalOutput := fun _ _ _ => (ERR_FUNCTION_OK, []);
  CommandStateMoveToGeneralSample := [];
  HaltTasks := []
|}.

(** ** Notions used in the statements *)

(** The addresses [A], [A + 4], ... of [n] words. *)
Fixpoint word_addresses (n : nat) (A : Z) : list Z :=
  match n with
  | O => []
  | S n' => A :: word_addresses n' (A + 4)
  end.

(** The byte at the index [a] of the array of a serial number, for an index
    inside the array, and the request [Tekdaqc_SetSerialNumber] makes when its
    loop variable is [a]. *)
Definition serial_byte (serial : c_string) (a : Z) : Z :=
  default 0 (text serial !! Z.to_nat a).

Definition serial_request (serial : c_string) (a : Z) : FlashOp :=
  ProgramByte (wrap32 a) (wrap8 (serial_byte serial a)).

(** [keys[i]] is the first of the [count] keys that is [key]. *)
Definition first_key (keys : list string) (count : nat) (key : string) (i : nat) : Prop :=
  (i < count)%nat /\ string_at keys i = key /\
  forall j, (j < i)%nat -> string_at keys j <> key.

(** The entries of a channel set after the first: what follows each
    [SET_DELIMETER] of the selector. *)
Fixpoint entries_after_delimiter (param : string) : list string :=
  match param with
  | EmptyString => []
  | String c rest =>
      (if Ascii.eqb c SET_DELIMETER then [rest] else []) ++ entries_after_delimiter rest
  end.

(** [p] points into the string [s]. *)
Definition points_into (p s : string) : Prop := exists before, s = before +:+ p.

(** Two runs that end the same way, with results related by [R]. *)
Definition Run_related {A : Type} (R : A -> A -> Prop) (r1 r2 : Run A) : Prop :=
  match r1, r2 with
  | Ok a1, Ok a2 => R a1 a2
  | Undefined, Undefined => True
  | OutOfFuel, OutOfFuel => True
  | SystemReset, SystemReset => True
  | _, _ => False
  end.

Definition up_to_case (a b : string) : Prop := ToUpperCase a = ToUpperCase b.

(** What [Command_AddChar] makes of the run of [Command_ParseLine]. *)
Definition line_end (r : Run (Interpreter * list TelnetEvent))
    : Run (Interpreter * list TelnetEvent) :=
  '(st', output) ← r; Ok (ClearCommandBuffer st', output).







(** The interpreter of the example platform at the carriage return that ends
    the line [line], typed into an empty buffer. *)
Definition example_line_end (fuel : nat) (line : string)
    : Run (Interpreter * list TelnetEvent) :=
  Command_AddChar (platform := example_platform) (driver := example_driver)
    (digital := example_digital) (module := example_module) (modules := example_modules)
    fuel example_stack "013"%char (example_interpreter line).

(** * Properties of the calibration table *)

(** A closed premise is settled by evaluating it. *)
Ltac evaluate :=
  first [reflexivity | vm_compute; discriminate | vm_compute; reflexivity | lia].

Section CalibrationTableFacts.

Context {board : Board}.

(** The lookup offset does not depend on the temperature. *)
Lemma ComputeOffset_temperature rate gain buffer t1 t2 st :
  fst (ComputeOffset rate gain buffer t1 st) = fst (ComputeOffset rate gain buffer t2 st).
Proof. by destruct buffer. Qed.

(** For a listed sample rate the three indices lie inside the tables, whatever
    the variables of the caller held, and do not depend on what they held. *)
Lemma ComputeTableIndices_listed_in_table locals rate gain buffer :
  rate <> ADS1256_SPS_unlisted ->
  in_table (ComputeTableIndices locals rate gain buffer) = true.
Proof. intros Hr. by destruct rate, gain, buffer. Qed.

Lemma ComputeTableIndices_listed_locals locals locals' rate gain buffer :
  rate <> ADS1256_SPS_unlisted ->
  ComputeTableIndices locals rate gain buffer = ComputeTableIndices locals' rate gain buffer.
Proof. intros Hr. by destruct rate. Qed.

(** An unlisted gain selects the slot of [ADS1256_PGAx1]. *)
Lemma ComputeTableIndices_unlisted_gain locals rate buffer :
  gain_index (ComputeTableIndices locals rate ADS1256_PGA_unlisted buffer) =
  gain_index (ComputeTableIndices locals rate ADS1256_PGAx1 buffer) /\
  gain_index (ComputeTableIndices locals rate ADS1256_PGA_unlisted buffer) = 0.
Proof. done. Qed.

Lemma table_load_store (t : table) i v :
  in_table i = true ->
  table_store t i v = Ok (<[table_key i := v]> t) /\
  table_load (<[table_key i := v]> t) i = Ok v.
Proof.
  intros Hi. unfold table_store, table_load. rewrite Hi.
  by rewrite lookup_insert_eq.
Qed.

(** C10: while the persisted data is not valid, the value
    [Tekdaqc_Calibration_SetBaseGainValue] stores for a sample rate, gain and
    buffer setting is exactly the value [Tekdaqc_GetGainCalibration] returns
    for that setting at every temperature, whatever the index variables of the
    setter held before: nothing of the persisted table is read.  The sample
    rate is any of the sixteen rate settings; the gain and the buffer setting
    are arbitrary. *)
Theorem set_base_gain_get_gain_listed_rate locals v rate gain buffer t st :
  CALIBRATION_VALID st = false ->
  rate <> ADS1256_SPS_unlisted ->
  exists st1,
    Tekdaqc_Calibration_SetBaseGainValue locals v rate gain buffer st = Ok st1 /\
    Tekdaqc_GetGainCalibration rate gain buffer t st1 = Ok (v, st1).
Proof.
  intros Hvalid Hrate.
  pose proof (ComputeTableIndices_listed_in_table locals rate gain buffer Hrate) as Hin.
  destruct (table_load_store (baseGainCalibrations st) _ v Hin) as [Hst Hld].
  eexists. split.
  - unfold Tekdaqc_Calibration_SetBaseGainValue. rewrite Hst. reflexivity.
  - unfold Tekdaqc_GetGainCalibration.
    rewrite (ComputeTableIndices_listed_locals
               {| rate_index := 0; gain_index := 0; buffer_index := 0 |}
               locals rate gain buffer Hrate).
    cbn [baseGainCalibrations set_baseGainCalibrations CALIBRATION_VALID].
    rewrite Hld. cbn. rewrite Hvalid. reflexivity.
Qed.

(** The word [Tekdaqc_SetGainCalibration] programs goes to the address
    [offset], the word [Tekdaqc_GetGainCalibration] fetches comes from
    [CAL_DATA_START_ADDR + 4 * offset]: the two differ unless
    [CAL_DATA_START_ADDR + 3 * offset] is a multiple of [2 ^ 32]. *)
Theorem program_address_is_not_fetch_address cal rate gain buffer temperature st :
  CalibrationModeEnabled st = true ->
  let offset := fst (ComputeOffset rate gain buffer temperature st) in
  wrap32 (CAL_DATA_START_ADDR + 3 * offset) <> 0 ->
  head (flash_ops (snd (Tekdaqc_SetGainCalibration cal rate gain buffer temperature st)))
    = Some (ProgramWord offset cal) /\
  fetch_address offset <> offset.
Proof.
  intros Hmode offset Hne. split.
  - unfold Tekdaqc_SetGainCalibration. rewrite Hmode. cbn [negb].
    subst offset. by destruct buffer.
  - unfold fetch_address, wrap32 in *. intros Heq. apply Hne.
    assert (Hoff : offset = offset mod 4294967296).
    { subst offset. unfold ComputeOffset, wrap32. destruct buffer; cbn [fst];
        try reflexivity. by rewrite Z.mod_mod. }
    replace (CAL_DATA_START_ADDR + 3 * offset)
      with ((CAL_DATA_START_ADDR + 4 * offset) - offset) by lia.
    rewrite Zminus_mod, Heq, <- Hoff, Z.sub_diag. reflexivity.
Qed.

Lemma ComputeOffset_mem rate gain buffer t st :
  mem (snd (ComputeOffset rate gain buffer t st)) = mem st.
Proof. by destruct buffer. Qed.

(** With valid persisted data, at every temperature, both words handed to
    [InterpolateValue] are the one word at the address the lookup offset of
    the buffer setting selects; the temperature, clamped to the calibrated
    range ([CAL_TEMP_LOW] when it is below it, [CAL_TEMP_HIGH] when it is
    above it), enters through the factor only. *)
Theorem get_gain_fetches_one_word rate gain buffer temperature st :
  CALIBRATION_VALID st = true ->
  let clamped :=
    if f32_lt temperature (CAL_TEMP_LOW st) then CAL_TEMP_LOW st
    else if f32_lt (CAL_TEMP_HIGH st) temperature then CAL_TEMP_HIGH st
    else temperature in
  let word := read_word (mem st)
                (fetch_address (fst (ComputeOffset rate gain buffer temperature st))) in
  run_value (Tekdaqc_GetGainCalibration rate gain buffer temperature st) =
    (baseGain ← table_load (baseGainCalibrations st)
                 (ComputeTableIndices
                    {| rate_index := 0; gain_index := 0; buffer_index := 0 |}
                    rate gain buffer);
     _ ← run_of_option (f32_to_uint 8 (f32_div clamped (CAL_TEMP_STEP st)));
     v ← InterpolateValue word word (interpolation_factor clamped st);
     Ok (wrap32 (baseGain + v))).
Proof.
  intros Hvalid clamped0. unfold Tekdaqc_GetGainCalibration. rewrite Hvalid. cbn [negb].
  set (out := f32_lt temperature (CAL_TEMP_LOW st) || f32_lt (CAL_TEMP_HIGH st) temperature).
  set (clamped := if out then _ else temperature).
  assert (Hclamped : clamped0 = clamped).
  { subst clamped0 clamped out.
    by destruct (f32_lt temperature (CAL_TEMP_LOW st)),
                (f32_lt (CAL_TEMP_HIGH st) temperature). }
  rewrite Hclamped. clearbody clamped. clear clamped0 Hclamped. cbv zeta.
  destruct (table_load _ _) as [baseGain | | |]; cbn [mbind Run_bind run_bind run_value];
    try reflexivity.
  destruct (run_of_option (f32_to_uint 8 _)) as [n | | |];
    cbn [mbind Run_bind run_bind run_value]; try reflexivity.
  destruct buffer, out; cbn -[InterpolateValue read_word fetch_address interpolation_factor];
    (match goal with |- context [InterpolateValue ?a ?b ?c] =>
       destruct (InterpolateValue a b c) as [v | | |] end); reflexivity.
Qed.

(** For a listed sample rate the indices of a table access lie inside the
    tables whatever the variables of the caller held, and an unlisted gain
    selects the slot of [ADS1256_PGAx1]. *)
Theorem listed_rate_indices_inside_tables locals rate gain buffer :
  rate <> ADS1256_SPS_unlisted ->
  in_table (ComputeTableIndices locals rate gain buffer) = true /\
  gain_index (ComputeTableIndices locals rate ADS1256_PGA_unlisted buffer) = 0.
Proof.
  intros Hrate. split.
  - by apply ComputeTableIndices_listed_in_table.
  - apply ComputeTableIndices_unlisted_gain.
Qed.

(** C6: while calibration mode is not enabled, [Tekdaqc_SetSerialNumber],
    [Tekdaqc_SetCalibrationLowTemperature],
    [Tekdaqc_SetCalibrationHighTemperature],
    [Tekdaqc_SetCalibrationStepTemperature] and [Tekdaqc_SetGainCalibration]
    all return [FLASH_ERROR_WRP] and leave the state as it is: no request
    reaches the flash driver and the memory is not changed. *)
Theorem write_protected_when_mode_disabled serial temp cal rate gain buffer temperature st :
  CalibrationModeEnabled st = false ->
  Tekdaqc_SetSerialNumber serial st = Ok (FLASH_ERROR_WRP, st) /\
  Tekdaqc_SetCalibrationLowTemperature temp st = Ok (FLASH_ERROR_WRP, st) /\
  Tekdaqc_SetCalibrationHighTemperature temp st = Ok (FLASH_ERROR_WRP, st) /\
  Tekdaqc_SetCalibrationStepTemperature temp st = Ok (FLASH_ERROR_WRP, st) /\
  Tekdaqc_SetGainCalibration cal rate gain buffer temperature st = (FLASH_ERROR_WRP, st).
Proof.
  intros Hmode.
  unfold Tekdaqc_SetSerialNumber, Tekdaqc_SetCalibrationLowTemperature,
    Tekdaqc_SetCalibrationHighTemperature, Tekdaqc_SetCalibrationStepTemperature,
    Tekdaqc_SetGainCalibration.
  rewrite Hmode. cbn [negb]. repeat split.
Qed.

(** C7: in calibration mode, a serial number shorter than
    [BOARD_SERIAL_NUM_LENGTH] makes [Tekdaqc_SetSerialNumber] return
    [FLASH_ERROR_PROGRAM] with the state as it was: [FLASH_ProgramByte] is not
    called once. *)
Theorem short_serial_number_is_not_programmed serial st :
  CalibrationModeEnabled st = true ->
  strlen serial < BOARD_SERIAL_NUM_LENGTH ->
  Tekdaqc_SetSerialNumber serial st = Ok (FLASH_ERROR_PROGRAM, st) /\
  forall status st',
    Tekdaqc_SetSerialNumber serial st = Ok (status, st') -> flash_ops st' = flash_ops st.
Proof.
  intros Hmode Hshort.
  assert (Hrun : Tekdaqc_SetSerialNumber serial st = Ok (FLASH_ERROR_PROGRAM, st)).
  { unfold Tekdaqc_SetSerialNumber. rewrite Hmode. cbn [negb].
    apply Z.ltb_lt in Hshort. rewrite Hshort. reflexivity. }
  rewrite Hrun. split; [reflexivity |]. by intros status st' [= _ <-].
Qed.

End CalibrationTableFacts.

(** C1 (the code departs from the claim): on the example board the words for
    the steps 2 and 3 are 3000 and 4000, so the claim puts the gain at 25
    degrees half way between them.  The code hands [InterpolateValue] the
    factor 5/2, not its fractional part, fetches both anchors from the one
    address the temperature has no part in, and returns the word of step 0 at
    25 degrees and at 95 degrees alike. *)
Theorem get_gain_does_not_interpolate :
  let get t :=
    run_value (Tekdaqc_GetGainCalibration (board := example_board)
                 ADS1256_SPS_60 ADS1256_PGAx1 ADS1256_BUFFER_DISABLED t
                 (example_state true false)) in
  read_word example_memory (0x080E0020 + 4 * 2) = 3000 /\
  read_word example_memory (0x080E0020 + 4 * 3) = 4000 /\
  interpolation_factor (f32_of_Z 25) (example_state true false)
    = f32_div (f32_of_Z 5) (f32_of_Z 2) /\
  get (f32_of_Z 25) = Ok 1000 /\
  get (f32_of_Z 95) = Ok 1000.
Proof. vm_compute. repeat split; reflexivity. Qed.

(** C2 (the code departs from the claim): on the example board, in calibration
    mode, [Tekdaqc_SetGainCalibration] programs the word at address 0, the
    offset itself, while [Tekdaqc_GetGainCalibration] fetches from
    [CAL_DATA_START_ADDR]; the gain read back is built from the word that was
    there before, not from the word just written. *)
Theorem set_gain_calibration_is_not_read_back :
  let st := example_state true true in
  let written := Tekdaqc_SetGainCalibration (board := example_board) 305419896
                   ADS1256_SPS_60 ADS1256_PGAx1 ADS1256_BUFFER_DISABLED (f32_of_Z 0) st in
  fst written = FLASH_COMPLETE /\
  flash_ops (snd written) = [ProgramWord 0 305419896] /\
  fetch_address (board := example_board)
    (fst (ComputeOffset (board := example_board) ADS1256_SPS_60 ADS1256_PGAx1
            ADS1256_BUFFER_DISABLED (f32_of_Z 0) st)) = 0x080E0020 /\
  run_value (Tekdaqc_GetGainCalibration (board := example_board)
               ADS1256_SPS_60 ADS1256_PGAx1 ADS1256_BUFFER_DISABLED (f32_of_Z 0) (snd written))
    = Ok 1000.
Proof. vm_compute. repeat split; reflexivity. Qed.

(** C3 (the code departs from the claim): for an unlisted sample rate
    [ComputeTableIndices] leaves the rate index of the caller as it found it.
    With 200 in that variable the index is outside the tables, and the three
    table operations that do not initialise it run into undefined
    behaviour. *)
Theorem unlisted_rate_index_is_not_written :
  (forall locals gain buffer,
     rate_index (ComputeTableIndices locals ADS1256_SPS_unlisted gain buffer)
       = rate_index locals) /\
  let locals := {| rate_index := 200; gain_index := 0; buffer_index := 0 |} in
  in_table (ComputeTableIndices locals ADS1256_SPS_unlisted ADS1256_PGAx1 ADS1256_BUFFER_ENABLED)
    = false /\
  (forall cal st,
     Tekdaqc_SetOffsetCalibration locals cal ADS1256_SPS_unlisted ADS1256_PGAx1
       ADS1256_BUFFER_ENABLED st = Undefined) /\
  (forall cal st,
     Tekdaqc_SetBaseGainCalibration locals cal ADS1256_SPS_unlisted ADS1256_PGAx1
       ADS1256_BUFFER_ENABLED st = Undefined) /\
  (forall st,
     Tekdaqc_GetOffsetCalibration locals ADS1256_SPS_unlisted ADS1256_PGAx1
       ADS1256_BUFFER_ENABLED st = Undefined).
Proof. repeat split. Qed.

(** For a value of the rate type that is none of the sixteen settings the
    round trip depends on the stack: with invalid persisted data
    [Tekdaqc_Calibration_SetBaseGainValue] stores 42 in the slot its
    uninitialised rate index happens to select (slot 5 here),
    [Tekdaqc_GetGainCalibration] reads slot 0, and the gain read is 0. *)
Theorem set_base_gain_unlisted_rate_is_not_read_back :
  let st := example_state false false in
  let st1 := set_baseGainCalibrations {[ (5, 0, 0) := 42 ]} st in
  Tekdaqc_Calibration_SetBaseGainValue
      {| rate_index := 5; gain_index := 0; buffer_index := 0 |}
      42 ADS1256_SPS_unlisted ADS1256_PGAx1 ADS1256_BUFFER_ENABLED st = Ok st1 /\
  Tekdaqc_GetGainCalibration (board := example_board)
      ADS1256_SPS_unlisted ADS1256_PGAx1 ADS1256_BUFFER_ENABLED (f32_of_Z 25) st1
    = Ok (0, st1).
Proof. split; reflexivity. Qed.

(** [write_protected_when_mode_disabled] on the example board, once
    [Tekdaqc_EndCalibrationMode] has left calibration mode. *)
Lemma write_protected_when_mode_disabled_witness :
  let st := Tekdaqc_EndCalibrationMode (example_state true true) in
  let serial := {| text := [65; 66; 67] |} in
  CalibrationModeEnabled st = false /\
  (Tekdaqc_SetSerialNumber (board := example_board) serial st = Ok (FLASH_ERROR_WRP, st) /\
   Tekdaqc_SetCalibrationLowTemperature (board := example_board) (f32_of_Z 5) st
     = Ok (FLASH_ERROR_WRP, st) /\
   Tekdaqc_SetCalibrationHighTemperature (board := example_board) (f32_of_Z 5) st
     = Ok (FLASH_ERROR_WRP, st) /\
   Tekdaqc_SetCalibrationStepTemperature (board := example_board) (f32_of_Z 5) st
     = Ok (FLASH_ERROR_WRP, st) /\
   Tekdaqc_SetGainCalibration (board := example_board) 7 ADS1256_SPS_60 ADS1256_PGAx1
     ADS1256_BUFFER_ENABLED (f32_of_Z 25) st = (FLASH_ERROR_WRP, st)).
Proof.
  split; [reflexivity |].
  apply (write_protected_when_mode_disabled (board := example_board)). reflexivity.
Defined.

(** [short_serial_number_is_not_programmed] on the example board, in
    calibration mode, for the three character serial number ABC. *)
Lemma short_serial_number_is_not_programmed_witness :
  let st := example_state true true in
  let serial := {| text := [65; 66; 67] |} in
  (CalibrationModeEnabled st = true /\
   strlen serial < BOARD_SERIAL_NUM_LENGTH (Board := example_board)) /\
  (Tekdaqc_SetSerialNumber (board := example_board) serial st = Ok (FLASH_ERROR_PROGRAM, st) /\
   forall status st',
     Tekdaqc_SetSerialNumber (board := example_board) serial st = Ok (status, st') ->
     flash_ops st' = flash_ops st).
Proof.
  split; [split; reflexivity |].
  apply (short_serial_number_is_not_programmed (board := example_board)); reflexivity.
Defined.

(** [set_base_gain_get_gain_listed_rate] on the example board, for a slot whose
    rate index the caller left at 9. *)
Lemma set_base_gain_get_gain_listed_rate_witness :
  let st := example_state false false in
  (CALIBRATION_VALID st = false /\ ADS1256_SPS_60 <> ADS1256_SPS_unlisted) /\
  exists st1,
    Tekdaqc_Calibration_SetBaseGainValue
      {| rate_index := 9; gain_index := 9; buffer_index := 9 |}
      42 ADS1256_SPS_60 ADS1256_PGAx2 ADS1256_BUFFER_ENABLED st = Ok st1 /\
    Tekdaqc_GetGainCalibration (board := example_board)
      ADS1256_SPS_60 ADS1256_PGAx2 ADS1256_BUFFER_ENABLED (f32_of_Z 25) st1 = Ok (42, st1).
Proof.
  split; [split; [reflexivity | discriminate] |].
  apply (set_base_gain_get_gain_listed_rate (board := example_board)); [reflexivity | discriminate].
Defined.

(** [get_gain_fetches_one_word] on the example board, whose calibrated range
    is 0 to 100 degrees, at 125 degrees: the temperature that enters the
    factor is 100 degrees. *)
Lemma get_gain_fetches_one_word_witness :
  let st := example_state true false in
  CALIBRATION_VALID st = true /\
  let clamped := f32_of_Z 100 in
  let word := read_word (mem st)
                (fetch_address (board := example_board)
                   (fst (ComputeOffset (board := example_board) ADS1256_SPS_60
                           ADS1256_PGAx1 ADS1256_BUFFER_DISABLED (f32_of_Z 125) st))) in
  run_value (Tekdaqc_GetGainCalibration (board := example_board) ADS1256_SPS_60
               ADS1256_PGAx1 ADS1256_BUFFER_DISABLED (f32_of_Z 125) st) =
    (baseGain ← table_load (baseGainCalibrations st)
                 (ComputeTableIndices
                    {| rate_index := 0; gain_index := 0; buffer_index := 0 |}
                    ADS1256_SPS_60 ADS1256_PGAx1 ADS1256_BUFFER_DISABLED);
     _ ← run_of_option (f32_to_uint 8 (f32_div clamped (CAL_TEMP_STEP st)));
     v ← InterpolateValue word word (interpolation_factor clamped st);
     Ok (wrap32 (baseGain + v))).
Proof.
  split; [reflexivity |].
  apply (get_gain_fetches_one_word (board := example_board) ADS1256_SPS_60 ADS1256_PGAx1
           ADS1256_BUFFER_DISABLED (f32_of_Z 125) (example_state true false)).
  reflexivity.
Defined.

(** [listed_rate_indices_inside_tables] for 60 samples per second and index
    variables that held 200. *)
Lemma listed_rate_indices_inside_tables_witness :
  let locals := {| rate_index := 200; gain_index := 200; buffer_index := 200 |} in
  ADS1256_SPS_60 <> ADS1256_SPS_unlisted /\
  (in_table (ComputeTableIndices locals ADS1256_SPS_60 ADS1256_PGAx64 ADS1256_BUFFER_DISABLED)
     = true /\
   gain_index (ComputeTableIndices locals ADS1256_SPS_60 ADS1256_PGA_unlisted
                 ADS1256_BUFFER_DISABLED) = 0).
Proof.
  split; [discriminate |].
  apply listed_rate_indices_inside_tables. discriminate.
Defined.

(** [program_address_is_not_fetch_address] on the example board with the
    buffer enabled: the word goes to 0x400 and is fetched from 0x080E1020. *)
Lemma program_address_is_not_fetch_address_witness :
  let st := example_state true true in
  let offset := fst (ComputeOffset (board := example_board) ADS1256_SPS_60 ADS1256_PGAx1
                       ADS1256_BUFFER_ENABLED (f32_of_Z 25) st) in
  (CalibrationModeEnabled st = true /\
   wrap32 (CAL_DATA_START_ADDR (Board := example_board) + 3 * offset) <> 0) /\
  (head (flash_ops (snd (Tekdaqc_SetGainCalibration (board := example_board) 7 ADS1256_SPS_60
                           ADS1256_PGAx1 ADS1256_BUFFER_ENABLED (f32_of_Z 25) st)))
     = Some (ProgramWord offset 7) /\
   fetch_address (board := example_board) offset <> offset).
Proof.
  split; [split; [reflexivity | discriminate] |].
  apply (program_address_is_not_fetch_address (board := example_board)); [reflexivity | discriminate].
Defined.

(** * Properties of the calibration processes *)

Section CalibrationFacts.

Context {driver : AdcDriver}.

(** [SetADCParameters] never reports an error; [PerformSystemGainCalibration]
    makes the three calls of [SetADCParameters] and then the call of
    [ADC_GainCalibrate], and its status is decided by the keys that are
    found. *)
Lemma PerformSystemGainCalibration_outcome keys values count :
  let found k := 0 <=? GetIndexOfArgument keys k count in
  fst (SetADCParameters keys values count) = ERR_FUNCTION_OK /\
  (exists buffer rate pga,
     snd (PerformSystemGainCalibration keys values count) =
       [ADS1256_SetInputBufferSetting buffer; ADS1256_SetDataRate rate;
        ADS1256_SetPGASetting pga;
        ADC_GainCalibrate
          (if found PARAMETER_INPUT
           then ADS1256_BUFFER_value
                  (ADS1256_StringToBuffer
                     (string_at values (Z.to_nat (GetIndexOfArgument keys PARAMETER_INPUT count))))
           else EXTERNAL_0)]) /\
  fst (PerformSystemGainCalibration keys values count) =
    (if negb (found PARAMETER_INPUT) then ERR_AIN_PARSE_MISSING_KEY
     else if found PARAMETER_BUFFER || found PARAMETER_RATE || found PARAMETER_GAIN
          then ERR_AIN_PARSE_ERROR
          else ERR_FUNCTION_OK).
Proof.
  intros found.
  assert (Hset : fst (SetADCParameters keys values count) = ERR_FUNCTION_OK).
  { unfold SetADCParameters. cbn [seq foldl NUM_SYSTEM_CAL_PARAMS fst].
    unfold SetADCParameters_body. cbn [string_at SYSTEM_CAL_PARAMS lookup list_lookup default].
    repeat (destruct (0 <=? GetIndexOfArgument _ _ _); cbn); reflexivity. }
  split; [exact Hset |].
  unfold PerformSystemGainCalibration.
  destruct (SetADCParameters keys values count) as [retval calls] eqn:Hs.
  cbn [fst] in Hset. subst retval.
  assert (Hcalls : exists buffer rate pga, calls =
            [ADS1256_SetInputBufferSetting buffer; ADS1256_SetDataRate rate;
             ADS1256_SetPGASetting pga]).
  { unfold SetADCParameters in Hs. inversion Hs. eauto. }
  destruct Hcalls as (b & r & p & ->).
  cbn [seq foldl NUM_SYSTEM_GCAL_PARAMS].
  unfold PerformSystemGainCalibration_body.
  cbn [string_at SYSTEM_GCAL_PARAMS lookup list_lookup default fst snd].
  subst found. cbn.
  destruct (0 <=? GetIndexOfArgument keys PARAMETER_BUFFER count);
    destruct (0 <=? GetIndexOfArgument keys PARAMETER_RATE count);
    destruct (0 <=? GetIndexOfArgument keys PARAMETER_GAIN count);
    destruct (0 <=? GetIndexOfArgument keys PARAMETER_INPUT count);
    cbn; split; eauto.
Qed.

(** No call of [PerformSystemGainCalibration] is without its call of
    [ADC_GainCalibrate]: a failure to parse the arguments is reported through
    the return value only.  [SetADCParameters] never reports an error.  On
    every call, whatever the status returned, the buffer, rate and gain
    settings are applied and then [ADC_GainCalibrate] is called, once; when no
    INPUT key is given the status is [ERR_AIN_PARSE_MISSING_KEY] and the input
    calibrated is [EXTERNAL_0]. *)
Lemma gain_calibration_runs_despite_parse_errors keys values count :
  fst (SetADCParameters keys values count) = ERR_FUNCTION_OK /\
  (exists buffer rate pga input,
     snd (PerformSystemGainCalibration keys values count) =
       [ADS1256_SetInputBufferSetting buffer; ADS1256_SetDataRate rate;
        ADS1256_SetPGASetting pga; ADC_GainCalibrate input]) /\
  (GetIndexOfArgument keys PARAMETER_INPUT count < 0 ->
   fst (PerformSystemGainCalibration keys values count) = ERR_AIN_PARSE_MISSING_KEY /\
   last (snd (PerformSystemGainCalibration keys values count))
     = Some (ADC_GainCalibrate EXTERNAL_0)).
Proof.
  destruct (PerformSystemGainCalibration_outcome keys values count)
    as (Hset & (b & r & p & Hcalls) & Hstatus).
  split; [exact Hset |]. split; [eauto |].
  intros Hmissing. apply Z.leb_gt in Hmissing.
  rewrite Hstatus, Hcalls, Hmissing. split; reflexivity.
Qed.

End CalibrationFacts.

(** C5 (the code departs from the claim): the claim has a call whose
    arguments fail to parse end before the hardware is touched.  Without any
    argument the INPUT key is missing and [PerformSystemGainCalibration]
    returns [ERR_AIN_PARSE_MISSING_KEY]; with a BUFFER key next to the INPUT
    key it returns [ERR_AIN_PARSE_ERROR]; both times the three settings have
    been handed to the ADC and [ADC_GainCalibrate] has been called. *)
Theorem gain_calibration_called_on_parse_error :
  PerformSystemGainCalibration (driver := example_driver) [] [] 0 =
    (ERR_AIN_PARSE_MISSING_KEY,
     [ADS1256_SetInputBufferSetting ADS1256_BUFFER_DISABLED;
      ADS1256_SetDataRate ADS1256_SPS_60;
      ADS1256_SetPGASetting ADS1256_PGAx1;
      ADC_GainCalibrate 0]) /\
  PerformSystemGainCalibration (driver := example_driver)
      ["BUFFER"; "INPUT"] ["ENABLED"; "ENABLED"] 2 =
    (ERR_AIN_PARSE_ERROR,
     [ADS1256_SetInputBufferSetting ADS1256_BUFFER_ENABLED;
      ADS1256_SetDataRate ADS1256_SPS_60;
      ADS1256_SetPGASetting ADS1256_PGAx1;
      ADC_GainCalibrate 1]).
Proof. split; reflexivity. Qed.

(** * Properties of the command interpreter *)

Lemma InputArgsCheck_find_true key params n idx :
  InputArgsCheck_find key params n idx = true <->
  exists j, (idx <= j < idx + n)%nat /\ key = string_at params j.
Proof.
  revert idx. induction n as [|n IH]; intros idx; cbn [InputArgsCheck_find].
  - split; [discriminate | intros (j & Hj & _); lia].
  - destruct (String.eqb key (string_at params idx)) eqn:Heq.
    + apply String.eqb_eq in Heq. split; [| done].
      intros _. exists idx. split; [lia | done].
    + apply String.eqb_neq in Heq. rewrite IH. split.
      * intros (j & Hj & Hk). exists j. split; [lia | done].
      * intros (j & Hj & Hk). exists j. split; [| done].
        destruct (decide (j = idx)) as [-> |]; [done | lia].
Qed.

Lemma InputArgsCheck_find_false key params n :
  InputArgsCheck_find key params n 0 = false <->
  forall idx, (idx < n)%nat -> key <> string_at params idx.
Proof.
  rewrite <- not_true_iff_false, InputArgsCheck_find_true. split.
  - intros Hno idx Hidx Heq. apply Hno. exists idx. split; [lia | done].
  - intros Hall (j & Hj & Heq). apply (Hall j); [lia | done].
Qed.

Lemma InputArgsCheck_loop_false keys params num_params n i :
  InputArgsCheck_loop keys params num_params n i = false <->
  exists k, (i <= k < i + n)%nat /\
    InputArgsCheck_find (string_at keys k) params num_params 0 = false.
Proof.
  revert i. induction n as [|n IH]; intros i; cbn [InputArgsCheck_loop].
  - split; [discriminate | intros (k & Hk & _); lia].
  - destruct (InputArgsCheck_find (string_at keys i) params num_params 0) eqn:Hf.
    + rewrite IH. split.
      * intros (k & Hk & Hb). exists k. split; [lia | done].
      * intros (k & Hk & Hb). exists k. split; [| done].
        destruct (decide (k = i)) as [-> |]; [congruence | lia].
    + split; [| done]. intros _. exists i. split; [lia | done].
Qed.

(** C8: [InputArgsCheck] returns false exactly when more arguments are
    supplied than the command declares parameters, or one of the supplied keys
    is none of the declared parameters.  So three keys are rejected for a
    command that declares two parameters, whichever key is the extra one, and
    fewer keys than declared parameters, all of them declared, are accepted. *)
Theorem InputArgsCheck_rejects_exactly keys values count num_params params :
  (InputArgsCheck keys values count num_params params = false <->
     (num_params < count)%nat \/
     exists i, (i < count)%nat /\
       forall idx, (idx < num_params)%nat -> string_at keys i <> string_at params idx) /\
  (count = 3%nat -> num_params = 2%nat ->
     InputArgsCheck keys values count num_params params = false) /\
  ((count <= num_params)%nat ->
   (forall i, (i < count)%nat ->
      exists idx, (idx < num_params)%nat /\ string_at keys i = string_at params idx) ->
   InputArgsCheck keys values count num_params params = true).
Proof.
  assert (Hmain : InputArgsCheck keys values count num_params params = false <->
     (num_params < count)%nat \/
     exists i, (i < count)%nat /\
       forall idx, (idx < num_params)%nat -> string_at keys i <> string_at params idx).
  { unfold InputArgsCheck.
    destruct (num_params <? count)%nat eqn:Hlt.
    - apply Nat.ltb_lt in Hlt. split; [by left | done].
    - apply Nat.ltb_ge in Hlt. rewrite InputArgsCheck_loop_false. split.
      + intros (k & Hk & Hb). right. exists k. split; [lia |].
        by apply InputArgsCheck_find_false.
      + intros [Hgt | (i & Hi & Hb)]; [lia |].
        exists i. split; [lia |]. by apply InputArgsCheck_find_false. }
  split; [exact Hmain |]. split.
  - intros -> ->. apply Hmain. left. lia.
  - intros Hle Hall. apply not_false_iff_true. rewrite Hmain.
    intros [Hgt | (i & Hi & Hb)]; [lia |].
    destruct (Hall i Hi) as (idx & Hidx & Heq). by apply (Hb idx).
Qed.

(** [InputArgsCheck_rejects_exactly] on the parameters of READ_ANALOG_INPUT:
    three keys are rejected whichever is the extra one, one declared key is
    accepted. *)
Lemma InputArgsCheck_rejects_exactly_witness :
  let params := [PARAMETER_INPUT; PARAMETER_NUMBER] in
  (InputArgsCheck ["INPUT"; "NUMBER"; "NAME"] [] 3 2 params = false /\
   InputArgsCheck ["NAME"; "INPUT"; "NUMBER"] [] 3 2 params = false /\
   InputArgsCheck ["INPUT"; "INPUT"; "NUMBER"] [] 3 2 params = false) /\
  InputArgsCheck ["NUMBER"] [] 1 2 params = true.
Proof.
  cbv zeta. split; [split; [| split] |].
  - apply (proj1 (proj2 (InputArgsCheck_rejects_exactly
                           ["INPUT"; "NUMBER"; "NAME"] [] 3 2 _))); reflexivity.
  - apply (proj1 (proj2 (InputArgsCheck_rejects_exactly
                           ["NAME"; "INPUT"; "NUMBER"] [] 3 2 _))); reflexivity.
  - apply (proj1 (proj2 (InputArgsCheck_rejects_exactly
                           ["INPUT"; "INPUT"; "NUMBER"] [] 3 2 _))); reflexivity.
  - apply (proj2 (proj2 (InputArgsCheck_rejects_exactly ["NUMBER"] [] 1 2 _))); [lia |].
    intros i Hi. exists 1%nat. split; [lia |].
    destruct i as [| i]; [reflexivity | lia].
Defined.

(** ** Facts about the string functions *)

(** Appending to a string that starts with [c]. *)
Lemma append_String c (a b : string) : String c a +:+ b = String c (a +:+ b).
Proof. reflexivity. Qed.



Lemma split_token_free set a :
  free_of set a = true -> split_token set a = (a, EmptyString).
Proof.
  induction a as [|c a IH]; cbn [split_token free_of]; [done |].
  intros [Hc Ha]%andb_true_iff. apply negb_true_iff in Hc. rewrite Hc, IH; done.
Qed.

Lemma split_token_app set a d r :
  free_of set a = true -> is_one_of set d = true ->
  split_token set (a +:+ String d r) = (a, r).
Proof.
  intros Ha Hd. induction a as [|c a IH].
  - change (EmptyString +:+ String d r) with (String d r). cbn [split_token]. by rewrite Hd.
  - change (String c a +:+ String d r) with (String c (a +:+ String d r)).
    cbn [split_token free_of] in *.
    apply andb_true_iff in Ha as [Hc Ha]. apply negb_true_iff in Hc.
    rewrite Hc, IH; done.
Qed.



Lemma skip_delimiters_free set a :
  a <> EmptyString -> free_of set a = true -> skip_delimiters set a = a.
Proof.
  destruct a as [|c a]; [done |]. cbn [free_of skip_delimiters].
  intros _ [Hc _]%andb_true_iff. apply negb_true_iff in Hc. by rewrite Hc.
Qed.

Lemma skip_delimiters_app set a b :
  a <> EmptyString -> free_of set a = true -> skip_delimiters set (a +:+ b) = a +:+ b.
Proof.
  destruct a as [|c a]; [done |].
  change (String c a +:+ b) with (String c (a +:+ b)). cbn [free_of skip_delimiters].
  intros _ [Hc _]%andb_true_iff. apply negb_true_iff in Hc. by rewrite Hc.
Qed.




Lemma length_ToUpperCase s : String.length (ToUpperCase s) = String.length s.
Proof. induction s as [|c s IH]; cbn [ToUpperCase String.length]; congruence. Qed.




Section InterpreterFacts.

Context {platform : CommandPlatform} {driver : AdcDriver} {digital : DigitalPlatform}
        {module : AnalogInputModule} {modules : CommandModules}.

(** Once the last entry of the set has been read, the counting loop reads it
    again and again. *)
Lemma count_set_last_entry_again fuel count :
  count_set fuel 7 "" (Some "7") count = OutOfFuel.
Proof.
  revert count. induction fuel as [|fuel IH]; intros count; [reflexivity |].
  cbn. apply IH.
Qed.

(** C9 (the code departs from the claim): the selector 1,3,7 is a channel set,
    and [BuildAnalogInputList] does not return for it, however much fuel its
    counting loop is given: at the end of the string [ptr] is at the
    terminating null character, [str] stays at the last entry, and [strtol]
    reads 7 for ever. *)
Theorem channel_set_1_3_7_never_returns fuel :
  GetChannelListType "1,3,7" = CHANNEL_SET /\
  BuildAnalogInputList fuel (GetChannelListType "1,3,7") "1,3,7" = OutOfFuel.
Proof.
  split; [reflexivity |].
  unfold BuildAnalogInputList.
  change (GetChannelListType "1,3,7") with CHANNEL_SET. cbv iota.
  change (strtol "1,3,7") with (1, ",3,7"). cbv iota beta.
  destruct fuel as [|[|[|fuel]]]; try reflexivity.
  change (count_set (S (S (S fuel))) 1 ",3,7" None 0)
    with (count_set fuel 7 "" (Some "7") 3).
  rewrite count_set_last_entry_again. reflexivity.
Qed.

(** The filling loop of the ALL and RANGE cases, started from index
    [length done_] with [start = 0], fills the rest of the array with the
    channels of these indices. *)
Lemma fill_from_all n (done_ : list (option Z)) :
  Z.of_nat (length done_) + Z.of_nat n <= NUM_ANALOG_INPUTS ->
  fill_from n (Z.of_nat (length done_)) 0 (done_ ++ replicate n None) =
    Ok (done_ ++ (GetAnalogInputByNumber <$> seqZ (Z.of_nat (length done_)) (Z.of_nat n))).
Proof.
  revert done_. induction n as [|n IH]; intros done_ Hle.
  - cbn. reflexivity.
  - cbn [fill_from]. unfold aInputs_store.
    replace (0 <=? Z.of_nat (length done_)) with true by (symmetry; apply Z.leb_le; lia).
    replace (Z.of_nat (length done_) <? NUM_ANALOG_INPUTS) with true
      by (symmetry; apply Z.ltb_lt; lia).
    cbn [andb]. rewrite Nat2Z.id. cbn [replicate].
    rewrite insert_app_r_alt by lia. rewrite Nat.sub_diag.
    cbn [insert list_insert mbind Run_bind run_bind].
    specialize (IH (done_ ++ [GetAnalogInputByNumber (0 + Z.of_nat (length done_))])).
    rewrite length_app in IH. cbn [length] in IH.
    rewrite <- app_assoc in IH. cbn [app] in IH.
    replace (Z.of_nat (length done_) + 1) with (Z.of_nat (length done_ + 1)) by lia.
    assert (Hx : Z.of_nat (length done_ + 1) + Z.of_nat n <= NUM_ANALOG_INPUTS) by lia.
    rewrite (IH Hx).
    rewrite (seqZ_cons (Z.of_nat (length done_)) (Z.of_nat (S n))) by lia.
    rewrite <- app_assoc. cbn [app fmap list_fmap].
    replace (Z.pred (Z.of_nat (S n))) with (Z.of_nat n) by lia.
    replace (Z.succ (Z.of_nat (length done_))) with (Z.of_nat (length done_ + 1)) by lia.
    rewrite Z.add_0_l. reflexivity.
Qed.

(** The selector ALL resolves to the channel of every index from 0 up to
    [NUM_ANALOG_INPUTS], in order (the count is kept in a [uint8_t]). *)
Theorem all_channels_are_resolved fuel param :
  0 <= NUM_ANALOG_INPUTS < 256 ->
  GetChannelListType "ALL" = ALL_CHANNELS /\
  BuildAnalogInputList fuel ALL_CHANNELS param =
    Ok (GetAnalogInputByNumber <$> seqZ 0 NUM_ANALOG_INPUTS).
Proof.
  intros Hnum. split; [reflexivity |].
  unfold BuildAnalogInputList, wrap8. rewrite Z.mod_small by lia.
  pose proof (fill_from_all (Z.to_nat NUM_ANALOG_INPUTS) []) as Hfill.
  cbn [length app] in Hfill. rewrite Z2Nat.id in Hfill by lia.
  apply Hfill. lia.
Qed.

(** The selector 2-5 is a range and resolves to the channels 2, 3, 4 and 5 in
    the first four entries of the array, the other entries being null. *)
Theorem range_2_5_is_resolved fuel :
  4 <= NUM_ANALOG_INPUTS ->
  GetChannelListType "2-5" = CHANNEL_RANGE /\
  BuildAnalogInputList fuel (GetChannelListType "2-5") "2-5" =
    Ok ([GetAnalogInputByNumber 2; GetAnalogInputByNumber 3;
         GetAnalogInputByNumber 4; GetAnalogInputByNumber 5]
        ++ replicate (Z.to_nat NUM_ANALOG_INPUTS - 4) None).
Proof.
  intros Hnum. split; [reflexivity |].
  unfold BuildAnalogInputList.
  change (GetChannelListType "2-5") with CHANNEL_RANGE. cbv iota.
  change (strtol "2-5") with (2, "-5"). cbv iota beta.
  change (ptr_succ "-5") with (@Ok string "5"). cbn [mbind Run_bind run_bind].
  change (strtol "5") with (5, ""). cbn [fst].
  change (wrap8 2) with 2. change (wrap8 5) with 5.
  cbn [Z.eqb negb]. change (wrap8 (5 - 2 + 1)) with 4.
  change (Z.to_nat 4) with 4%nat.
  destruct (Z.to_nat NUM_ANALOG_INPUTS) as [|[|[|[|k]]]] eqn:Hk; try lia.
  cbn [fill_from]. unfold aInputs_store.
  replace (0 + 1 <? NUM_ANALOG_INPUTS) with true by (symmetry; apply Z.ltb_lt; lia).
  replace (0 + 1 + 1 <? NUM_ANALOG_INPUTS) with true by (symmetry; apply Z.ltb_lt; lia).
  replace (0 + 1 + 1 + 1 <? NUM_ANALOG_INPUTS) with true by (symmetry; apply Z.ltb_lt; lia).
  replace (0 <? NUM_ANALOG_INPUTS) with true by (symmetry; apply Z.ltb_lt; lia).
  cbn. rewrite Nat.sub_0_r. reflexivity.
Qed.









(** ** Well formed lines *)


Lemma fits_shorter s t :
  (String.length s <= String.length t)%nat -> fits t = true -> fits s = true.
Proof. unfold fits. rewrite !Z.ltb_lt. lia. Qed.












End InterpreterFacts.

(** The counting loop of a channel set does not return for the selector
    1,3,7. *)
Lemma count_set_1_3_7 fuel : count_set fuel 1 ",3,7" None 0 = OutOfFuel.
Proof.
  destruct fuel as [|[|[|fuel]]]; try reflexivity.
  change (count_set (S (S (S fuel))) 1 ",3,7" None 0)
    with (count_set fuel 7 "" (Some "7") 3).
  apply count_set_last_entry_again.
Qed.


(** Two slips of the code also end a line without an answer.
    READ_ANALOG_INPUT with the channel set 1,3,7 does not return, however
    much fuel it is given: the counting loop of [BuildAnalogInputList] does
    not end.  A command token of 33 letters followed by an argument is not
    caught by the length test, which compares the length of the token of a
    line with arguments for equality, and is copied past the end of a
    command part. *)
Lemma lines_ended_by_a_slip_of_the_code :
  let letters n := string_of_characters (replicate n "A"%char) in
  (forall fuel, example_line_end fuel "READ_ANALOG_INPUT --INPUT=1,3,7" = OutOfFuel) /\
  (forall fuel, example_line_end fuel (letters 33%nat +:+ " --INPUT=1") = Undefined) /\
  (forall fuel,
     example_line_end fuel (letters 32%nat +:+ " --INPUT=1")
       = Ok (example_interpreter "", [])).
Proof.
  cbv zeta. repeat split; intros fuel; try reflexivity.
  unfold example_line_end. cbv -[count_set]. by rewrite count_set_1_3_7.
Qed.

(** The tokenizer writes into the command buffer: once the line
    sample --number=10 has been processed, the space that ended the command
    word is a null character in the buffer [Command_ParseLine] leaves, which
    [Command_AddChar] then clears. *)
Lemma Command_ParseLine_leaves_null_characters :
  Command_ParseLine (platform := example_platform) (driver := example_driver)
      (digital := example_digital) (module := example_module) (modules := example_modules)
      0 example_stack (example_interpreter "sample --number=10") =
    Ok (example_interpreter ("sample" +:+ String "000" "--number=10"),
        [StatusMessage "SUCCESS - Command OK"]).
Proof. reflexivity. Qed.


(** [all_channels_are_resolved] on the example platform and its 36 inputs. *)
Lemma all_channels_are_resolved_witness :
  0 <= NUM_ANALOG_INPUTS (CommandPlatform := example_platform) < 256 /\
  (GetChannelListType "ALL" = ALL_CHANNELS /\
   BuildAnalogInputList (platform := example_platform) 0 ALL_CHANNELS "ALL" =
     Ok (GetAnalogInputByNumber (CommandPlatform := example_platform) <$> seqZ 0 36)).
Proof.
  split; [split; [discriminate | reflexivity] |].
  apply (all_channels_are_resolved (platform := example_platform)).
  split; [discriminate | reflexivity].
Defined.

(** [range_2_5_is_resolved] on the example platform. *)
Lemma range_2_5_is_resolved_witness :
  4 <= NUM_ANALOG_INPUTS (CommandPlatform := example_platform) /\
  (GetChannelListType "2-5" = CHANNEL_RANGE /\
   BuildAnalogInputList (platform := example_platform) 0 (GetChannelListType "2-5") "2-5" =
     Ok ([Some 1002; Some 1003; Some 1004; Some 1005] ++ replicate 32 None)).
Proof.
  split; [discriminate |].
  apply (range_2_5_is_resolved (platform := example_platform)). discriminate.
Defined.

(** * Further properties of the calibration table *)

Lemma read_word_write_word (m : memory) a d :
  0 <= d < 4294967296 -> read_word (write_word m a d) a = d.
Proof.
  intros Hd. unfold read_word, write_word, write_byte.
  repeat match goal with
         | |- context [?x =? ?y] => destruct (Z.eqb_spec x y); try lia
         end.
  Z.div_mod_to_equations. lia.
Qed.

Lemma read_word_write_word_other (m : memory) a b d :
  a + 4 <= b \/ b + 4 <= a -> read_word (write_word m a d) b = read_word m b.
Proof.
  intros Hd. unfold read_word, write_word, write_byte.
  repeat match goal with
         | |- context [?x =? ?y] => destruct (Z.eqb_spec x y); try lia
         end.
Qed.

Lemma f32_lt_irrefl (x : float32) : f32_lt x x = false.
Proof.
  unfold f32_lt, SFltb, SFcompare.
  destruct x as [s | s | | s m e]; try reflexivity; try (by destruct s).
  destruct s; rewrite Z.compare_refl, Pos.compare_cont_refl; reflexivity.
Qed.

Section MoreCalibrationTableFacts.

Context {board : Board}.

Lemma rate_index_injective locals rate1 rate2 gain1 gain2 buffer1 buffer2 :
  rate1 <> ADS1256_SPS_unlisted -> rate2 <> ADS1256_SPS_unlisted ->
  rate_index (ComputeTableIndices locals rate1 gain1 buffer1) =
  rate_index (ComputeTableIndices locals rate2 gain2 buffer2) ->
  rate1 = rate2.
Proof. destruct rate1, rate2; cbn; intros; congruence. Qed.

Lemma gain_index_injective locals rate1 rate2 gain1 gain2 buffer1 buffer2 :
  gain1 <> ADS1256_PGA_unlisted -> gain2 <> ADS1256_PGA_unlisted ->
  gain_index (ComputeTableIndices locals rate1 gain1 buffer1) =
  gain_index (ComputeTableIndices locals rate2 gain2 buffer2) ->
  gain1 = gain2.
Proof. destruct gain1, gain2; cbn; intros; congruence. Qed.

Lemma buffer_index_injective locals rate1 rate2 gain1 gain2 buffer1 buffer2 :
  buffer1 <> ADS1256_BUFFER_unlisted -> buffer2 <> ADS1256_BUFFER_unlisted ->
  buffer_index (ComputeTableIndices locals rate1 gain1 buffer1) =
  buffer_index (ComputeTableIndices locals rate2 gain2 buffer2) ->
  buffer1 = buffer2.
Proof. destruct buffer1, buffer2; cbn; intros; congruence. Qed.

(** Two listed settings with the same table slot are the same setting. *)
Lemma table_key_injective locals rate1 rate2 gain1 gain2 buffer1 buffer2 :
  rate1 <> ADS1256_SPS_unlisted -> rate2 <> ADS1256_SPS_unlisted ->
  gain1 <> ADS1256_PGA_unlisted -> gain2 <> ADS1256_PGA_unlisted ->
  buffer1 <> ADS1256_BUFFER_unlisted -> buffer2 <> ADS1256_BUFFER_unlisted ->
  table_key (ComputeTableIndices locals rate1 gain1 buffer1) =
  table_key (ComputeTableIndices locals rate2 gain2 buffer2) ->
  (rate1, gain1, buffer1) = (rate2, gain2, buffer2).
Proof.
  intros Hr1 Hr2 Hg1 Hg2 Hb1 Hb2 Heq.
  assert (Hr : rate_index (ComputeTableIndices locals rate1 gain1 buffer1) =
               rate_index (ComputeTableIndices locals rate2 gain2 buffer2))
    by exact (f_equal (fun k => k.1.1) Heq).
  assert (Hg : gain_index (ComputeTableIndices locals rate1 gain1 buffer1) =
               gain_index (ComputeTableIndices locals rate2 gain2 buffer2))
    by exact (f_equal (fun k => k.1.2) Heq).
  assert (Hb : buffer_index (ComputeTableIndices locals rate1 gain1 buffer1) =
               buffer_index (ComputeTableIndices locals rate2 gain2 buffer2))
    by exact (f_equal (fun k => k.2) Heq).
  rewrite (rate_index_injective _ _ _ _ _ _ _ Hr1 Hr2 Hr).
  rewrite (gain_index_injective _ _ _ _ _ _ _ Hg1 Hg2 Hg).
  rewrite (buffer_index_injective _ _ _ _ _ _ _ Hb1 Hb2 Hb).
  reflexivity.
Qed.

End MoreCalibrationTableFacts.

Section OffsetTableFacts.

Context {board : Board}.

(** For a listed sample rate, the value [Tekdaqc_SetOffsetCalibration]
    stores for a setting is the value [Tekdaqc_GetOffsetCalibration] returns
    for it, whatever the index variables of the two calls held; the store
    leaves the base gain table and the memory alone, and the offset of every
    other listed setting is what it was. *)
Theorem offset_written_is_offset_read locals locals' cal rate gain buffer st :
  rate <> ADS1256_SPS_unlisted ->
  exists st1,
    Tekdaqc_SetOffsetCalibration locals cal rate gain buffer st = Ok st1 /\
    Tekdaqc_GetOffsetCalibration locals' rate gain buffer st1 = Ok cal /\
    baseGainCalibrations st1 = baseGainCalibrations st /\
    mem st1 = mem st /\
    forall rate2 gain2 buffer2,
      rate2 <> ADS1256_SPS_unlisted ->
      gain <> ADS1256_PGA_unlisted -> gain2 <> ADS1256_PGA_unlisted ->
      buffer <> ADS1256_BUFFER_unlisted -> buffer2 <> ADS1256_BUFFER_unlisted ->
      (rate2, gain2, buffer2) <> (rate, gain, buffer) ->
      Tekdaqc_GetOffsetCalibration locals' rate2 gain2 buffer2 st1 =
      Tekdaqc_GetOffsetCalibration locals' rate2 gain2 buffer2 st.
Proof.
  intros Hrate.
  pose proof (ComputeTableIndices_listed_in_table locals rate gain buffer Hrate) as Hin.
  destruct (table_load_store (offsetCalibrations st) _ cal Hin) as [Hst Hld].
  eexists. split; [| split; [| split; [| split]]].
  - unfold Tekdaqc_SetOffsetCalibration. rewrite Hst. reflexivity.
  - unfold Tekdaqc_GetOffsetCalibration.
    rewrite (ComputeTableIndices_listed_locals locals' locals rate gain buffer Hrate).
    exact Hld.
  - reflexivity.
  - reflexivity.
  - intros rate2 gain2 buffer2 Hrate2 Hgain Hgain2 Hbuffer Hbuffer2 Hne.
    clear Hin Hst Hld.
    unfold Tekdaqc_GetOffsetCalibration, table_load.
    cbn [offsetCalibrations set_offsetCalibrations].
    destruct (in_table _); [| reflexivity].
    rewrite (ComputeTableIndices_listed_locals locals locals' rate gain buffer Hrate).
    rewrite lookup_insert_ne; [reflexivity |].
    unfold table_key. intros Heq. apply Hne.
    symmetry. by apply (table_key_injective locals').
Qed.

End OffsetTableFacts.

Section GainLookupFacts.

Context {board : Board}.

(** With valid persisted data and a calibrated range that is not empty, a
    temperature outside the range gets the value of the bound it lies beyond,
    and its call differs from the call at that bound by one message only: the
    out of range diagnostic, written before any other. *)
Theorem out_of_range_temperature_is_clamped rate gain buffer temperature st :
  CALIBRATION_VALID st = true ->
  f32_lt (CAL_TEMP_HIGH st) (CAL_TEMP_LOW st) = false ->
  f32_lt temperature (CAL_TEMP_LOW st) || f32_lt (CAL_TEMP_HIGH st) temperature = true ->
  let bound :=
    if f32_lt temperature (CAL_TEMP_LOW st) then CAL_TEMP_LOW st else CAL_TEMP_HIGH st in
  run_value (Tekdaqc_GetGainCalibration rate gain buffer temperature st) =
  run_value (Tekdaqc_GetGainCalibration rate gain buffer bound st) /\
  forall v st1,
    Tekdaqc_GetGainCalibration rate gain buffer temperature st = Ok (v, st1) ->
    exists st2 later,
      Tekdaqc_GetGainCalibration rate gain buffer bound st = Ok (v, st2) /\
      telnet_errors st2 = later ++ telnet_errors st /\
      telnet_errors st1 =
        later ++ TemperatureOutOfRange temperature (CAL_TEMP_LOW st) (CAL_TEMP_HIGH st)
                 :: telnet_errors st.
Proof.
  intros Hvalid Hrange Hout bound.
  assert (Hin : f32_lt bound (CAL_TEMP_LOW st) || f32_lt (CAL_TEMP_HIGH st) bound = false).
  { subst bound. destruct (f32_lt temperature (CAL_TEMP_LOW st)).
    - by rewrite f32_lt_irrefl, Hrange.
    - by rewrite Hrange, f32_lt_irrefl. }
  unfold Tekdaqc_GetGainCalibration. rewrite Hvalid, Hout, Hin. cbn [negb].
  fold bound.
  destruct (table_load _ _) as [baseGain | | |]; cbn [mbind Run_bind run_bind run_value];
    [| by split ..].
  destruct (run_of_option (f32_to_uint 8 _)) as [n | | |];
    cbn [mbind Run_bind run_bind run_value]; [| by split ..].
  destruct buffer; cbn -[InterpolateValue read_word fetch_address interpolation_factor];
    (match goal with |- context [InterpolateValue ?a ?b ?c] =>
       destruct (InterpolateValue a b c) as [w | | |] end);
    cbn [mbind Run_bind run_bind run_value]; (split; [reflexivity |]);
    intros v st1 Heq; try discriminate; injection Heq as <- <-.
  - eexists _, []. by split.
  - eexists _, []. by split.
  - eexists _, [_; _]. by split.
Qed.

End GainLookupFacts.

Lemma seqZ_of_to_nat m n : seqZ m (Z.of_nat (Z.to_nat n)) = seqZ m n.
Proof. unfold seqZ. by rewrite Nat2Z.id. Qed.

Lemma FLASH_Status_eqb_eq a b : FLASH_Status_eqb a b = true <-> a = b.
Proof. destruct a, b; cbn; split; congruence. Qed.

Section SerialNumberFacts.

Context {board : Board}.

Lemma c_index_inside serial i :
  0 <= i <= Z.of_nat (length (text serial)) -> c_index serial i = Ok (serial_byte serial i).
Proof.
  intros Hi. unfold c_index, serial_byte.
  replace (0 <=? i) with true by (symmetry; apply Z.leb_le; lia).
  replace (i <=? Z.of_nat (length (text serial))) with true by (symmetry; apply Z.leb_le; lia).
  reflexivity.
Qed.

Lemma c_index_outside serial i :
  i < 0 \/ Z.of_nat (length (text serial)) < i -> c_index serial i = Undefined.
Proof.
  intros Hi. unfold c_index.
  destruct (Z.leb_spec 0 i); [| reflexivity].
  destruct (Z.leb_spec i (Z.of_nat (length (text serial)))); [lia | reflexivity].
Qed.

(** While the loop variable stays inside the array of the serial number, the
    loop makes one request for each of its values and keeps the status of
    the last request that was not completed. *)
Lemma program_serial_inside n i serial retval st :
  0 <= i ->
  i + Z.of_nat n <= Z.of_nat (length (text serial)) + 1 ->
  let requests := map (serial_request serial) (seqZ i (Z.of_nat n)) in
  let outcome k op := FLASH_outcome (rev (take k requests) ++ flash_ops st) op in
  exists status st',
    program_serial n i serial retval st = Ok (status, st') /\
    flash_ops st' = rev requests ++ flash_ops st /\
    ((forall k op, requests !! k = Some op -> outcome k op = FLASH_COMPLETE) ->
     status = retval) /\
    (forall k op,
       requests !! k = Some op ->
       outcome k op <> FLASH_COMPLETE ->
       (forall j op', (k < j)%nat -> requests !! j = Some op' ->
                      outcome j op' = FLASH_COMPLETE) ->
       status = outcome k op).
Proof.
  revert i retval st. induction n as [| n IH]; intros i retval st Hlow Hhigh requests outcome.
  - exists retval, st. split; [reflexivity |]. split; [reflexivity |].
    split; [reflexivity |]. intros k op Hk. by destruct k.
  - subst requests outcome. rewrite seqZ_cons by lia.
    replace (Z.pred (Z.of_nat (S n))) with (Z.of_nat n) by lia.
    replace (Z.succ i) with (i + 1) by lia.
    cbn [program_serial map]. rewrite c_index_inside by lia.
    cbn [mbind Run_bind run_bind]. unfold FLASH_ProgramByte. cbv zeta.
    fold (serial_request serial i).
    set (st1 := set_flash _ _ st).
    set (status1 := FLASH_outcome (flash_ops st) (serial_request serial i)).
    assert (Hshift : forall k op,
              FLASH_outcome
                (rev (take (S k) (serial_request serial i ::
                                  map (serial_request serial) (seqZ (i + 1) (Z.of_nat n))))
                 ++ flash_ops st) op =
              FLASH_outcome
                (rev (take k (map (serial_request serial) (seqZ (i + 1) (Z.of_nat n))))
                 ++ flash_ops st1) op).
    { intros k op. cbn [take rev flash_ops set_flash st1]. by rewrite <- app_assoc. }
    destruct (IH (i + 1)
                (if FLASH_Status_eqb status1 FLASH_COMPLETE then retval else status1) st1)
      as (status & st' & Hrun & Hops & Hall & Hlast); [lia | lia |].
    exists status, st'. split; [exact Hrun |]. split; [| split].
    + rewrite Hops. cbn [rev flash_ops set_flash st1]. by rewrite <- app_assoc.
    + intros Hcomplete.
      pose proof (Hcomplete 0%nat _ eq_refl) as H0. cbn [take rev app] in H0.
      fold status1 in H0. rewrite H0 in Hall. cbn [FLASH_Status_eqb] in Hall.
      apply Hall. intros k op Hk. rewrite <- Hshift. by apply (Hcomplete (S k)).
    + intros k op Hk Hfail Hlater. destruct k as [| k].
      * injection Hk as <-. cbn [take rev app] in *. fold status1 in Hfail |- *.
        destruct (FLASH_Status_eqb status1 FLASH_COMPLETE) eqn:E.
        { by apply FLASH_Status_eqb_eq in E. }
        apply Hall. intros j op' Hj.
        rewrite <- Hshift. apply (Hlater (S j)); [lia | exact Hj].
      * rewrite Hshift in Hfail |- *.
        apply Hlast; [exact Hk | exact Hfail |].
        intros j op' Hlt Hj. rewrite <- Hshift. apply (Hlater (S j)); [lia | exact Hj].
Qed.

(** Once the loop variable leaves the array, the read [serial[i]] is
    undefined. *)
Lemma program_serial_outside n i serial retval st :
  (0 < n)%nat ->
  i < 0 \/ Z.of_nat (length (text serial)) + 1 < i + Z.of_nat n ->
  program_serial n i serial retval st = Undefined.
Proof.
  revert i retval st. induction n as [| n IH]; intros i retval st Hn Hout; [lia |].
  cbn [program_serial].
  destruct (decide (0 <= i <= Z.of_nat (length (text serial)))) as [Hin | Hno].
  - rewrite c_index_inside by exact Hin. cbn [mbind Run_bind run_bind].
    unfold FLASH_ProgramByte. cbv zeta. apply IH; lia.
  - rewrite c_index_outside by lia. reflexivity.
Qed.

(** In calibration mode, for a serial number that is long enough,
    [Tekdaqc_SetSerialNumber] indexes the string with the flash address: the
    byte it reads for the address [a] is [serial[a]].  When every address of
    the serial number area is an index inside the array of the string, it
    makes [BOARD_SERIAL_NUM_LENGTH] requests, one for each address in rising
    order, with these bytes.  When some address of the area is not, as for an
    area in flash, a read is outside the array and the call is undefined. *)
Theorem serial_number_bytes_are_read_at_the_flash_address serial st :
  CalibrationModeEnabled st = true ->
  BOARD_SERIAL_NUM_LENGTH <= strlen serial ->
  0 < BOARD_SERIAL_NUM_LENGTH ->
  let last := Z.of_nat (length (text serial)) in
  (0 <= BOARD_SERIAL_NUM_ADDR /\ BOARD_SERIAL_NUM_ADDR + BOARD_SERIAL_NUM_LENGTH <= last + 1 ->
   (forall a, BOARD_SERIAL_NUM_ADDR <= a < BOARD_SERIAL_NUM_ADDR + BOARD_SERIAL_NUM_LENGTH ->
              c_index serial a = Ok (serial_byte serial a)) /\
   exists status st',
     Tekdaqc_SetSerialNumber serial st = Ok (status, st') /\
     flash_ops st' =
       rev (map (fun a => ProgramByte (wrap32 a) (wrap8 (serial_byte serial a)))
              (seqZ BOARD_SERIAL_NUM_ADDR BOARD_SERIAL_NUM_LENGTH))
       ++ flash_ops st) /\
  (BOARD_SERIAL_NUM_ADDR < 0 \/ last + 1 < BOARD_SERIAL_NUM_ADDR + BOARD_SERIAL_NUM_LENGTH ->
   Tekdaqc_SetSerialNumber serial st = Undefined).
Proof.
  intros Hmode Hlen Hpos last. unfold Tekdaqc_SetSerialNumber. rewrite Hmode. cbn [negb].
  apply Z.ltb_ge in Hlen. rewrite Hlen. cbn [FLASH_Status_eqb]. split.
  - intros [Hlow Hhigh]. split.
    + intros a Ha. apply c_index_inside. subst last. lia.
    + destruct (program_serial_inside (Z.to_nat BOARD_SERIAL_NUM_LENGTH) BOARD_SERIAL_NUM_ADDR
                  serial FLASH_COMPLETE st) as (status & st' & Hrun & Hops & _);
        [lia | subst last; lia |].
      exists status, st'. split; [exact Hrun |].
      rewrite Hops, seqZ_of_to_nat. reflexivity.
  - intros Hout. apply program_serial_outside; subst last; lia.
Qed.

(** When every address of the serial number area is an index inside the
    array of the string, [Tekdaqc_SetSerialNumber] answers with the status of
    the last request the flash driver did not complete, not of the first:
    every byte is requested whatever the driver answered before, and a later
    failure replaces an earlier one.  When the driver completes every request
    the answer is [FLASH_COMPLETE]. *)
Theorem serial_number_reports_the_last_failure serial st :
  CalibrationModeEnabled st = true ->
  BOARD_SERIAL_NUM_LENGTH <= strlen serial ->
  0 <= BOARD_SERIAL_NUM_ADDR ->
  BOARD_SERIAL_NUM_ADDR + BOARD_SERIAL_NUM_LENGTH <= Z.of_nat (length (text serial)) + 1 ->
  let requests :=
    map (fun a => ProgramByte (wrap32 a) (wrap8 (serial_byte serial a)))
      (seqZ BOARD_SERIAL_NUM_ADDR BOARD_SERIAL_NUM_LENGTH) in
  let outcome k op := FLASH_outcome (rev (take k requests) ++ flash_ops st) op in
  exists status st',
    Tekdaqc_SetSerialNumber serial st = Ok (status, st') /\
    ((forall k op, requests !! k = Some op -> outcome k op = FLASH_COMPLETE) ->
     status = FLASH_COMPLETE) /\
    (forall k op,
       requests !! k = Some op ->
       outcome k op <> FLASH_COMPLETE ->
       (forall j op', (k < j)%nat -> requests !! j = Some op' ->
                      outcome j op' = FLASH_COMPLETE) ->
       status = outcome k op).
Proof.
  intros Hmode Hlen Hlow Hhigh.
  unfold Tekdaqc_SetSerialNumber. rewrite Hmode. cbn [negb].
  apply Z.ltb_ge in Hlen. rewrite Hlen. cbn [FLASH_Status_eqb].
  assert (0 <= BOARD_SERIAL_NUM_LENGTH \/ BOARD_SERIAL_NUM_LENGTH < 0) as [Hpos | Hneg] by lia.
  - destruct (program_serial_inside (Z.to_nat BOARD_SERIAL_NUM_LENGTH) BOARD_SERIAL_NUM_ADDR
                serial FLASH_COMPLETE st) as (status & st' & Hrun & _ & Hall & Hlast);
      [lia | lia |].
    cbv zeta. rewrite seqZ_of_to_nat in Hall, Hlast.
    exists status, st'. split; [exact Hrun |]. split; [exact Hall | exact Hlast].
  - cbv zeta. replace (Z.to_nat BOARD_SERIAL_NUM_LENGTH) with 0%nat by lia.
    cbn [program_serial]. exists FLASH_COMPLETE, st. split; [reflexivity |].
    unfold seqZ. replace (Z.to_nat BOARD_SERIAL_NUM_LENGTH) with 0%nat by lia.
    split; [reflexivity |]. intros k op Hk. by destruct k.
Qed.

End SerialNumberFacts.

Section CalibrationModeFacts.

Context {board : Board} {sector : CalibrationSector}.

Lemma erase_calibration_words_mode fuel Address status0 st status st1 :
  erase_calibration_words fuel Address status0 st = Ok (status, st1) ->
  status0 = FLASH_COMPLETE ->
  CalibrationModeEnabled st1 =
    (if FLASH_Status_eqb status FLASH_COMPLETE then true else CalibrationModeEnabled st) /\
  offsetCalibrations st1 = offsetCalibrations st /\
  baseGainCalibrations st1 = baseGainCalibrations st.
Proof.
  revert Address status0 st. induction fuel as [| fuel IH]; intros Address status0 st Hrun H0.
  - cbn in Hrun. destruct (Address <? ADDR_CALIBRATION_END); [discriminate |].
    injection Hrun as <- <-. subst status0. by cbn.
  - cbn [erase_calibration_words] in Hrun.
    destruct (Address <? ADDR_CALIBRATION_END).
    + unfold FLASH_ProgramWord in Hrun. cbv zeta in Hrun.
      destruct (FLASH_Status_eqb (FLASH_outcome _ _) FLASH_COMPLETE) eqn:E.
      * apply IH in Hrun; [| by apply FLASH_Status_eqb_eq]. exact Hrun.
      * injection Hrun as <- <-. rewrite E. by cbn.
    + injection Hrun as <- <-. subst status0. by cbn.
Qed.

(** When [Tekdaqc_SetCalibrationMode] returns, calibration mode is
    enabled if the status is [FLASH_COMPLETE], and is what it was before the
    call if it is not: a failed erase or a failed word does not lock a board
    that was in calibration mode.  The two RAM tables are not touched. *)
Theorem calibration_mode_follows_the_status fuel st status st1 :
  Tekdaqc_SetCalibrationMode fuel st = Ok (status, st1) ->
  CalibrationModeEnabled st1 =
    (if FLASH_Status_eqb status FLASH_COMPLETE then true else CalibrationModeEnabled st) /\
  offsetCalibrations st1 = offsetCalibrations st /\
  baseGainCalibrations st1 = baseGainCalibrations st.
Proof.
  unfold Tekdaqc_SetCalibrationMode, FLASH_EraseSector. cbv zeta.
  destruct (FLASH_Status_eqb (FLASH_EraseSector_outcome _) FLASH_COMPLETE) eqn:E;
    cbn [negb]; intros Hrun.
  - apply erase_calibration_words_mode in Hrun; [| by apply FLASH_Status_eqb_eq].
    exact Hrun.
  - injection Hrun as <- <-. rewrite E. by cbn.
Qed.

Lemma word_addresses_seqZ n A :
  word_addresses n A = map (fun k => A + 4 * k) (seqZ 0 (Z.of_nat n)).
Proof.
  revert A. induction n as [| n IH]; intros A; [reflexivity |].
  rewrite seqZ_cons by lia. cbn [word_addresses map]. f_equal; [lia |].
  replace (Z.pred (Z.of_nat (S n))) with (Z.of_nat n) by lia.
  rewrite IH, <- (fmap_add_seqZ 1 0), <- list_fmap_compose.
  apply list_fmap_ext. intros _ k _. cbn. lia.
Qed.

Lemma erase_calibration_words_complete n fuel A st :
  (forall ops op, FLASH_outcome ops op = FLASH_COMPLETE) ->
  0 <= A ->
  ADDR_CALIBRATION_END <= 4294967296 - 4 ->
  ADDR_CALIBRATION_END <= A + 4 * Z.of_nat n < ADDR_CALIBRATION_END + 4 ->
  (n <= fuel)%nat ->
  exists st1,
    erase_calibration_words fuel A FLASH_COMPLETE st = Ok (FLASH_COMPLETE, st1) /\
    CalibrationModeEnabled st1 = true /\
    flash_ops st1 =
      rev (map (fun a => ProgramWord a CALIBRATION_ERASE_DATA) (word_addresses n A))
      ++ flash_ops st /\
    mem st1 =
      foldl (fun m a => write_word m a CALIBRATION_ERASE_DATA) (mem st) (word_addresses n A).
Proof.
  intros Hdrv. revert fuel A st.
  induction n as [| n IH]; intros fuel A st HA Hend Hn Hfuel.
  - exists (set_CalibrationModeEnabled true st).
    assert (Hlt : (A <? ADDR_CALIBRATION_END) = false) by (apply Z.ltb_ge; lia).
    destruct fuel; cbn [erase_calibration_words]; rewrite Hlt; by repeat split.
  - destruct fuel as [| fuel]; [lia |].
    assert (Hlt : (A <? ADDR_CALIBRATION_END) = true) by (apply Z.ltb_lt; lia).
    cbn [erase_calibration_words]. rewrite Hlt.
    unfold FLASH_ProgramWord. cbv zeta. rewrite Hdrv. cbn [FLASH_Status_eqb].
    assert (Hw : wrap32 (A + 4) = A + 4).
    { unfold wrap32. apply Z.mod_small. apply Z.ltb_lt in Hlt. lia. }
    rewrite Hw.
    destruct (IH fuel (A + 4)
                (set_flash (write_word (mem st) A CALIBRATION_ERASE_DATA)
                   (ProgramWord A CALIBRATION_ERASE_DATA :: flash_ops st) st))
      as (st1 & Hrun & Hmode & Hops & Hmem); [lia | lia | lia | lia |].
    exists st1. rewrite Hrun, Hmode, Hops, Hmem.
    cbn [word_addresses map rev foldl flash_ops mem set_flash].
    by rewrite <- app_assoc.
Qed.

Lemma erased_words_other n A (m : memory) d b :
  b + 4 <= A ->
  read_word (foldl (fun m a => write_word m a d) m (word_addresses n A)) b = read_word m b.
Proof.
  revert A m. induction n as [| n IH]; intros A m Hb; [reflexivity |].
  cbn [word_addresses foldl]. rewrite IH by lia.
  apply read_word_write_word_other. lia.
Qed.

Lemma erased_words_read n A (m : memory) d k :
  0 <= d < 4294967296 ->
  0 <= k < Z.of_nat n ->
  read_word (foldl (fun m a => write_word m a d) m (word_addresses n A)) (A + 4 * k) = d.
Proof.
  intros Hd. revert A m k. induction n as [| n IH]; intros A m k Hk; [lia |].
  cbn [word_addresses foldl].
  destruct (Z.eq_dec k 0) as [-> | Hne].
  - rewrite erased_words_other by lia.
    replace (A + 4 * 0) with A by lia. by apply read_word_write_word.
  - replace (A + 4 * k) with ((A + 4) + 4 * (k - 1)) by lia.
    apply IH. lia.
Qed.

(** With a flash driver that completes every request, calibration
    sector bounds that are [uint32_t] addresses with room for one more word
    above the end, and enough fuel for one iteration a word,
    [Tekdaqc_SetCalibrationMode] returns [FLASH_COMPLETE] with calibration
    mode enabled; it has requested the erase pattern for every fourth address
    from [ADDR_CALIBRATION_BASE] up to [ADDR_CALIBRATION_END], in rising order
    and nothing else, and every one of those words reads back as the erase
    pattern. *)
Theorem calibration_mode_erases_every_word fuel st :
  (forall ops op, FLASH_outcome ops op = FLASH_COMPLETE) ->
  FLASH_EraseSector_outcome (flash_ops st) = FLASH_COMPLETE ->
  0 <= ADDR_CALIBRATION_BASE <= ADDR_CALIBRATION_END ->
  ADDR_CALIBRATION_END <= 4294967296 - 4 ->
  0 <= CALIBRATION_ERASE_DATA < 4294967296 ->
  let words := (ADDR_CALIBRATION_END - ADDR_CALIBRATION_BASE + 3) / 4 in
  words <= Z.of_nat fuel ->
  exists st1,
    Tekdaqc_SetCalibrationMode fuel st = Ok (FLASH_COMPLETE, st1) /\
    CalibrationModeEnabled st1 = true /\
    flash_ops st1 =
      rev (map (fun k => ProgramWord (ADDR_CALIBRATION_BASE + 4 * k) CALIBRATION_ERASE_DATA)
             (seqZ 0 words))
      ++ flash_ops st /\
    forall k, 0 <= k < words ->
      read_word (mem st1) (ADDR_CALIBRATION_BASE + 4 * k) = CALIBRATION_ERASE_DATA.
Proof.
  intros Hdrv Herase Hbase Hend Hdata words Hfuel.
  assert (Hwords : 0 <= words /\ ADDR_CALIBRATION_END <= ADDR_CALIBRATION_BASE + 4 * words
                   < ADDR_CALIBRATION_END + 4).
  { subst words. Z.div_mod_to_equations. lia. }
  assert (Hw : wrap32 ADDR_CALIBRATION_BASE = ADDR_CALIBRATION_BASE).
  { unfold wrap32. apply Z.mod_small. lia. }
  unfold Tekdaqc_SetCalibrationMode, FLASH_EraseSector. cbv zeta.
  rewrite Herase, Hw. cbn [FLASH_Status_eqb negb].
  destruct (erase_calibration_words_complete (Z.to_nat words) fuel ADDR_CALIBRATION_BASE
              (set_flash (FLASH_EraseSector_memory (mem st)) (flash_ops st) st) Hdrv)
    as (st1 & Hrun & Hmode & Hops & Hmem); [lia | lia | lia | lia |].
  exists st1. split; [exact Hrun |]. split; [exact Hmode |]. split.
  - rewrite Hops, word_addresses_seqZ, <- list_fmap_compose, Z2Nat.id by lia.
    reflexivity.
  - intros k Hk. rewrite Hmem. apply erased_words_read; lia.
Qed.

End CalibrationModeFacts.

Lemma digits2_pos_bound (m : positive) : Z.pos m < 2 ^ Z.pos (digits2_pos m).
Proof.
  induction m as [m IH | m IH |]; cbn [digits2_pos]; [| | reflexivity].
  - rewrite Pos2Z.inj_succ, Z.pow_succ_r by lia. lia.
  - rewrite Pos2Z.inj_succ, Z.pow_succ_r by lia. lia.
Qed.

(** A word below [2 ^ 23] encodes a subnormal number. *)
Lemma f32_of_bits_small d :
  0 < d < 8388608 -> f32_of_bits d = S754_finite false (Z.to_pos d) (-149).
Proof.
  intros Hd. unfold f32_of_bits.
  assert (Hs : Z.testbit d 31 = false).
  { apply Z.bits_above_log2; [lia |]. apply Z.log2_lt_pow2; lia. }
  assert (He : Z.land (Z.shiftr d 23) 255 = 0).
  { rewrite Z.shiftr_div_pow2 by lia. rewrite Z.div_small by lia. reflexivity. }
  assert (Hf : Z.land d 8388607 = d).
  { change 8388607 with (Z.ones 23). rewrite Z.land_ones by lia. apply Z.mod_small. lia. }
  rewrite Hs, He, Hf. cbn [Z.eqb]. destruct d; try lia. reflexivity.
Qed.

(** A binary32 number whose integral part is positive is greater than every
    subnormal number. *)
Lemma subnormal_below_integral temp d p :
  valid_binary f32_prec f32_emax temp = true ->
  f32_to_uint 32 temp = Some d ->
  0 < d ->
  f32_lt (S754_finite false p (-149)) temp = true.
Proof.
  intros Hvalid Hconv Hd.
  destruct temp as [s | s | | s m e]; cbn in Hconv; try discriminate.
  - injection Hconv as <-. lia.
  - destruct s.
    + destruct (Z.shiftl (Z.pos m) e =? 0); [| discriminate]. injection Hconv as <-. lia.
    + destruct (Z.shiftl (Z.pos m) e <? 2 ^ 32); [| discriminate]. injection Hconv as <-.
      cbn in Hvalid. unfold bounded, canonical_mantissa, fexp, emin in Hvalid.
      apply andb_true_iff in Hvalid as [Hcanon _]. apply Z.eqb_eq in Hcanon.
      unfold f32_prec, f32_emax in Hcanon.
      assert (He : -149 < e).
      { destruct (Z.eq_dec e (-149)) as [-> | Hne]; [| lia]. exfalso.
        pose proof (digits2_pos_bound m) as Hm.
        assert (Hdig : Z.pos (digits2_pos m) <= 24) by lia.
        assert (Hlt : Z.pos m < 2 ^ 24).
        { eapply Z.lt_le_trans; [exact Hm |]. apply Z.pow_le_mono_r; lia. }
        rewrite Z.shiftl_div_pow2 in Hd by lia.
        rewrite Z.div_small in Hd; [lia |]. split; [lia |].
        eapply Z.lt_le_trans; [exact Hlt |]. apply Z.pow_le_mono_r; lia. }
      unfold f32_lt, SFltb, SFcompare.
      apply Z.compare_lt_iff in He. by rewrite He.
Qed.

Section InitialisationFacts.

Context {board : Board} {sector : CalibrationSector}.

(** A temperature bound written in calibration mode is not the bound
    [Tekdaqc_CalibrationInit] reads.  [Tekdaqc_SetCalibrationLowTemperature]
    programs the integral part of the temperature as an integer word;
    [Tekdaqc_CalibrationInit] takes the word at the same address for the
    encoding of a [float].  For a temperature whose integral part [d] lies
    between 1 and [2 ^ 23 - 1] the bound read is the subnormal number
    [d * 2 ^ -149], which is below the temperature written.  The same holds
    for the high bound and for the step. *)
Theorem temperature_bounds_are_not_read_back temp d st :
  CalibrationModeEnabled st = true ->
  valid_binary f32_prec f32_emax temp = true ->
  f32_to_uint 32 temp = Some d ->
  0 < d < 8388608 ->
  (forall op, FLASH_outcome (flash_ops st) op = FLASH_COMPLETE) ->
  (exists st1,
     Tekdaqc_SetCalibrationLowTemperature temp st = Ok (FLASH_COMPLETE, st1) /\
     CAL_TEMP_LOW (snd (Tekdaqc_CalibrationInit st1)) = S754_finite false (Z.to_pos d) (-149) /\
     f32_lt (CAL_TEMP_LOW (snd (Tekdaqc_CalibrationInit st1))) temp = true) /\
  (exists st1,
     Tekdaqc_SetCalibrationHighTemperature temp st = Ok (FLASH_COMPLETE, st1) /\
     CAL_TEMP_HIGH (snd (Tekdaqc_CalibrationInit st1)) = S754_finite false (Z.to_pos d) (-149) /\
     f32_lt (CAL_TEMP_HIGH (snd (Tekdaqc_CalibrationInit st1))) temp = true) /\
  (exists st1,
     Tekdaqc_SetCalibrationStepTemperature temp st = Ok (FLASH_COMPLETE, st1) /\
     CAL_TEMP_STEP (snd (Tekdaqc_CalibrationInit st1)) = S754_finite false (Z.to_pos d) (-149) /\
     f32_lt (CAL_TEMP_STEP (snd (Tekdaqc_CalibrationInit st1))) temp = true).
Proof.
  intros Hmode Hvalid Hconv Hd Hdrv.
  unfold Tekdaqc_SetCalibrationLowTemperature, Tekdaqc_SetCalibrationHighTemperature,
    Tekdaqc_SetCalibrationStepTemperature.
  rewrite Hmode, Hconv. cbn [negb run_of_option mbind Run_bind run_bind].
  unfold FLASH_ProgramWord. cbv zeta. rewrite !Hdrv. cbn [FLASH_Status_eqb].
  repeat split; eexists; (split; [reflexivity |]);
    cbn [Tekdaqc_CalibrationInit snd CAL_TEMP_LOW CAL_TEMP_HIGH CAL_TEMP_STEP mem set_flash];
    rewrite read_word_write_word, f32_of_bits_small by lia;
    (split; [reflexivity |]);
    (apply (subnormal_below_integral temp d); [exact Hvalid | exact Hconv | lia]).
Qed.

End InitialisationFacts.

(** [offset_written_is_offset_read] for 60 samples per second, gain 2 and the
    buffer enabled, with different leftovers in the index variables of the two
    calls. *)
Lemma offset_written_is_offset_read_witness :
  let st := example_state false false in
  let locals := {| rate_index := 200; gain_index := 200; buffer_index := 200 |} in
  let locals' := {| rate_index := 9; gain_index := 9; buffer_index := 9 |} in
  ADS1256_SPS_60 <> ADS1256_SPS_unlisted /\
  exists st1,
    Tekdaqc_SetOffsetCalibration locals 42 ADS1256_SPS_60 ADS1256_PGAx2
      ADS1256_BUFFER_ENABLED st = Ok st1 /\
    Tekdaqc_GetOffsetCalibration locals' ADS1256_SPS_60 ADS1256_PGAx2
      ADS1256_BUFFER_ENABLED st1 = Ok 42 /\
    baseGainCalibrations st1 = baseGainCalibrations st /\
    mem st1 = mem st /\
    forall rate2 gain2 buffer2,
      rate2 <> ADS1256_SPS_unlisted ->
      ADS1256_PGAx2 <> ADS1256_PGA_unlisted -> gain2 <> ADS1256_PGA_unlisted ->
      ADS1256_BUFFER_ENABLED <> ADS1256_BUFFER_unlisted -> buffer2 <> ADS1256_BUFFER_unlisted ->
      (rate2, gain2, buffer2) <> (ADS1256_SPS_60, ADS1256_PGAx2, ADS1256_BUFFER_ENABLED) ->
      Tekdaqc_GetOffsetCalibration locals' rate2 gain2 buffer2 st1 =
      Tekdaqc_GetOffsetCalibration locals' rate2 gain2 buffer2 st.
Proof.
  split; [discriminate |].
  apply offset_written_is_offset_read. discriminate.
Defined.

(** [out_of_range_temperature_is_clamped] on the example board, calibrated
    from 0 to 100 degrees, at 150 degrees. *)
Lemma out_of_range_temperature_is_clamped_witness :
  let st := example_state true false in
  let temperature := f32_of_Z 150 in
  (CALIBRATION_VALID st = true /\
   f32_lt (CAL_TEMP_HIGH st) (CAL_TEMP_LOW st) = false /\
   f32_lt temperature (CAL_TEMP_LOW st) || f32_lt (CAL_TEMP_HIGH st) temperature = true) /\
  (run_value (Tekdaqc_GetGainCalibration (board := example_board) ADS1256_SPS_60
                ADS1256_PGAx1 ADS1256_BUFFER_DISABLED temperature st) =
   run_value (Tekdaqc_GetGainCalibration (board := example_board) ADS1256_SPS_60
                ADS1256_PGAx1 ADS1256_BUFFER_DISABLED (CAL_TEMP_HIGH st) st) /\
   forall v st1,
     Tekdaqc_GetGainCalibration (board := example_board) ADS1256_SPS_60
       ADS1256_PGAx1 ADS1256_BUFFER_DISABLED temperature st = Ok (v, st1) ->
     exists st2 later,
       Tekdaqc_GetGainCalibration (board := example_board) ADS1256_SPS_60
         ADS1256_PGAx1 ADS1256_BUFFER_DISABLED (CAL_TEMP_HIGH st) st = Ok (v, st2) /\
       telnet_errors st2 = later ++ telnet_errors st /\
       telnet_errors st1 =
         later ++ TemperatureOutOfRange temperature (CAL_TEMP_LOW st) (CAL_TEMP_HIGH st)
                  :: telnet_errors st).
Proof.
  split; [repeat split |].
  apply (out_of_range_temperature_is_clamped (board := example_board)); reflexivity.
Defined.

(** [serial_number_bytes_are_read_at_the_flash_address] for the serial number
    ABCDEFGHIJKLMNOP.  On the example board, whose serial number area is in
    flash, the call is undefined.  On the board whose area is the addresses 4
    to 11 the bytes programmed are the letters E to L, the characters at the
    offsets 4 to 11 of the string. *)
Lemma serial_number_bytes_are_read_at_the_flash_address_witness :
  let st := example_state true true in
  let serial := {| text := seqZ 65 16 |} in
  (CalibrationModeEnabled st = true /\
   BOARD_SERIAL_NUM_LENGTH (Board := example_board) <= strlen serial /\
   0 < BOARD_SERIAL_NUM_LENGTH (Board := example_board) /\
   BOARD_SERIAL_NUM_LENGTH (Board := example_low_board) <= strlen serial /\
   0 < BOARD_SERIAL_NUM_LENGTH (Board := example_low_board)) /\
  Tekdaqc_SetSerialNumber (board := example_board) serial st = Undefined /\
  exists status st',
    Tekdaqc_SetSerialNumber (board := example_low_board) serial st = Ok (status, st') /\
    flash_ops st' =
      rev [ProgramByte 4 69; ProgramByte 5 70; ProgramByte 6 71; ProgramByte 7 72;
           ProgramByte 8 73; ProgramByte 9 74; ProgramByte 10 75; ProgramByte 11 76].
Proof.
  split; [repeat split; evaluate |]. split.
  - apply (proj2 (serial_number_bytes_are_read_at_the_flash_address
                    (board := example_board) {| text := seqZ 65 16 |}
                    (example_state true true) eq_refl ltac:(evaluate) ltac:(evaluate))).
    right. evaluate.
  - apply (proj2 (proj1 (serial_number_bytes_are_read_at_the_flash_address
                    (board := example_low_board) {| text := seqZ 65 16 |}
                    (example_state true true) eq_refl ltac:(evaluate) ltac:(evaluate))
                    ltac:(split; evaluate))).
Defined.

(** [serial_number_reports_the_last_failure] on the board whose serial number
    area is the addresses 4 to 11 and whose flash driver fails the requests
    for the addresses 5 and 9: the answer is the status of the request for
    the address 9. *)
Lemma serial_number_reports_the_last_failure_witness :
  let st := example_state true true in
  let serial := {| text := seqZ 65 16 |} in
  let requests :=
    map (fun a => ProgramByte (wrap32 a) (wrap8 (serial_byte serial a)))
      (seqZ (BOARD_SERIAL_NUM_ADDR (Board := example_low_board))
         (BOARD_SERIAL_NUM_LENGTH (Board := example_low_board))) in
  let outcome k op :=
    FLASH_outcome (Board := example_low_board) (rev (take k requests) ++ flash_ops st) op in
  (CalibrationModeEnabled st = true /\
   BOARD_SERIAL_NUM_LENGTH (Board := example_low_board) <= strlen serial /\
   0 <= BOARD_SERIAL_NUM_ADDR (Board := example_low_board) /\
   BOARD_SERIAL_NUM_ADDR (Board := example_low_board)
     + BOARD_SERIAL_NUM_LENGTH (Board := example_low_board)
     <= Z.of_nat (length (text serial)) + 1) /\
  (exists status st',
     Tekdaqc_SetSerialNumber (board := example_low_board) serial st = Ok (status, st') /\
     ((forall k op, requests !! k = Some op -> outcome k op = FLASH_COMPLETE) ->
      status = FLASH_COMPLETE) /\
     (forall k op,
        requests !! k = Some op ->
        outcome k op <> FLASH_COMPLETE ->
        (forall j op', (k < j)%nat -> requests !! j = Some op' ->
                       outcome j op' = FLASH_COMPLETE) ->
        status = outcome k op)) /\
  run_value (Tekdaqc_SetSerialNumber (board := example_low_board) serial st)
    = Ok FLASH_ERROR_PROGRAM.
Proof.
  split; [repeat split; evaluate |]. split; [| reflexivity].
  apply (serial_number_reports_the_last_failure (board := example_low_board)); evaluate.
Defined.

(** [calibration_mode_follows_the_status] on the example board in calibration
    mode, with a sector whose erase fails: the board stays in calibration
    mode. *)
Lemma calibration_mode_follows_the_status_witness :
  let st := example_state true true in
  let st1 := set_flash (mem st) (flash_ops st) st in
  Tekdaqc_SetCalibrationMode (board := example_board) (sector := example_worn_sector) 16 st
    = Ok (FLASH_ERROR_PROGRAM, st1) /\
  (CalibrationModeEnabled st1 =
     (if FLASH_Status_eqb FLASH_ERROR_PROGRAM FLASH_COMPLETE then true
      else CalibrationModeEnabled st) /\
   offsetCalibrations st1 = offsetCalibrations st /\
   baseGainCalibrations st1 = baseGainCalibrations st).
Proof.
  split; [reflexivity |].
  apply (calibration_mode_follows_the_status (board := example_board)
           (sector := example_worn_sector) 16).
  reflexivity.
Defined.

(** [calibration_mode_erases_every_word] on the example board, for a sector of
    sixteen words. *)
Lemma calibration_mode_erases_every_word_witness :
  let st := example_state true false in
  let BASE := ADDR_CALIBRATION_BASE (CalibrationSector := example_sector) in
  let END := ADDR_CALIBRATION_END (CalibrationSector := example_sector) in
  let DATA := CALIBRATION_ERASE_DATA (CalibrationSector := example_sector) in
  ((forall ops op, FLASH_outcome (Board := example_board) ops op = FLASH_COMPLETE) /\
   FLASH_EraseSector_outcome (CalibrationSector := example_sector) (flash_ops st)
     = FLASH_COMPLETE /\
   0 <= BASE <= END /\
   END <= 4294967296 - 4 /\
   0 <= DATA < 4294967296 /\
   (END - BASE + 3) / 4 <= Z.of_nat 16) /\
  exists st1,
    Tekdaqc_SetCalibrationMode (board := example_board) (sector := example_sector) 16 st
      = Ok (FLASH_COMPLETE, st1) /\
    CalibrationModeEnabled st1 = true /\
    flash_ops st1 =
      rev (map (fun k => ProgramWord (BASE + 4 * k) DATA) (seqZ 0 ((END - BASE + 3) / 4)))
      ++ flash_ops st /\
    forall k, 0 <= k < (END - BASE + 3) / 4 ->
      read_word (mem st1) (BASE + 4 * k) = DATA.
Proof.
  split; [repeat split; discriminate |].
  apply (calibration_mode_erases_every_word (board := example_board)
           (sector := example_sector) 16);
    [reflexivity | reflexivity | split; discriminate | discriminate
    | split; [discriminate | reflexivity] | discriminate].
Defined.

(** [temperature_bounds_are_not_read_back] on the example board, for 25
    degrees. *)
Lemma temperature_bounds_are_not_read_back_witness :
  let st := example_state true true in
  let temp := f32_of_Z 25 in
  (CalibrationModeEnabled st = true /\
   valid_binary f32_prec f32_emax temp = true /\
   f32_to_uint 32 temp = Some 25 /\
   0 < 25 < 8388608 /\
   (forall op, FLASH_outcome (Board := example_board) (flash_ops st) op = FLASH_COMPLETE)) /\
  ((exists st1,
      Tekdaqc_SetCalibrationLowTemperature (board := example_board) temp st
        = Ok (FLASH_COMPLETE, st1) /\
      CAL_TEMP_LOW (snd (Tekdaqc_CalibrationInit (board := example_board)
                           (sector := example_sector) st1))
        = S754_finite false (Z.to_pos 25) (-149) /\
      f32_lt (CAL_TEMP_LOW (snd (Tekdaqc_CalibrationInit (board := example_board)
                                   (sector := example_sector) st1))) temp = true) /\
   (exists st1,
      Tekdaqc_SetCalibrationHighTemperature (board := example_board) temp st
        = Ok (FLASH_COMPLETE, st1) /\
      CAL_TEMP_HIGH (snd (Tekdaqc_CalibrationInit (board := example_board)
                            (sector := example_sector) st1))
        = S754_finite false (Z.to_pos 25) (-149) /\
      f32_lt (CAL_TEMP_HIGH (snd (Tekdaqc_CalibrationInit (board := example_board)
                                    (sector := example_sector) st1))) temp = true) /\
   (exists st1,
      Tekdaqc_SetCalibrationStepTemperature (board := example_board) temp st
        = Ok (FLASH_COMPLETE, st1) /\
      CAL_TEMP_STEP (snd (Tekdaqc_CalibrationInit (board := example_board)
                            (sector := example_sector) st1))
        = S754_finite false (Z.to_pos 25) (-149) /\
      f32_lt (CAL_TEMP_STEP (snd (Tekdaqc_CalibrationInit (board := example_board)
                                    (sector := example_sector) st1))) temp = true)).
Proof.
  split; [repeat split |].
  apply (temperature_bounds_are_not_read_back (board := example_board)
           (sector := example_sector));
    [reflexivity | reflexivity | reflexivity | split; reflexivity | reflexivity].
Defined.

(** * Further properties of the calibration processes and of the command interpreter *)

(** ** Looking up an argument *)

Lemma to_int8_small z : 0 <= z < 128 -> to_int8 z = z.
Proof.
  intros Hz. unfold to_int8, wrap8. rewrite Z.mod_small by lia.
  destruct (Z.ltb_spec z 128); [reflexivity | lia].
Qed.

(** As long as an [int8_t] can hold every index the loop can reach, the
    conversion of the loop counter changes nothing. *)
Lemma GetIndexOfArgument_loop_spec keys target n i :
  (i + n <= 128)%nat ->
  (GetIndexOfArgument_loop keys target n i = -1 /\
   forall j, (i <= j < i + n)%nat -> string_at keys j <> target) \/
  (exists k, GetIndexOfArgument_loop keys target n i = Z.of_nat k /\
     (i <= k < i + n)%nat /\ string_at keys k = target /\
     forall j, (i <= j < k)%nat -> string_at keys j <> target).
Proof.
  revert i. induction n as [| n IH]; intros i Hsmall; cbn [GetIndexOfArgument_loop].
  - left. split; [reflexivity | intros j Hj; lia].
  - destruct (String.eqb (string_at keys i) target) eqn:Heq.
    + apply String.eqb_eq in Heq. right. exists i.
      split; [apply to_int8_small; lia |]. split; [lia |]. split; [exact Heq |].
      intros j Hj. lia.
    + apply String.eqb_neq in Heq.
      destruct (IH (S i)) as [[Hr Hno] | (k & Hr & Hk & Hkey & Hno)]; [lia | |].
      * left. split; [exact Hr |]. intros j Hj.
        destruct (decide (j = i)) as [-> |]; [exact Heq | apply Hno; lia].
      * right. exists k. split; [exact Hr |]. split; [lia |]. split; [exact Hkey |].
        intros j Hj. destruct (decide (j = i)) as [-> |]; [exact Heq | apply Hno; lia].
Qed.

Lemma GetIndexOfArgument_found keys target total :
  (total <= 128)%nat ->
  (0 <=? GetIndexOfArgument keys target total) = true <->
  exists i, (i < total)%nat /\ string_at keys i = target.
Proof.
  intros Hsmall. unfold GetIndexOfArgument.
  destruct (GetIndexOfArgument_loop_spec keys target total 0 Hsmall)
    as [[Hr Hno] | (k & Hr & Hk & Hkey & Hno)]; rewrite Hr.
  - split; [discriminate |]. intros (i & Hi & Heq). exfalso. apply (Hno i); [lia | exact Heq].
  - split; [| intros _; apply Z.leb_le; lia]. intros _. exists k. split; [lia | exact Hkey].
Qed.

(** [GetIndexOfArgument] returns -1 exactly when none of the first
    [total] keys is the target, and otherwise the index of the first of them
    that is.  The number of keys is one an [int8_t] index can count. *)
Theorem GetIndexOfArgument_finds_first_match keys target total :
  (total <= 128)%nat ->
  (GetIndexOfArgument keys target total = -1 <->
     forall i, (i < total)%nat -> string_at keys i <> target) /\
  (forall k, GetIndexOfArgument keys target total = Z.of_nat k <->
     first_key keys total target k).
Proof.
  intros Hsmall. unfold GetIndexOfArgument, first_key.
  destruct (GetIndexOfArgument_loop_spec keys target total 0 Hsmall)
    as [[Hr Hno] | (k & Hr & Hk & Hkey & Hno)]; rewrite Hr.
  - split.
    + split; [| reflexivity]. intros _ i Hi. apply Hno. lia.
    + intros k. split; [lia |]. intros (Hk & Hkey & _). exfalso.
      apply (Hno k); [lia | exact Hkey].
  - split.
    + split; [lia |]. intros Hall. exfalso. apply (Hall k); [lia | exact Hkey].
    + intros k'. split.
      * intros Heq. apply Nat2Z.inj in Heq. subst k'.
        split; [lia |]. split; [exact Hkey |]. intros j Hj. apply Hno. lia.
      * intros (Hk' & Hkey' & Hno'). f_equal.
        destruct (Nat.lt_trichotomy k k') as [Hlt | [-> | Hgt]]; [| reflexivity |].
        -- exfalso. apply (Hno' k); [exact Hlt | exact Hkey].
        -- exfalso. apply (Hno k'); [lia | exact Hkey'].
Qed.

(** [GetIndexOfArgument_finds_first_match] for three keys, two of them RATE. *)
Lemma GetIndexOfArgument_finds_first_match_witness :
  let keys := ["RATE"; "INPUT"; "RATE"]%string in
  (3 <= 128)%nat /\
  ((GetIndexOfArgument keys "RATE" 3 = -1 <->
      forall i, (i < 3)%nat -> string_at keys i <> "RATE"%string) /\
   (forall k, GetIndexOfArgument keys "RATE" 3 = Z.of_nat k <->
      first_key keys 3 "RATE" k)).
Proof.
  split; [lia |].
  apply GetIndexOfArgument_finds_first_match. lia.
Defined.

Lemma GetIndexOfArgument_first_key keys key count i :
  (count <= 128)%nat ->
  first_key keys count key i ->
  (0 <=? GetIndexOfArgument keys key count) = true /\
  Z.to_nat (GetIndexOfArgument keys key count) = i.
Proof.
  intros Hsmall (Hlt & Heq & Hnone). unfold GetIndexOfArgument.
  destruct (GetIndexOfArgument_loop_spec keys key count 0 Hsmall)
    as [[Hr Hno] | (k & Hr & Hk & Hkey & Hno)]; rewrite Hr.
  - exfalso. apply (Hno i); [lia | exact Heq].
  - split; [apply Z.leb_le; lia |]. rewrite Nat2Z.id.
    destruct (Nat.lt_trichotomy k i) as [Hlt' | [-> | Hgt]]; [| reflexivity |].
    + exfalso. apply (Hnone k); [exact Hlt' | exact Hkey].
    + exfalso. apply (Hno i); [lia | exact Heq].
Qed.

Lemma GetIndexOfArgument_missing keys key count :
  (count <= 128)%nat ->
  (forall i, (i < count)%nat -> string_at keys i <> key) ->
  (0 <=? GetIndexOfArgument keys key count) = false.
Proof.
  intros Hsmall Hnone. apply not_true_iff_false. rewrite GetIndexOfArgument_found by done.
  intros (i & Hi & Heq). by apply (Hnone i).
Qed.

(** A match at an index an [int8_t] cannot hold comes back negative: with
    131 keys, the last of which is the only RATE, the index of RATE is -126,
    and the callers take the key for missing. *)
Lemma GetIndexOfArgument_index_130 :
  GetIndexOfArgument (replicate 130 "INPUT"%string ++ ["RATE"%string]) "RATE" 131 = -126.
Proof. vm_compute. reflexivity. Qed.

(** ** The ADC parameters of a calibration *)

Section MoreCalibrationFacts.

Context {driver : AdcDriver}.

Lemma SetADCParameters_calls keys values count :
  let found k := 0 <=? GetIndexOfArgument keys k count in
  let value k := string_at values (Z.to_nat (GetIndexOfArgument keys k count)) in
  snd (SetADCParameters keys values count) =
    [ADS1256_SetInputBufferSetting
       (if found PARAMETER_BUFFER then ADS1256_StringToBuffer (value PARAMETER_BUFFER)
        else ADS1256_BUFFER_DISABLED);
     ADS1256_SetDataRate
       (if found PARAMETER_RATE then ADS1256_StringToDataRate (value PARAMETER_RATE)
        else ADS1256_SPS_60);
     ADS1256_SetPGASetting
       (if found PARAMETER_GAIN then ADS1256_StringToPGA (value PARAMETER_GAIN)
        else ADS1256_PGAx1)].
Proof.
  intros found value. subst found value.
  unfold SetADCParameters. cbn [seq foldl NUM_SYSTEM_CAL_PARAMS snd].
  unfold SetADCParameters_body. cbn [string_at SYSTEM_CAL_PARAMS lookup list_lookup default].
  repeat (destruct (0 <=? GetIndexOfArgument _ _ _); cbn); reflexivity.
Qed.

(** [SetADCParameters] hands the driver a buffer setting, a data rate
    and a gain, in this order, each read from the value of the first of the
    [count] keys that names it.  A setting none of the keys names gets its
    default: buffer disabled, 60 samples per second, gain 1.  The number of
    keys is one an [int8_t] index can count. *)
Theorem adc_parameters_come_from_the_first_matching_key keys values count :
  (count <= 128)%nat ->
  exists buffer rate pga,
    snd (SetADCParameters keys values count) =
      [ADS1256_SetInputBufferSetting buffer; ADS1256_SetDataRate rate;
       ADS1256_SetPGASetting pga] /\
    (forall i, first_key keys count PARAMETER_BUFFER i ->
       buffer = ADS1256_StringToBuffer (string_at values i)) /\
    (forall i, first_key keys count PARAMETER_RATE i ->
       rate = ADS1256_StringToDataRate (string_at values i)) /\
    (forall i, first_key keys count PARAMETER_GAIN i ->
       pga = ADS1256_StringToPGA (string_at values i)) /\
    ((forall i, (i < count)%nat -> string_at keys i <> PARAMETER_BUFFER) ->
     buffer = ADS1256_BUFFER_DISABLED) /\
    ((forall i, (i < count)%nat -> string_at keys i <> PARAMETER_RATE) ->
     rate = ADS1256_SPS_60) /\
    ((forall i, (i < count)%nat -> string_at keys i <> PARAMETER_GAIN) ->
     pga = ADS1256_PGAx1).
Proof.
  intros Hsmall. rewrite SetADCParameters_calls. eexists _, _, _. split; [reflexivity |].
  repeat split.
  - intros i Hi. destruct (GetIndexOfArgument_first_key _ _ _ _ Hsmall Hi) as [-> ->].
    reflexivity.
  - intros i Hi. destruct (GetIndexOfArgument_first_key _ _ _ _ Hsmall Hi) as [-> ->].
    reflexivity.
  - intros i Hi. destruct (GetIndexOfArgument_first_key _ _ _ _ Hsmall Hi) as [-> ->].
    reflexivity.
  - intros Hnone. by rewrite (GetIndexOfArgument_missing _ _ _ Hsmall Hnone).
  - intros Hnone. by rewrite (GetIndexOfArgument_missing _ _ _ Hsmall Hnone).
  - intros Hnone. by rewrite (GetIndexOfArgument_missing _ _ _ Hsmall Hnone).
Qed.

End MoreCalibrationFacts.

(** ** Handlers *)

Lemma InputArgsCheck_true keys values count num_params params :
  InputArgsCheck keys values count num_params params = true <->
  (count <= num_params)%nat /\
  forall i, (i < count)%nat ->
    exists idx, (idx < num_params)%nat /\ string_at keys i = string_at params idx.
Proof.
  unfold InputArgsCheck. destruct (num_params <? count)%nat eqn:Hlt.
  - apply Nat.ltb_lt in Hlt. split; [discriminate | lia].
  - apply Nat.ltb_ge in Hlt.
    rewrite <- not_false_iff_true, InputArgsCheck_loop_false. split.
    + intros Hno. split; [exact Hlt |]. intros i Hi.
      destruct (InputArgsCheck_find (string_at keys i) params num_params 0) eqn:Hf.
      * apply InputArgsCheck_find_true in Hf as (j & Hj & Heq). exists j. split; [lia | exact Heq].
      * exfalso. apply Hno. exists i. split; [lia | exact Hf].
    + intros [_ Hall] (k & Hk & Hf).
      destruct (Hall k) as (idx & Hidx & Heq); [lia |].
      rewrite InputArgsCheck_find_false in Hf. by apply (Hf idx).
Qed.

Section HandlerFacts.

Context {platform : CommandPlatform} {driver : AdcDriver}.

(** The SYSTEM_GCAL handler reports success exactly when it is given
    between one and four arguments and the key of every one of them is INPUT.
    A BUFFER, RATE or GAIN argument, which the command declares and
    [SetADCParameters] applies, makes the handler report a failure. *)
Theorem system_gcal_succeeds_with_input_keys_only keys values count e :
  fst (Ex_SystemGainCal keys values count e) = ERR_COMMAND_OK <->
  (1 <= count <= 4)%nat /\
  forall i, (i < count)%nat -> string_at keys i = PARAMETER_INPUT.
Proof.
  unfold Ex_SystemGainCal.
  destruct (PerformSystemGainCalibration_outcome keys values count) as (_ & _ & Hstatus).
  cbv zeta in Hstatus. rewrite Hstatus. clear Hstatus.
  destruct (InputArgsCheck keys values count NUM_SYSTEM_GCAL_PARAMS SYSTEM_GCAL_PARAMS) eqn:Hargs.
  - apply InputArgsCheck_true in Hargs as [Hcount Hkeys].
    unfold NUM_SYSTEM_GCAL_PARAMS in Hcount, Hkeys.
    assert (Hsmall : (count <= 128)%nat) by lia.
    pose proof (fun key => GetIndexOfArgument_found keys key count Hsmall) as Hfound.
    destruct (0 <=? GetIndexOfArgument keys PARAMETER_INPUT count) eqn:Hinput; cbn [negb].
    + apply Hfound in Hinput as (i0 & Hi0 & _).
      destruct (0 <=? GetIndexOfArgument keys PARAMETER_BUFFER count) eqn:Hb;
        [| destruct (0 <=? GetIndexOfArgument keys PARAMETER_RATE count) eqn:Hr;
           [| destruct (0 <=? GetIndexOfArgument keys PARAMETER_GAIN count) eqn:Hg]];
        cbn.
      * split; [discriminate |]. intros [_ Hall].
        apply Hfound in Hb as (i & Hi & Heq).
        rewrite (Hall i Hi) in Heq. discriminate.
      * split; [discriminate |]. intros [_ Hall].
        apply Hfound in Hr as (i & Hi & Heq).
        rewrite (Hall i Hi) in Heq. discriminate.
      * split; [discriminate |]. intros [_ Hall].
        apply Hfound in Hg as (i & Hi & Heq).
        rewrite (Hall i Hi) in Heq. discriminate.
      * split; [| reflexivity]. intros _. split; [lia |]. intros i Hi.
        destruct (Hkeys i Hi) as (idx & Hidx & Heq).
        destruct idx as [| [| [| [| idx]]]]; [| | | exact Heq | lia]; exfalso.
        -- apply not_true_iff_false in Hb. apply Hb. apply Hfound. eauto.
        -- apply not_true_iff_false in Hr. apply Hr. apply Hfound. eauto.
        -- apply not_true_iff_false in Hg. apply Hg. apply Hfound. eauto.
    + cbn. split; [discriminate |]. intros [Hc Hall]. exfalso.
      apply not_true_iff_false in Hinput. apply Hinput. apply Hfound.
      exists 0%nat. split; [lia |]. apply Hall. lia.
  - cbn. split; [discriminate |]. intros [Hc Hall]. exfalso.
    apply not_true_iff_false in Hargs. apply Hargs. apply InputArgsCheck_true.
    unfold NUM_SYSTEM_GCAL_PARAMS. split; [lia |]. intros i Hi. exists 3%nat.
    split; [lia |]. by apply Hall.
Qed.

End HandlerFacts.

(** ** The command table *)

Lemma ParseCommand_loop_unlisted command commands :
  (forall name c, In (name, c) commands -> c <> COMMAND_unlisted) ->
  (ParseCommand_loop command commands = COMMAND_unlisted <->
   forall name c, In (name, c) commands -> command <> name).
Proof.
  induction commands as [| [name c] rest IH]; intros Hlisted; cbn [ParseCommand_loop].
  - split; [intros _ name c [] | reflexivity].
  - destruct (String.eqb command name) eqn:Heq.
    + apply String.eqb_eq in Heq. split.
      * intros ->. exfalso. by apply (Hlisted name COMMAND_unlisted); [left |].
      * intros Hno. exfalso. apply (Hno name c); [by left | exact Heq].
    + apply String.eqb_neq in Heq. rewrite IH.
      * split.
        -- intros Hno name' c' [Hin | Hin]; [by injection Hin as <- <- | by apply (Hno name' c')].
        -- intros Hno name' c' Hin. apply (Hno name' c'). by right.
      * intros name' c' Hin. apply (Hlisted name' c'). by right.
Qed.

(** Every command name in [COMMAND_STRINGS] is parsed as the command
    it is listed with: no name is hidden by an earlier entry of the table.
    Any other string is parsed as no command at all. *)
Theorem ParseCommand_finds_every_command :
  (forall name command, In (name, command) COMMAND_STRINGS -> ParseCommand name = command) /\
  (forall s, ParseCommand s = COMMAND_unlisted <->
     forall name command, In (name, command) COMMAND_STRINGS -> s <> name).
Proof.
  split.
  - intros name command Hin. unfold COMMAND_STRINGS in Hin.
    repeat (destruct Hin as [Hin | Hin]; [injection Hin as <- <-; reflexivity |]).
    destruct Hin.
  - intros s. apply ParseCommand_loop_unlisted.
    intros name c Hin. unfold COMMAND_STRINGS in Hin.
    repeat (destruct Hin as [Hin | Hin]; [injection Hin as <- <-; discriminate |]).
    destruct Hin.
Qed.

(** ** The character stream *)

Lemma length_append (a b : string) :
  String.length (a +:+ b) = (String.length a + String.length b)%nat.
Proof.
  induction a as [| c a IH]; [reflexivity |].
  rewrite append_String. cbn [String.length]. by rewrite IH.
Qed.

Lemma append_assoc (a b c : string) : (a +:+ b) +:+ c = a +:+ (b +:+ c).
Proof.
  induction a as [| x a IH]; [reflexivity |].
  rewrite !append_String. by rewrite IH.
Qed.

Lemma append_empty (a : string) : a +:+ EmptyString = a.
Proof.
  induction a as [| x a IH]; [reflexivity |].
  rewrite append_String. by rewrite IH.
Qed.

Lemma remove_last_append (a : string) c : remove_last (a +:+ String c EmptyString) = a.
Proof.
  induction a as [| x a IH]; [reflexivity |].
  rewrite append_String. cbn [remove_last]. rewrite IH.
  destruct a; reflexivity.
Qed.

Lemma is_text_character_codes c :
  is_text_character c = true ->
  ((Ascii.N_of_ascii c =? 0) = false /\ (Ascii.N_of_ascii c =? 10) = false /\
   (Ascii.N_of_ascii c =? 13) = false /\ (Ascii.N_of_ascii c =? 8) = false /\
   (Ascii.N_of_ascii c =? 127) = false)%N.
Proof.
  unfold is_text_character. cbv zeta. intros H. apply negb_true_iff in H.
  repeat (apply orb_false_iff in H as [H ?]). by repeat split.
Qed.

Section CharacterStreamFacts.

Context {platform : CommandPlatform} {driver : AdcDriver} {digital : DigitalPlatform}
        {module : AnalogInputModule} {modules : CommandModules}.

Lemma Command_AddChar_text fuel stack c st :
  is_text_character c = true ->
  buffer_position st < MAX_COMMANDLINE_LENGTH ->
  Command_AddChar fuel stack c st =
    Ok ({| command_buffer := command_buffer st +:+ String c EmptyString;
           lastFunctionError := lastFunctionError st |}, []).
Proof.
  intros Hc Hpos. apply is_text_character_codes in Hc as (H0 & H10 & H13 & H8 & H127).
  unfold Command_AddChar. cbv zeta. apply Z.ltb_lt in Hpos.
  by rewrite H0, H10, H13, H8, H127, Hpos.
Qed.

Lemma Command_AddChar_full fuel stack c st :
  MAX_COMMANDLINE_LENGTH <= buffer_position st ->
  Command_AddChar fuel stack c st = Ok (st, []).
Proof.
  intros Hpos. unfold Command_AddChar. cbv zeta. apply Z.ltb_ge in Hpos.
  by rewrite Hpos, andb_false_r.
Qed.

(** Text characters handed to the interpreter one by one are appended to
    the command buffer in the order they arrive, as long as the buffer has
    room for them, and nothing is written to the Telnet connection. *)
Theorem typed_characters_fill_the_buffer fuel stack characters st :
  forallb is_text_character characters = true ->
  buffer_position st + Z.of_nat (length characters) <= MAX_COMMANDLINE_LENGTH ->
  Command_AddChars fuel stack characters st =
    Ok ({| command_buffer := command_buffer st +:+ string_of_characters characters;
           lastFunctionError := lastFunctionError st |}, []).
Proof.
  revert st. induction characters as [| c rest IH]; intros st Htext Hroom.
  - cbn. rewrite append_empty. by destruct st.
  - cbn [forallb] in Htext. apply andb_true_iff in Htext as [Hc Hrest].
    cbn [length] in Hroom. cbn [Command_AddChars].
    rewrite Command_AddChar_text by (done || lia).
    cbn [mbind Run_bind run_bind]. rewrite IH; [| exact Hrest |].
    + cbn [mbind Run_bind run_bind command_buffer lastFunctionError app].
      unfold string_of_characters. cbn [String.string_of_list_ascii].
      by rewrite append_assoc.
    + unfold buffer_position in *. cbn [command_buffer].
      rewrite length_append. cbn [String.length]. lia.
Qed.

(** Once the command buffer holds [MAX_COMMANDLINE_LENGTH] characters,
    no character changes the interpreter and nothing is written to the Telnet
    connection, whatever arrives and however much of it: a line end does not
    parse the line, a backspace does not remove a character. *)
Theorem full_buffer_accepts_nothing fuel stack characters st :
  MAX_COMMANDLINE_LENGTH <= buffer_position st ->
  Command_AddChars fuel stack characters st = Ok (st, []).
Proof.
  intros Hfull. induction characters as [| c rest IH]; [reflexivity |].
  cbn [Command_AddChars]. rewrite Command_AddChar_full by exact Hfull.
  cbn [mbind Run_bind run_bind]. rewrite IH. reflexivity.
Qed.

(** A backspace (or delete) after a text character leaves the
    interpreter as it was before the two, unless the text character took the
    last free place of the buffer: then the backspace is ignored and the
    character stays. *)
Theorem backspace_removes_the_last_character fuel stack c b st :
  is_text_character c = true ->
  b = Ascii.ascii_of_N 8 \/ b = Ascii.ascii_of_N 127 ->
  buffer_position st < MAX_COMMANDLINE_LENGTH ->
  Command_AddChars fuel stack [c; b] st =
    Ok (if buffer_position st + 1 <? MAX_COMMANDLINE_LENGTH then st
        else {| command_buffer := command_buffer st +:+ String c EmptyString;
                lastFunctionError := lastFunctionError st |}, []).
Proof.
  intros Hc Hb Hpos. cbn [Command_AddChars].
  rewrite Command_AddChar_text by done. cbn [mbind Run_bind run_bind].
  set (st1 := {| command_buffer := _ |}).
  assert (Hpos1 : buffer_position st1 = buffer_position st + 1).
  { unfold buffer_position, st1. cbn [command_buffer]. rewrite length_append. cbn. lia. }
  destruct (Z.ltb_spec (buffer_position st + 1) MAX_COMMANDLINE_LENGTH) as [Hlt | Hge].
  - assert (Hrun : Command_AddChar fuel stack b st1 = Ok (st, [])).
    { unfold Command_AddChar. cbv zeta. rewrite Hpos1.
      apply Z.ltb_lt in Hlt. rewrite Hlt.
      assert (H0 : (0 <? buffer_position st + 1) = true).
      { apply Z.ltb_lt. unfold buffer_position. lia. }
      rewrite H0. unfold st1. cbn [command_buffer lastFunctionError].
      rewrite remove_last_append.
      destruct Hb as [-> | ->]; cbn; by destruct st. }
    rewrite Hrun. reflexivity.
  - rewrite Command_AddChar_full by lia. reflexivity.
Qed.

End CharacterStreamFacts.

(** ** Channel sets *)

Lemma points_into_refl s : points_into s s.
Proof. by exists EmptyString. Qed.

Lemma points_into_tail p c s : points_into p s -> points_into p (String c s).
Proof. intros (before & ->). by exists (String c before). Qed.

Lemma points_into_trans p q s : points_into p q -> points_into q s -> points_into p s.
Proof.
  intros (b1 & ->) (b2 & ->). exists (b2 +:+ b1).
  induction b2 as [| c b2 IH]; [reflexivity |].
  rewrite !append_String. by rewrite IH.
Qed.

Lemma points_into_succ c p s : points_into (String c p) s -> points_into p s.
Proof.
  intros H. apply (points_into_trans _ (String c p)); [| exact H].
  by exists (String c EmptyString).
Qed.

Lemma skip_spaces_points_into s : points_into (skip_spaces s) s.
Proof.
  induction s as [| c s IH]; cbn [skip_spaces]; [apply points_into_refl |].
  destruct (is_space c); [by apply points_into_tail | apply points_into_refl].
Qed.

Lemma read_digits_points_into s acc n :
  points_into (read_digits s acc n).2 s.
Proof.
  revert acc n. induction s as [| c s IH]; intros acc n; cbn [read_digits];
    [apply points_into_refl |].
  destruct (is_digit c); [apply points_into_tail, IH | apply points_into_refl].
Qed.

(** The end pointer of [strtol] points into the string converted. *)
Lemma strtol_points_into s : points_into (strtol s).2 s.
Proof.
  unfold strtol. cbv zeta.
  set (s1 := skip_spaces s).
  assert (H1 : points_into s1 s) by apply skip_spaces_points_into.
  set (sign := match s1 with
               | String "-" r => (true, r)
               | String "+" r => (false, r)
               | _ => (false, s1)
               end).
  assert (H2 : points_into sign.2 s).
  { subst sign. destruct s1 as [| c r]; [exact H1 |].
    destruct (Ascii.eqb_spec c "-") as [-> | Hm]; [by apply (points_into_succ "-") |].
    destruct (Ascii.eqb_spec c "+") as [-> | Hp]; [by apply (points_into_succ "+") |].
    destruct c as [[] [] [] [] [] [] [] []]; try exact H1; congruence. }
  destruct sign as [negative s2]. cbn [snd] in H2.
  pose proof (read_digits_points_into s2 0 0) as H3.
  destruct (read_digits s2 0 0) as [[v n] rest]. cbn [snd] in H3.
  destruct n; cbn [snd]; [apply points_into_refl |].
  by apply (points_into_trans _ s2).
Qed.

Lemma entries_after_delimiter_points_into s param :
  In s (entries_after_delimiter param) -> points_into s param.
Proof.
  induction param as [| c rest IH]; cbn [entries_after_delimiter]; [intros [] |].
  intros Hin. apply in_app_or in Hin as [Hin | Hin].
  - destruct (Ascii.eqb c SET_DELIMETER); [| destruct Hin].
    destruct Hin as [<- | []]. by exists (String c EmptyString).
  - by apply points_into_tail, IH.
Qed.

Lemma points_into_entry r param :
  points_into (String SET_DELIMETER r) param -> In r (entries_after_delimiter param).
Proof.
  intros (before & ->). induction before as [| c before IH].
  - cbn. by left.
  - rewrite append_String. cbn [entries_after_delimiter]. apply in_or_app. by right.
Qed.

Lemma points_at_delimiter ptr :
  points_at ptr SET_DELIMETER = true -> exists r, ptr = String SET_DELIMETER r.
Proof.
  destruct ptr as [| c r]; [discriminate |]. cbn [points_at].
  intros H. apply Ascii.eqb_eq in H. subst c. by exists r.
Qed.

(** While every entry the counting loop can reach converts to a number other
    than 0, the loop does not return. *)
Lemma count_set_never_returns param :
  (forall s, In s (entries_after_delimiter param) -> (strtol s).1 <> 0) ->
  forall fuel value ptr str count,
    value <> 0 ->
    points_into ptr param ->
    (forall s, str = Some s -> (strtol s).1 <> 0 /\ points_into s param) ->
    (forall r, count_set fuel value ptr str count <> Ok r) /\
    (is_Some str -> count_set fuel value ptr str count = OutOfFuel).
Proof.
  intros Hentries. induction fuel as [| fuel IH]; intros value ptr str count Hv Hptr Hstr.
  - cbn [count_set]. apply Z.eqb_neq in Hv. rewrite Hv. by split.
  - cbn [count_set]. pose proof Hv as Hv'. apply Z.eqb_neq in Hv'. rewrite Hv'.
    destruct (points_at ptr SET_DELIMETER) eqn:Hat.
    + apply points_at_delimiter in Hat as (r & ->).
      cbn [ptr_succ mbind Run_bind run_bind].
      assert (Hr : In r (entries_after_delimiter param)) by by apply points_into_entry.
      pose proof (Hentries r Hr) as Hnz.
      pose proof (strtol_points_into r) as Hend.
      destruct (strtol r) as [value' ptr'] eqn:Hs. cbn [fst snd] in Hnz, Hend.
      assert (Hrp : points_into r param) by by apply entries_after_delimiter_points_into.
      destruct (IH value' ptr' (Some r) (wrap8 (count + 1))) as [Hno Hout].
      * exact Hnz.
      * by apply (points_into_trans _ r).
      * intros s [= <-]. rewrite Hs. by split.
      * split; [exact Hno |]. intros _. by apply Hout.
    + cbn [mbind Run_bind run_bind]. destruct str as [s |]; [| split; [done |]].
      * destruct (Hstr s eq_refl) as [Hnz Hsp].
        pose proof (strtol_points_into s) as Hend.
        destruct (strtol s) as [value' ptr'] eqn:Hs. cbn [fst snd] in Hnz, Hend.
        destruct (IH value' ptr' (Some s) (wrap8 (count + 1))) as [Hno Hout].
        -- exact Hnz.
        -- by apply (points_into_trans _ s).
        -- intros s' [= <-]. rewrite Hs. by split.
        -- split; [exact Hno |]. intros _. by apply Hout.
      * intros [? [=]].
Qed.

Section ChannelSetFacts.

Context {platform : CommandPlatform} {digital : DigitalPlatform}.

(** [BuildAnalogInputList] does not return a list for a channel set
    unless one of the entries of the set converts to 0: when the first entry
    and whatever follows each delimiter all convert to numbers other than 0,
    the call ends, whatever fuel its counting loop is given, with the fuel
    used up or with a [strtol] from the null pointer. *)
Theorem analog_channel_set_needs_a_zero_entry fuel param :
  (strtol param).1 <> 0 ->
  Forall (fun s => (strtol s).1 <> 0) (entries_after_delimiter param) ->
  forall channels, BuildAnalogInputList fuel CHANNEL_SET param <> Ok channels.
Proof.
  intros Hfirst Hentries channels. rewrite List.Forall_forall in Hentries.
  unfold BuildAnalogInputList.
  pose proof (strtol_points_into param) as Hend.
  destruct (strtol param) as [value ptr]. cbn [fst snd] in Hfirst, Hend.
  destruct (count_set_never_returns param Hentries fuel value ptr None 0) as [Hno _];
    [exact Hfirst | exact Hend | by intros s [=] |].
  destruct (count_set fuel value ptr None 0) as [r | | |] eqn:Hc;
    cbn [mbind Run_bind run_bind]; try discriminate.
  by destruct (Hno r).
Qed.

(** For the same channel sets [BuildDigitalInputList] and
    [BuildDigitalOutputList], whose counting loop starts with [str] at the
    selector, use up whatever fuel the loop is given. *)
Theorem digital_channel_set_needs_a_zero_entry fuel param :
  (strtol param).1 <> 0 ->
  Forall (fun s => (strtol s).1 <> 0) (entries_after_delimiter param) ->
  BuildDigitalInputList fuel CHANNEL_SET param = OutOfFuel /\
  BuildDigitalOutputList fuel CHANNEL_SET param = OutOfFuel.
Proof.
  intros Hfirst Hentries. rewrite List.Forall_forall in Hentries.
  unfold BuildDigitalInputList, BuildDigitalOutputList, BuildDigitalList.
  pose proof (strtol_points_into param) as Hend.
  destruct (strtol param) as [value ptr] eqn:Hs. cbn [fst snd] in Hfirst, Hend.
  destruct (count_set_never_returns param Hentries fuel value ptr (Some param) 0) as [_ Hout];
    [exact Hfirst | exact Hend | |].
  - intros s [= <-]. rewrite Hs. split; [exact Hfirst | apply points_into_refl].
  - rewrite Hout by eauto. by split.
Qed.

End ChannelSetFacts.

(** ** Channel ranges *)

Section ChannelRangeFacts.

Context {platform : CommandPlatform}.

(** The filling loop of the ALL and RANGE cases, started from index
    [length done_]: it fills the next [n] entries and leaves the rest. *)
Lemma fill_from_start n start (done_ rest : list (option Z)) :
  Z.of_nat (length done_) + Z.of_nat n <= NUM_ANALOG_INPUTS ->
  fill_from n (Z.of_nat (length done_)) start (done_ ++ replicate n None ++ rest) =
    Ok (done_ ++ ((fun i => GetAnalogInputByNumber (start + i)) <$>
                    seqZ (Z.of_nat (length done_)) (Z.of_nat n)) ++ rest).
Proof.
  revert done_. induction n as [| n IH]; intros done_ Hle.
  - reflexivity.
  - cbn [fill_from]. unfold aInputs_store.
    replace (0 <=? Z.of_nat (length done_)) with true by (symmetry; apply Z.leb_le; lia).
    replace (Z.of_nat (length done_) <? NUM_ANALOG_INPUTS) with true
      by (symmetry; apply Z.ltb_lt; lia).
    cbn [andb]. rewrite Nat2Z.id. cbn [replicate].
    rewrite insert_app_r_alt by lia. rewrite Nat.sub_diag.
    cbn [insert list_insert app mbind Run_bind run_bind].
    specialize (IH (done_ ++ [GetAnalogInputByNumber (start + Z.of_nat (length done_))])).
    rewrite length_app in IH. cbn [length] in IH.
    rewrite <- app_assoc in IH. cbn [app] in IH.
    replace (Z.of_nat (length done_) + 1) with (Z.of_nat (length done_ + 1)) by lia.
    rewrite IH by lia.
    rewrite (seqZ_cons (Z.of_nat (length done_)) (Z.of_nat (S n))) by lia.
    rewrite <- app_assoc. cbn [app fmap list_fmap].
    replace (Z.pred (Z.of_nat (S n))) with (Z.of_nat n) by lia.
    replace (Z.succ (Z.of_nat (length done_))) with (Z.of_nat (length done_ + 1)) by lia.
    reflexivity.
Qed.

(** The filling loop runs into the end of the array when it is to fill more
    entries than are left. *)
Lemma fill_from_overrun n i start (channels : list (option Z)) :
  0 <= i <= NUM_ANALOG_INPUTS ->
  NUM_ANALOG_INPUTS < i + Z.of_nat n ->
  fill_from n i start channels = Undefined.
Proof.
  revert i channels. induction n as [| n IH]; intros i channels Hi Hn; [lia |].
  cbn [fill_from]. unfold aInputs_store.
  destruct (Z.ltb_spec i NUM_ANALOG_INPUTS) as [Hlt | Hge].
  - replace (0 <=? i) with true by (symmetry; apply Z.leb_le; lia).
    cbn [andb mbind Run_bind run_bind]. apply IH; lia.
  - by rewrite andb_false_r.
Qed.

(** A range selector whose first number [v1] is not 0 resolves to the
    channels [v1], ..., [last] in this order, the rest of the array being
    null.  [last] is the number that follows the character after the first
    number, or [NUM_ANALOG_INPUTS] when no number (or 0) follows it.  The
    numbers fit a [uint8_t] and the range fits the array. *)
Theorem channel_range_is_resolved fuel param v1 c rest :
  strtol param = (v1, String c rest) ->
  let v2 := (strtol rest).1 in
  let last := if v2 =? 0 then NUM_ANALOG_INPUTS else v2 in
  0 < v1 <= last ->
  0 <= v2 ->
  last < 256 ->
  last - v1 + 1 <= NUM_ANALOG_INPUTS ->
  BuildAnalogInputList fuel CHANNEL_RANGE param =
    Ok ((GetAnalogInputByNumber <$> seqZ v1 (last - v1 + 1)) ++
        replicate (Z.to_nat (NUM_ANALOG_INPUTS - (last - v1 + 1))) None).
Proof.
  intros Hparam v2 last Hv1 Hv2 Hlast Hfit.
  unfold BuildAnalogInputList. rewrite Hparam. cbn [ptr_succ mbind Run_bind run_bind].
  fold v2.
  assert (Hw1 : wrap8 v1 = v1) by (unfold wrap8; apply Z.mod_small; lia).
  assert (Hw2 : wrap8 v2 = v2).
  { unfold wrap8. apply Z.mod_small. subst last. destruct (Z.eqb_spec v2 0); lia. }
  rewrite Hw1, Hw2.
  replace (v1 =? 0) with false by (symmetry; apply Z.eqb_neq; lia). cbn [negb].
  assert (Hend : (if negb (v2 =? 0) then v2 else wrap8 NUM_ANALOG_INPUTS) = last).
  { subst last. destruct (v2 =? 0); cbn [negb]; [| reflexivity].
    unfold wrap8. apply Z.mod_small. lia. }
  rewrite Hend.
  assert (Hcount : wrap8 (last - v1 + 1) = last - v1 + 1)
    by (unfold wrap8; apply Z.mod_small; lia).
  rewrite Hcount.
  set (n := Z.to_nat (last - v1 + 1)).
  replace (replicate (Z.to_nat NUM_ANALOG_INPUTS) None)
    with (@nil (option Z) ++ replicate n None ++
          replicate (Z.to_nat (NUM_ANALOG_INPUTS - (last - v1 + 1))) (@None Z)).
  2: { cbn [app]. rewrite <- replicate_add. f_equal. lia. }
  rewrite (fill_from_start n v1 []) by (cbn [length]; lia).
  cbn [app length]. do 2 f_equal.
  replace (seqZ v1 (last - v1 + 1)) with (Z.add v1 <$> seqZ 0 (last - v1 + 1))
    by (rewrite fmap_add_seqZ; f_equal; lia).
  rewrite <- list_fmap_compose. subst n. rewrite Z2Nat.id by lia. reflexivity.
Qed.

(** A range selector whose first number is 0, or a multiple of 256, or
    not a number at all, resolves to channel 0 alone, whatever follows. *)
Theorem channel_range_from_zero_is_channel_zero fuel param v1 c rest :
  strtol param = (v1, String c rest) ->
  wrap8 v1 = 0 ->
  0 < NUM_ANALOG_INPUTS ->
  BuildAnalogInputList fuel CHANNEL_RANGE param =
    Ok (GetAnalogInputByNumber 0 :: replicate (Z.to_nat NUM_ANALOG_INPUTS - 1) None).
Proof.
  intros Hparam Hv1 Hnum.
  unfold BuildAnalogInputList. rewrite Hparam. cbn [ptr_succ mbind Run_bind run_bind].
  rewrite Hv1. cbn [Z.eqb negb]. change (wrap8 (0 - 0 + 1)) with 1.
  change (Z.to_nat 1) with 1%nat. cbn [fill_from]. unfold aInputs_store.
  replace (0 <? NUM_ANALOG_INPUTS) with true by (symmetry; apply Z.ltb_lt; lia).
  cbn [Z.leb andb mbind Run_bind run_bind].
  destruct (Z.to_nat NUM_ANALOG_INPUTS) as [| k] eqn:Hk; [lia |].
  cbn. by rewrite Nat.sub_0_r.
Qed.

(** A range selector whose second number is not 0 and lower than the
    first by two or more makes the filling loop count modulo 256 and store
    past the end of the array. *)
Theorem reversed_channel_range_overruns_the_array fuel param v1 c rest :
  strtol param = (v1, String c rest) ->
  let v2 := (strtol rest).1 in
  0 < v2 ->
  v2 + 1 < v1 ->
  v1 < 256 ->
  0 <= NUM_ANALOG_INPUTS < 256 + v2 - v1 + 1 ->
  BuildAnalogInputList fuel CHANNEL_RANGE param = Undefined.
Proof.
  intros Hparam v2 Hv2 Hv Hv1 Hnum.
  unfold BuildAnalogInputList. rewrite Hparam. cbn [ptr_succ mbind Run_bind run_bind].
  fold v2.
  assert (Hw1 : wrap8 v1 = v1) by (unfold wrap8; apply Z.mod_small; lia).
  assert (Hw2 : wrap8 v2 = v2) by (unfold wrap8; apply Z.mod_small; lia).
  rewrite Hw1, Hw2.
  replace (v1 =? 0) with false by (symmetry; apply Z.eqb_neq; lia).
  replace (v2 =? 0) with false by (symmetry; apply Z.eqb_neq; lia). cbn [negb].
  assert (Hcount : wrap8 (v2 - v1 + 1) = 256 + v2 - v1 + 1).
  { unfold wrap8. symmetry. apply (Z.mod_unique _ _ (-1)); [left; lia | lia]. }
  rewrite Hcount. apply fill_from_overrun; lia.
Qed.

(** A channel set that ends the counting loop, because a 0 or nothing
    follows its last delimiter, is resolved without its first entry: of a
    set of two numbers and such an end the array gets the second number and
    then channel 0. *)
Theorem terminated_channel_set_drops_its_first_entry fuel param v1 s1 v2 s2 :
  strtol param = (v1, String SET_DELIMETER s1) ->
  strtol s1 = (v2, String SET_DELIMETER s2) ->
  (strtol s2).1 = 0 ->
  v1 <> 0 ->
  v2 <> 0 ->
  2 <= NUM_ANALOG_INPUTS ->
  (2 <= fuel)%nat ->
  BuildAnalogInputList fuel CHANNEL_SET param =
    Ok (GetAnalogInputByNumber v2 :: GetAnalogInputByNumber 0 ::
        replicate (Z.to_nat NUM_ANALOG_INPUTS - 2) None).
Proof.
  intros Hparam Hs1 Hs2 Hv1 Hv2 Hnum Hfuel.
  unfold BuildAnalogInputList. rewrite Hparam.
  destruct fuel as [| [| fuel]]; [lia | lia |].
  destruct (strtol s2) as [v3 p3] eqn:Hs2'. cbn [fst] in Hs2. subst v3.
  assert (Hcount : count_set (S (S fuel)) v1 (String SET_DELIMETER s1) None 0 =
                   Ok (2, Some s2)).
  { cbn [count_set]. apply Z.eqb_neq in Hv1, Hv2. rewrite Hv1.
    cbn [points_at SET_DELIMETER Ascii.eqb Bool.eqb ptr_succ mbind Run_bind run_bind].
    rewrite Hs1, Hv2.
    cbn [points_at SET_DELIMETER Ascii.eqb Bool.eqb ptr_succ mbind Run_bind run_bind].
    rewrite Hs2'. destruct fuel; reflexivity. }
  rewrite Hcount. cbn [mbind Run_bind run_bind]. change (Z.to_nat 2) with 2%nat.
  cbn [fill_set points_at SET_DELIMETER Ascii.eqb Bool.eqb ptr_succ mbind Run_bind run_bind].
  rewrite Hs1. unfold aInputs_store.
  replace (0 <? NUM_ANALOG_INPUTS) with true by (symmetry; apply Z.ltb_lt; lia).
  cbn [Z.leb andb mbind Run_bind run_bind points_at SET_DELIMETER Ascii.eqb Bool.eqb ptr_succ].
  rewrite Hs2'.
  replace (0 + 1 <? NUM_ANALOG_INPUTS) with true by (symmetry; apply Z.ltb_lt; lia).
  destruct (Z.to_nat NUM_ANALOG_INPUTS) as [| [| k]] eqn:Hk; [lia | lia |].
  cbn. by rewrite Nat.sub_0_r.
Qed.

End ChannelRangeFacts.

(** ** Upper case *)

Lemma ToUpperCase_char_idempotent c :
  ToUpperCase_char (ToUpperCase_char c) = ToUpperCase_char c.
Proof. by destruct c as [[] [] [] [] [] [] [] []]. Qed.

Lemma ToUpperCase_idempotent s : ToUpperCase (ToUpperCase s) = ToUpperCase s.
Proof.
  induction s as [| c s IH]; [reflexivity |].
  cbn [ToUpperCase]. by rewrite ToUpperCase_char_idempotent, IH.
Qed.

(** The space, the equals sign and the minus sign are no letters:
    [ToUpperCase] neither makes nor removes one. *)
Lemma ToUpperCase_char_space c :
  is_one_of COMMAND_DELIMETER (ToUpperCase_char c) = is_one_of COMMAND_DELIMETER c.
Proof. by destruct c as [[] [] [] [] [] [] [] []]. Qed.

Lemma ToUpperCase_char_equals c :
  is_one_of KEY_VALUE_PAIR_DELIMETER (ToUpperCase_char c) =
  is_one_of KEY_VALUE_PAIR_DELIMETER c.
Proof. by destruct c as [[] [] [] [] [] [] [] []]. Qed.

Lemma ToUpperCase_char_minus c :
  Ascii.eqb (ToUpperCase_char c) "-" = Ascii.eqb c "-".
Proof. by destruct c as [[] [] [] [] [] [] [] []]. Qed.

Section UpperCaseStable.

(** A set of delimiters that holds no character [ToUpperCase] changes or
    produces. *)
Variable set : string.
Hypothesis stable : forall c, is_one_of set (ToUpperCase_char c) = is_one_of set c.

Lemma count_chars_ToUpperCase s : count_chars set (ToUpperCase s) = count_chars set s.
Proof.
  induction s as [| c s IH]; [reflexivity |].
  cbn [ToUpperCase count_chars]. by rewrite stable, IH.
Qed.

Lemma strcspn_ToUpperCase s : strcspn (ToUpperCase s) set = strcspn s set.
Proof.
  induction s as [| c s IH]; [reflexivity |].
  cbn [ToUpperCase strcspn]. by rewrite stable, IH.
Qed.

Lemma skip_delimiters_ToUpperCase s :
  skip_delimiters set (ToUpperCase s) = ToUpperCase (skip_delimiters set s).
Proof.
  induction s as [| c s IH]; [reflexivity |].
  cbn [ToUpperCase skip_delimiters]. rewrite stable.
  by destruct (is_one_of set c).
Qed.

Lemma split_token_ToUpperCase s :
  split_token set (ToUpperCase s) =
  (ToUpperCase (split_token set s).1, ToUpperCase (split_token set s).2).
Proof.
  induction s as [| c s IH]; [reflexivity |].
  cbn [ToUpperCase split_token]. rewrite stable.
  destruct (is_one_of set c); [reflexivity |].
  rewrite IH. by destruct (split_token set s).
Qed.

Lemma strtok_ToUpperCase s :
  strtok (ToUpperCase s) set =
  match strtok s set with
  | Some (tok, saved) => Some (ToUpperCase tok, ToUpperCase saved)
  | None => None
  end.
Proof.
  unfold strtok. rewrite skip_delimiters_ToUpperCase.
  destruct (skip_delimiters set s) as [| c s'] eqn:Hs; [reflexivity |].
  pose proof (split_token_ToUpperCase (String c s')) as Hsplit.
  cbn [ToUpperCase] in Hsplit |- *. rewrite Hsplit.
  by destruct (split_token set (String c s')).
Qed.

(** Two strings that are equal up to case are cut into tokens that are equal
    up to case. *)
Lemma strtok_up_to_case a b :
  ToUpperCase a = ToUpperCase b ->
  match strtok a set, strtok b set with
  | Some (tok1, saved1), Some (tok2, saved2) =>
      ToUpperCase tok1 = ToUpperCase tok2 /\ ToUpperCase saved1 = ToUpperCase saved2
  | None, None => True
  | _, _ => False
  end.
Proof.
  intros Heq. pose proof (strtok_ToUpperCase a) as Ha.
  pose proof (strtok_ToUpperCase b) as Hb. rewrite Heq in Ha. rewrite Ha in Hb.
  destruct (strtok a set) as [[tok1 saved1] |], (strtok b set) as [[tok2 saved2] |];
    try discriminate; [| done].
  by injection Hb as -> ->.
Qed.

End UpperCaseStable.

Lemma ToUpperCase_char_nul c :
  Ascii.eqb (ToUpperCase_char c) "000" = Ascii.eqb c "000".
Proof. by destruct c as [[] [] [] [] [] [] [] []]. Qed.

Lemma c_str_ToUpperCase s : c_str (ToUpperCase s) = ToUpperCase (c_str s).
Proof.
  induction s as [| c s IH]; [reflexivity |]. cbn [ToUpperCase c_str].
  rewrite ToUpperCase_char_nul. destruct (Ascii.eqb c "000"); [reflexivity |].
  cbn [ToUpperCase]. by rewrite IH.
Qed.

Lemma after_c_str_ToUpperCase s :
  after_c_str (ToUpperCase s) = ToUpperCase (after_c_str s).
Proof.
  induction s as [| c s IH]; [reflexivity |]. cbn [ToUpperCase after_c_str].
  rewrite ToUpperCase_char_nul. by destruct (Ascii.eqb c "000").
Qed.

Lemma length_up_to_case a b :
  ToUpperCase a = ToUpperCase b -> String.length a = String.length b.
Proof.
  intros Heq. rewrite <- (length_ToUpperCase a), <- (length_ToUpperCase b). by rewrite Heq.
Qed.

Lemma string_drop_ToUpperCase n s :
  string_drop n (ToUpperCase s) = ToUpperCase (string_drop n s).
Proof.
  revert s. induction n as [| n IH]; intros [| c s]; cbn [string_drop ToUpperCase]; try done.
Qed.

Lemma starts_with_flag_ToUpperCase s :
  starts_with KEY_VALUE_PAIR_FLAG (ToUpperCase s) = starts_with KEY_VALUE_PAIR_FLAG s.
Proof.
  destruct s as [| c1 [| c2 s]]; [reflexivity | |].
  - unfold starts_with. cbn. by rewrite ToUpperCase_char_minus.
  - unfold starts_with. cbn. rewrite !ToUpperCase_char_minus. by destruct s.
Qed.

(** ** Lines that are equal up to case *)

Lemma string_at_up_to_case (a b : list string) i :
  Forall2 up_to_case a b -> up_to_case (string_at a i) (string_at b i).
Proof.
  intros H. revert i. induction H as [| x y a b Hxy Hab IH]; intros i.
  - reflexivity.
  - destruct i as [| i]; [exact Hxy | apply IH].
Qed.

Lemma insert_up_to_case (a b : list string) i x y :
  Forall2 up_to_case a b -> up_to_case x y ->
  Forall2 up_to_case (<[i := x]> a) (<[i := y]> b).
Proof.
  intros H Hxy. revert i. induction H as [| x' y' a b Hxy' Hab IH]; intros i.
  - constructor.
  - destruct i as [| i]; cbn; constructor; (done || apply IH).
Qed.

Lemma Forall2_up_to_case_refl (a : list string) : Forall2 up_to_case a a.
Proof. induction a; constructor; done. Qed.

Section CaseFacts.

Context {platform : CommandPlatform} {driver : AdcDriver} {digital : DigitalPlatform}
        {module : AnalogInputModule} {modules : CommandModules}.

Lemma fits_up_to_case a b : up_to_case a b -> fits a = fits b.
Proof. intros H. unfold fits. by rewrite (length_up_to_case a b H). Qed.

Lemma copy_arguments_up_to_case n i saved1 saved2 raw1 raw2 :
  up_to_case saved1 saved2 ->
  Forall2 up_to_case raw1 raw2 ->
  Run_related (Forall2 up_to_case)
    (copy_arguments n i saved1 raw1) (copy_arguments n i saved2 raw2).
Proof.
  revert i saved1 saved2 raw1 raw2.
  induction n as [| n IH]; intros i saved1 saved2 raw1 raw2 Hsaved Hraw; [exact Hraw |].
  cbn [copy_arguments].
  pose proof (strtok_up_to_case COMMAND_DELIMETER ToUpperCase_char_space _ _ Hsaved) as Htok.
  destruct (strtok saved1 COMMAND_DELIMETER) as [[pch1 rest1] |],
           (strtok saved2 COMMAND_DELIMETER) as [[pch2 rest2] |]; try done.
  destruct Htok as [Hpch Hrest]. unfold strcpy_into.
  rewrite (fits_up_to_case pch1 pch2 Hpch).
  destruct (fits pch2 && (Z.of_nat i <? MAX_NUM_ARGUMENTS)); [| done].
  cbn [mbind Run_bind run_bind]. apply IH; [exact Hrest |].
  by apply insert_up_to_case.
Qed.

Lemma ParseKeyValuePairs_loop_up_to_case n i raw1 raw2 keys values :
  Forall2 up_to_case raw1 raw2 ->
  ParseKeyValuePairs_loop n i raw1 keys values = ParseKeyValuePairs_loop n i raw2 keys values.
Proof.
  intros Hraw. revert i keys values.
  induction n as [| n IH]; intros i keys values; [reflexivity |].
  cbn [ParseKeyValuePairs_loop]. unfold array_load.
  destruct (Z.of_nat i <? MAX_NUM_ARGUMENTS); [| reflexivity].
  cbn [mbind Run_bind run_bind].
  pose proof (string_at_up_to_case raw1 raw2 i Hraw) as Hi.
  set (r1 := string_at raw1 i) in *. set (r2 := string_at raw2 i) in *.
  assert (Hflag : starts_with KEY_VALUE_PAIR_FLAG r1 = starts_with KEY_VALUE_PAIR_FLAG r2).
  { rewrite <- (starts_with_flag_ToUpperCase r1), <- (starts_with_flag_ToUpperCase r2).
    by rewrite Hi. }
  rewrite Hflag. destruct (starts_with KEY_VALUE_PAIR_FLAG r2); [| apply IH].
  assert (Hdrop : up_to_case (string_drop 2 r1) (string_drop 2 r2)).
  { unfold up_to_case. rewrite <- !string_drop_ToUpperCase. by rewrite Hi. }
  unfold strcpy_local. rewrite (fits_up_to_case _ _ Hdrop).
  destruct (fits (string_drop 2 r2)); [| reflexivity].
  cbn [mbind Run_bind run_bind].
  pose proof (strtok_up_to_case KEY_VALUE_PAIR_DELIMETER ToUpperCase_char_equals _ _ Hdrop)
    as Htok.
  destruct (strtok (string_drop 2 r1) KEY_VALUE_PAIR_DELIMETER) as [[k1 s1] |],
           (strtok (string_drop 2 r2) KEY_VALUE_PAIR_DELIMETER) as [[k2 s2] |]; try done.
  destruct Htok as [Hk Hs]. unfold up_to_case in Hk. rewrite Hk.
  destruct (strcpy_into keys i (ToUpperCase k2)) as [keys' | | |];
    cbn [mbind Run_bind run_bind]; try reflexivity.
  pose proof (strtok_up_to_case KEY_VALUE_PAIR_DELIMETER ToUpperCase_char_equals _ _ Hs)
    as Htok2.
  destruct (strtok s1 KEY_VALUE_PAIR_DELIMETER) as [[v1 t1] |],
           (strtok s2 KEY_VALUE_PAIR_DELIMETER) as [[v2 t2] |]; try done.
  - destruct Htok2 as [Hv _]. unfold up_to_case in Hv. rewrite Hv.
    destruct (strcpy_into values i (ToUpperCase v2)) as [values' | | |];
      cbn [mbind Run_bind run_bind]; try reflexivity. apply IH.
  - destruct (strcpy_into values i EmptyString) as [values' | | |];
      cbn [mbind Run_bind run_bind]; try reflexivity. apply IH.
Qed.

Lemma ProcessCommand_up_to_case fuel stack command1 command2 raw1 raw2 count st1 st2 :
  up_to_case command1 command2 ->
  Forall2 up_to_case raw1 raw2 ->
  lastFunctionError st1 = lastFunctionError st2 ->
  line_end (ProcessCommand fuel stack command1 raw1 count st1) =
  line_end (ProcessCommand fuel stack command2 raw2 count st2).
Proof.
  intros Hcommand Hraw Herror. unfold ProcessCommand, ParseKeyValuePairs.
  unfold up_to_case in Hcommand. rewrite Hcommand, Herror.
  rewrite (ParseKeyValuePairs_loop_up_to_case _ _ raw1 raw2 _ _ Hraw).
  destruct (ParseKeyValuePairs_loop _ _ raw2 _ _) as [[keys values] | | |];
    cbn [mbind Run_bind run_bind line_end]; try reflexivity.
  destruct (ExecuteCommand _ _ _ _ _ _) as [[[error e] output] | | |];
    cbn [mbind Run_bind run_bind line_end]; reflexivity.
Qed.

(** Two buffers that are equal up to case hold C strings that are equal up
    to case, or both hold none. *)
Lemma buffer_text_up_to_case st1 st2 :
  up_to_case (command_buffer st1) (command_buffer st2) ->
  match buffer_text st1, buffer_text st2 with
  | Ok line1, Ok line2 => up_to_case line1 line2
  | Undefined, Undefined => True
  | _, _ => False
  end.
Proof.
  intros Hbuffer. unfold buffer_text, buffer_position.
  rewrite (length_up_to_case _ _ Hbuffer).
  assert (Hafter : up_to_case (after_c_str (command_buffer st1))
                              (after_c_str (command_buffer st2))).
  { unfold up_to_case. by rewrite <- !after_c_str_ToUpperCase, Hbuffer. }
  assert (Hnul : String.eqb (after_c_str (command_buffer st1)) EmptyString =
                 String.eqb (after_c_str (command_buffer st2)) EmptyString).
  { apply length_up_to_case in Hafter.
    by destruct (after_c_str (command_buffer st1)), (after_c_str (command_buffer st2)). }
  rewrite Hnul.
  destruct (negb _ || _); [| done].
  unfold up_to_case. by rewrite <- !c_str_ToUpperCase, Hbuffer.
Qed.

Lemma Command_ParseLine_up_to_case fuel stack st1 st2 :
  up_to_case (command_buffer st1) (command_buffer st2) ->
  lastFunctionError st1 = lastFunctionError st2 ->
  line_end (Command_ParseLine fuel stack st1) = line_end (Command_ParseLine fuel stack st2).
Proof.
  intros Hbuffer Herror. unfold Command_ParseLine.
  pose proof (buffer_text_up_to_case st1 st2 Hbuffer) as Htext.
  destruct (buffer_text st1) as [line1 | | |], (buffer_text st2) as [line2 | | |];
    try done.
  cbn [mbind Run_bind run_bind]. cbv zeta.
  assert (Hcount : count_chars COMMAND_DELIMETER line1 = count_chars COMMAND_DELIMETER line2).
  { rewrite <- (count_chars_ToUpperCase _ ToUpperCase_char_space line1),
      <- (count_chars_ToUpperCase _ ToUpperCase_char_space line2).
    by rewrite Htext. }
  assert (Hspan : strcspn line1 COMMAND_DELIMETER = strcspn line2 COMMAND_DELIMETER).
  { rewrite <- (strcspn_ToUpperCase _ ToUpperCase_char_space line1),
      <- (strcspn_ToUpperCase _ ToUpperCase_char_space line2).
    by rewrite Htext. }
  assert (Hclear : ClearCommandBuffer st1 = ClearCommandBuffer st2).
  { unfold ClearCommandBuffer. by rewrite Herror. }
  rewrite Hcount, Hspan, (length_up_to_case _ _ Htext).
  destruct (0 <? wrap8 _).
  - destruct (strcspn _ _ =? MAX_COMMANDPART_LENGTH).
    { cbn [line_end mbind Run_bind run_bind]. unfold ClearCommandBuffer. by rewrite Herror. }
    pose proof (strtok_up_to_case COMMAND_DELIMETER ToUpperCase_char_space _ _ Htext)
      as Htok.
    destruct (strtok line1 COMMAND_DELIMETER) as [[pch1 saved1] |] eqn:Htok1,
             (strtok line2 COMMAND_DELIMETER) as [[pch2 saved2] |] eqn:Htok2;
      try done.
    destruct Htok as [Hpch Hsaved]. unfold strcpy_local.
    rewrite (fits_up_to_case _ _ Hpch).
    destruct (fits pch2); [| reflexivity]. cbn [mbind Run_bind run_bind].
    pose proof (copy_arguments_up_to_case
                  (Z.to_nat (wrap8 (count_chars COMMAND_DELIMETER line2))) 0
                  saved1 saved2 _ _ Hsaved
                  (Forall2_up_to_case_refl (array_of (stack_raw_args stack)))) as Hcopy.
    destruct (copy_arguments _ 0 saved1 _) as [a1 | | |],
             (copy_arguments _ 0 saved2 _) as [a2 | | |]; try done.
    cbn [mbind Run_bind run_bind]. by apply ProcessCommand_up_to_case.
  - destruct (MAX_COMMANDPART_LENGTH - 1 <? _).
    { cbn [line_end mbind Run_bind run_bind]. unfold ClearCommandBuffer. by rewrite Herror. }
    apply ProcessCommand_up_to_case; [exact Htext | apply Forall2_up_to_case_refl | exact Herror].
Qed.

(** The protocol does not tell upper case from lower case, in the
    command word, in the keys and in the values: at a line end, two lines that
    differ in the case of letters only leave the interpreter in the same state
    with the same output, and end the same way when they do not return. *)
Theorem command_lines_are_case_insensitive fuel stack c line1 line2 e :
  ToUpperCase line1 = ToUpperCase line2 ->
  c = "010"%char \/ c = "013"%char ->
  Z.of_nat (String.length line1) < MAX_COMMANDLINE_LENGTH ->
  Command_AddChar fuel stack c {| command_buffer := line1; lastFunctionError := e |} =
  Command_AddChar fuel stack c {| command_buffer := line2; lastFunctionError := e |}.
Proof.
  intros Hline Hc Hroom. unfold Command_AddChar, buffer_position. cbv zeta.
  cbn [command_buffer]. rewrite <- (length_up_to_case _ _ Hline).
  apply Z.ltb_lt in Hroom. rewrite Hroom.
  pose proof (Command_ParseLine_up_to_case fuel stack
                {| command_buffer := line1; lastFunctionError := e |}
                {| command_buffer := line2; lastFunctionError := e |} Hline eq_refl) as Hparse.
  unfold line_end in Hparse.
  destruct Hc as [-> | ->]; cbn; exact Hparse.
Qed.

End CaseFacts.

(** ** Key/value pairs *)

Lemma string_at_insert (a : list string) i x :
  (i < length a)%nat -> string_at (<[i := x]> a) i = x.
Proof. intros Hi. unfold string_at. by rewrite list_lookup_insert_eq. Qed.

Lemma string_at_insert_ne (a : list string) i j x :
  i <> j -> string_at (<[i := x]> a) j = string_at a j.
Proof. intros Hne. unfold string_at. by rewrite list_lookup_insert_ne. Qed.

Lemma starts_with_flag s : starts_with KEY_VALUE_PAIR_FLAG (KEY_VALUE_PAIR_FLAG +:+ s) = true.
Proof. unfold starts_with. cbn. by destruct s. Qed.

Section KeyValueFacts.

Context {platform : CommandPlatform}.

Lemma strcpy_into_Ok a i s a' :
  strcpy_into a i s = Ok a' ->
  a' = <[i := s]> a /\ Z.of_nat i < MAX_NUM_ARGUMENTS /\ fits s = true.
Proof.
  unfold strcpy_into. destruct (fits s); [| discriminate].
  destruct (Z.ltb_spec (Z.of_nat i) MAX_NUM_ARGUMENTS); [| discriminate].
  cbn. intros [= <-]. done.
Qed.

(** One iteration of the loop of [ParseKeyValuePairs] touches the entries of
    its own index only and keeps the sizes of the arrays. *)
Lemma ParseKeyValuePairs_loop_below n i raw_args keys values keys' values' :
  ParseKeyValuePairs_loop n i raw_args keys values = Ok (keys', values') ->
  length keys' = length keys /\ length values' = length values /\
  forall j, (j < i)%nat ->
    string_at keys' j = string_at keys j /\ string_at values' j = string_at values j.
Proof.
  revert i keys values. induction n as [| n IH]; intros i keys values Hrun.
  - cbn in Hrun. injection Hrun as <- <-. done.
  - cbn [ParseKeyValuePairs_loop] in Hrun.
    destruct (array_load raw_args i) as [raw | | |]; try discriminate.
    cbn [mbind Run_bind run_bind] in Hrun.
    destruct (starts_with KEY_VALUE_PAIR_FLAG raw).
    + destruct (strcpy_local _) as [temp | | |]; try discriminate.
      cbn [mbind Run_bind run_bind] in Hrun.
      destruct (strtok temp _) as [[k saved] |]; [| discriminate].
      destruct (strcpy_into keys i _) as [keys1 | | |] eqn:Hk; try discriminate.
      cbn [mbind Run_bind run_bind] in Hrun.
      apply strcpy_into_Ok in Hk as (-> & _ & _).
      destruct (match strtok saved KEY_VALUE_PAIR_DELIMETER with
                | Some (raw0, _) => strcpy_into values i (ToUpperCase raw0)
                | None => strcpy_into values i EmptyString
                end) as [values1 | | |] eqn:Hv; try discriminate.
      cbn [mbind Run_bind run_bind] in Hrun.
      assert (Hv1 : exists x, values1 = <[i := x]> values).
      { destruct (strtok saved _) as [[v t] |];
          apply strcpy_into_Ok in Hv as (-> & _ & _); eauto. }
      destruct Hv1 as (x & ->).
      apply IH in Hrun as (Hlk & Hlv & Hbelow).
      rewrite length_insert in Hlk, Hlv. split; [exact Hlk |]. split; [exact Hlv |].
      intros j Hj. destruct (Hbelow j) as [Hkj Hvj]; [lia |].
      rewrite Hkj, Hvj. by rewrite !string_at_insert_ne by lia.
    + apply IH in Hrun as (Hlk & Hlv & Hbelow).
      split; [exact Hlk |]. split; [exact Hlv |]. intros j Hj. apply Hbelow. lia.
Qed.

(** What one iteration of the loop does, when the loop returns. *)
Lemma ParseKeyValuePairs_loop_step n i raw_args keys values keys' values' :
  ParseKeyValuePairs_loop (S n) i raw_args keys values = Ok (keys', values') ->
  exists keys1 values1,
    ParseKeyValuePairs_loop n (S i) raw_args keys1 values1 = Ok (keys', values') /\
    Z.of_nat i < MAX_NUM_ARGUMENTS /\
    if starts_with KEY_VALUE_PAIR_FLAG (string_at raw_args i)
    then exists k saved,
           strtok (string_drop 2 (string_at raw_args i)) KEY_VALUE_PAIR_DELIMETER
             = Some (k, saved) /\
           keys1 = <[i := ToUpperCase k]> keys /\
           values1 = <[i := match strtok saved KEY_VALUE_PAIR_DELIMETER with
                            | Some (v, _) => ToUpperCase v
                            | None => EmptyString
                            end]> values
    else keys1 = keys /\ values1 = values.
Proof.
  cbn [ParseKeyValuePairs_loop]. unfold array_load.
  destruct (Z.ltb_spec (Z.of_nat i) MAX_NUM_ARGUMENTS) as [Hi |]; [| discriminate].
  cbn [mbind Run_bind run_bind].
  destruct (starts_with KEY_VALUE_PAIR_FLAG (string_at raw_args i)).
  - unfold strcpy_local. destruct (fits (string_drop 2 _)); [| discriminate].
    cbn [mbind Run_bind run_bind].
    destruct (strtok (string_drop 2 _) _) as [[k saved] |]; [| discriminate].
    destruct (strcpy_into keys i _) as [keys1 | | |] eqn:Hk; try discriminate.
    cbn [mbind Run_bind run_bind].
    apply strcpy_into_Ok in Hk as (-> & _ & _).
    destruct (strtok saved KEY_VALUE_PAIR_DELIMETER) as [[v t] |] eqn:Hs2;
      (destruct (strcpy_into values i _) as [values1 | | |] eqn:Hv; try discriminate);
      cbn [mbind Run_bind run_bind]; apply strcpy_into_Ok in Hv as (-> & _ & _);
      intros Hrun; eexists _, _; (split; [exact Hrun |]); (split; [exact Hi |]);
      eexists _, _; (split; [reflexivity | split; [reflexivity | by rewrite Hs2]]).
  - intros Hrun. eexists _, _. split; [exact Hrun |]. done.
Qed.

Lemma strtok_key_value key value :
  key <> EmptyString ->
  free_of KEY_VALUE_PAIR_DELIMETER key = true ->
  strtok (key +:+ KEY_VALUE_PAIR_DELIMETER +:+ value) KEY_VALUE_PAIR_DELIMETER
    = Some (key, value).
Proof.
  intros Hkey Hfree. unfold strtok.
  rewrite skip_delimiters_app by done.
  destruct key as [| c key]; [done |].
  rewrite append_String.
  change (String c (key +:+ KEY_VALUE_PAIR_DELIMETER +:+ value))
    with (String c key +:+ String "=" value).
  by rewrite split_token_app.
Qed.

Lemma strtok_value value :
  free_of KEY_VALUE_PAIR_DELIMETER value = true ->
  match strtok value KEY_VALUE_PAIR_DELIMETER with
  | Some (v, _) => ToUpperCase v
  | None => EmptyString
  end = ToUpperCase value.
Proof.
  intros Hfree. unfold strtok. destruct value as [| c value]; [reflexivity |].
  rewrite skip_delimiters_free by done. by rewrite split_token_free.
Qed.

(** An argument of the form [--key=value], whose key is not empty and in
    which the key and the value hold no further equals sign, leaves the key
    and the value, both in upper case, in the entries of its own index of the
    two arrays, whatever the other arguments are.  The value may be empty. *)
Theorem key_value_argument_is_split raw_args keys values count keys' values' i key value :
  ParseKeyValuePairs raw_args keys values count = Ok (keys', values') ->
  (i < count)%nat ->
  length keys = Z.to_nat MAX_NUM_ARGUMENTS ->
  length values = Z.to_nat MAX_NUM_ARGUMENTS ->
  string_at raw_args i =
    KEY_VALUE_PAIR_FLAG +:+ key +:+ KEY_VALUE_PAIR_DELIMETER +:+ value ->
  key <> EmptyString ->
  free_of KEY_VALUE_PAIR_DELIMETER key = true ->
  free_of KEY_VALUE_PAIR_DELIMETER value = true ->
  string_at keys' i = ToUpperCase key /\ string_at values' i = ToUpperCase value.
Proof.
  intros Hrun Hi Hlk Hlv Hraw Hkey Hfk Hfv. unfold ParseKeyValuePairs in Hrun.
  assert (Hrange : (0 <= i < 0 + count)%nat) by lia. clear Hi.
  revert keys values Hrun Hrange Hlk Hlv. generalize 0%nat as start.
  induction count as [| n IH]; intros start keys values Hrun Hrange Hlk Hlv; [lia |].
  apply ParseKeyValuePairs_loop_step in Hrun as (keys1 & values1 & Hrun & Hstart & Hstep).
  destruct (decide (i = start)) as [-> | Hne].
  - rewrite Hraw, starts_with_flag in Hstep.
    destruct Hstep as (k & saved & Htok & -> & ->).
    change (string_drop 2 (KEY_VALUE_PAIR_FLAG +:+ key +:+ KEY_VALUE_PAIR_DELIMETER +:+ value))
      with (key +:+ KEY_VALUE_PAIR_DELIMETER +:+ value) in Htok.
    rewrite strtok_key_value in Htok by done. injection Htok as <- <-.
    rewrite strtok_value in Hrun by done.
    apply ParseKeyValuePairs_loop_below in Hrun as (_ & _ & Hbelow).
    destruct (Hbelow start) as [-> ->]; [lia |].
    rewrite !string_at_insert by lia. done.
  - apply (IH (S start) keys1 values1 Hrun); [lia | |].
    + destruct (starts_with _ _).
      * destruct Hstep as (k & saved & _ & -> & _). by rewrite length_insert.
      * by destruct Hstep as [-> _].
    + destruct (starts_with _ _).
      * destruct Hstep as (k & saved & _ & _ & ->). by rewrite length_insert.
      * by destruct Hstep as [_ ->].
Qed.

(** An argument that does not start with the key/value flag is skipped
    without a trace: the key and the value of its index are whatever the two
    arrays held before the call. *)
Theorem unflagged_argument_keeps_what_the_arrays_held
    raw_args keys values count keys' values' i :
  ParseKeyValuePairs raw_args keys values count = Ok (keys', values') ->
  starts_with KEY_VALUE_PAIR_FLAG (string_at raw_args i) = false ->
  string_at keys' i = string_at keys i /\ string_at values' i = string_at values i.
Proof.
  intros Hrun Hraw. unfold ParseKeyValuePairs in Hrun.
  revert keys values Hrun. generalize 0%nat as start.
  induction count as [| n IH]; intros start keys values Hrun.
  - cbn in Hrun. by injection Hrun as <- <-.
  - apply ParseKeyValuePairs_loop_step in Hrun as (keys1 & values1 & Hrun & Hstart & Hstep).
    destruct (IH _ _ _ Hrun) as [-> ->].
    destruct (starts_with KEY_VALUE_PAIR_FLAG (string_at raw_args start)) eqn:Hflag.
    + destruct Hstep as (k & saved & _ & -> & ->).
      assert (start <> i) by congruence.
      by rewrite !string_at_insert_ne.
    + by destruct Hstep as [-> ->].
Qed.

End KeyValueFacts.

(** ** Adding and removing an analog input *)

Section AnalogInputHandlerFacts.

Context {module : AnalogInputModule}.

(** The ADD_ANALOG_INPUT handler never reports bad parameters.  While
    the ADC is not sampling, arguments that [InputArgsCheck] rejects make it
    report success, although no input is created; the REMOVE_ANALOG_INPUT
    handler reports [ERR_COMMAND_BAD_PARAM] for arguments it rejects. *)
Theorem add_analog_input_reports_success_for_rejected_arguments keys values count e :
  isADCSampling = false ->
  InputArgsCheck keys values count NUM_ADD_ANALOG_INPUT_PARAMS ADD_ANALOG_INPUT_PARAMS
    = false ->
  Ex_AddAnalogInput keys values count e = (ERR_COMMAND_OK, e, []) /\
  (forall keys' values' count' e',
     (Ex_AddAnalogInput keys' values' count' e').1.1 <> ERR_COMMAND_BAD_PARAM) /\
  (InputArgsCheck keys values count NUM_REMOVE_ANALOG_INPUT_PARAMS
     REMOVE_ANALOG_INPUT_PARAMS = false ->
   Ex_RemoveAnalogInput keys values count e = (ERR_COMMAND_BAD_PARAM, e, [])).
Proof.
  intros Hidle Hargs. unfold Ex_AddAnalogInput, Ex_RemoveAnalogInput.
  rewrite Hidle, Hargs. cbn [negb]. split; [reflexivity |]. split.
  - intros keys' values' count' e'.
    destruct (InputArgsCheck keys' values' count' _ _); [| discriminate].
    cbv zeta. destruct (negb _); discriminate.
  - intros ->. reflexivity.
Qed.

End AnalogInputHandlerFacts.

(** ** The further properties on the example platform *)

(** [typed_characters_fill_the_buffer] for the eight letters of IDENTIFY and
    an empty buffer. *)
Lemma typed_characters_fill_the_buffer_witness :
  let characters := String.list_ascii_of_string "IDENTIFY" in
  let st := example_interpreter EmptyString in
  (forallb is_text_character characters = true /\
   buffer_position st + Z.of_nat (length characters)
     <= MAX_COMMANDLINE_LENGTH (CommandPlatform := example_platform)) /\
  Command_AddChars (platform := example_platform) (driver := example_driver)
      (digital := example_digital) (module := example_module) (modules := example_modules)
      0 example_stack characters st =
    Ok ({| command_buffer := command_buffer st +:+ string_of_characters characters;
           lastFunctionError := lastFunctionError st |}, []).
Proof.
  split; [split; [reflexivity | discriminate] |].
  apply (typed_characters_fill_the_buffer (platform := example_platform)
           (driver := example_driver) (digital := example_digital)
           (module := example_module) (modules := example_modules) 0); [reflexivity | discriminate].
Defined.

(** [full_buffer_accepts_nothing] for a buffer of 256 letters and the
    characters of a line with its line end. *)
Lemma full_buffer_accepts_nothing_witness :
  let st := example_interpreter (string_of_characters (replicate 256 "a"%char)) in
  let characters := String.list_ascii_of_string "IDENTIFY" ++ ["010"%char] in
  MAX_COMMANDLINE_LENGTH (CommandPlatform := example_platform) <= buffer_position st /\
  Command_AddChars (platform := example_platform) (driver := example_driver)
      (digital := example_digital) (module := example_module) (modules := example_modules)
      0 example_stack characters st = Ok (st, []).
Proof.
  split; [discriminate |].
  apply (full_buffer_accepts_nothing (platform := example_platform)
           (driver := example_driver) (digital := example_digital)
           (module := example_module) (modules := example_modules) 0).
  discriminate.
Defined.

(** [backspace_removes_the_last_character] for a letter and a backspace after
    the two letters AB. *)
Lemma backspace_removes_the_last_character_witness :
  let st := example_interpreter "AB" in
  (is_text_character "c" = true /\
   (Ascii.ascii_of_N 8 = Ascii.ascii_of_N 8 \/ Ascii.ascii_of_N 8 = Ascii.ascii_of_N 127) /\
   buffer_position st < MAX_COMMANDLINE_LENGTH (CommandPlatform := example_platform)) /\
  Command_AddChars (platform := example_platform) (driver := example_driver)
      (digital := example_digital) (module := example_module) (modules := example_modules)
      0 example_stack ["c"%char; Ascii.ascii_of_N 8] st =
    Ok (if buffer_position st + 1 <? MAX_COMMANDLINE_LENGTH (CommandPlatform := example_platform)
        then st
        else {| command_buffer := command_buffer st +:+ String "c" EmptyString;
                lastFunctionError := lastFunctionError st |}, []).
Proof.
  split; [split; [reflexivity | split; [by left | reflexivity]] |].
  apply (backspace_removes_the_last_character (platform := example_platform)
           (driver := example_driver) (digital := example_digital)
           (module := example_module) (modules := example_modules) 0); [reflexivity | by left | reflexivity].
Defined.

(** [adc_parameters_come_from_the_first_matching_key] on the example driver
    for the keys RATE, BUFFER, RATE: the rate is read from the first value,
    the gain keeps its default. *)
Lemma adc_parameters_come_from_the_first_matching_key_witness :
  let keys := ["RATE"; "BUFFER"; "RATE"]%string in
  let values := ["30000"; "ENABLED"; "5"]%string in
  (3 <= 128)%nat /\
  (exists buffer rate pga,
     snd (SetADCParameters (driver := example_driver) keys values 3) =
       [ADS1256_SetInputBufferSetting buffer; ADS1256_SetDataRate rate;
        ADS1256_SetPGASetting pga] /\
     (forall i, first_key keys 3 PARAMETER_BUFFER i ->
        buffer = ADS1256_StringToBuffer (AdcDriver := example_driver) (string_at values i)) /\
     (forall i, first_key keys 3 PARAMETER_RATE i ->
        rate = ADS1256_StringToDataRate (AdcDriver := example_driver) (string_at values i)) /\
     (forall i, first_key keys 3 PARAMETER_GAIN i ->
        pga = ADS1256_StringToPGA (AdcDriver := example_driver) (string_at values i)) /\
     ((forall i, (i < 3)%nat -> string_at keys i <> PARAMETER_BUFFER) ->
      buffer = ADS1256_BUFFER_DISABLED) /\
     ((forall i, (i < 3)%nat -> string_at keys i <> PARAMETER_RATE) ->
      rate = ADS1256_SPS_60) /\
     ((forall i, (i < 3)%nat -> string_at keys i <> PARAMETER_GAIN) ->
      pga = ADS1256_PGAx1)) /\
  snd (SetADCParameters (driver := example_driver) keys values 3) =
    [ADS1256_SetInputBufferSetting ADS1256_BUFFER_ENABLED;
     ADS1256_SetDataRate ADS1256_SPS_60; ADS1256_SetPGASetting ADS1256_PGAx1].
Proof.
  split; [lia |]. split; [| reflexivity].
  apply (adc_parameters_come_from_the_first_matching_key (driver := example_driver)). lia.
Defined.

(** [analog_channel_set_needs_a_zero_entry] for the selector 1,3,7. *)
Lemma analog_channel_set_needs_a_zero_entry_witness :
  ((strtol "1,3,7").1 <> 0 /\
   Forall (fun s => (strtol s).1 <> 0) (entries_after_delimiter "1,3,7")) /\
  forall channels,
    BuildAnalogInputList (platform := example_platform) 1000 CHANNEL_SET "1,3,7"
      <> Ok channels.
Proof.
  assert (H1 : (strtol "1,3,7").1 <> 0) by (vm_compute; discriminate).
  assert (H2 : Forall (fun s => (strtol s).1 <> 0) (entries_after_delimiter "1,3,7")).
  { repeat constructor; vm_compute; discriminate. }
  split; [by split |].
  by apply (analog_channel_set_needs_a_zero_entry (platform := example_platform)).
Defined.

(** [digital_channel_set_needs_a_zero_entry] for the selector 1,3,7. *)
Lemma digital_channel_set_needs_a_zero_entry_witness :
  ((strtol "1,3,7").1 <> 0 /\
   Forall (fun s => (strtol s).1 <> 0) (entries_after_delimiter "1,3,7")) /\
  (BuildDigitalInputList (digital := example_digital) 1000 CHANNEL_SET "1,3,7" = OutOfFuel /\
   BuildDigitalOutputList (digital := example_digital) 1000 CHANNEL_SET "1,3,7" = OutOfFuel).
Proof.
  assert (H1 : (strtol "1,3,7").1 <> 0) by (vm_compute; discriminate).
  assert (H2 : Forall (fun s => (strtol s).1 <> 0) (entries_after_delimiter "1,3,7")).
  { repeat constructor; vm_compute; discriminate. }
  split; [by split |].
  by apply (digital_channel_set_needs_a_zero_entry (digital := example_digital)).
Defined.

(** [channel_range_is_resolved] for the selector 7-12 on the example
    platform of 36 inputs. *)
Lemma channel_range_is_resolved_witness :
  let NUM := NUM_ANALOG_INPUTS (CommandPlatform := example_platform) in
  let v2 := (strtol "12").1 in
  let last := if v2 =? 0 then NUM else v2 in
  (strtol "7-12" = (7, String "-" "12") /\
   0 < 7 <= last /\ 0 <= v2 /\ last < 256 /\ last - 7 + 1 <= NUM) /\
  BuildAnalogInputList (platform := example_platform) 0 CHANNEL_RANGE "7-12" =
    Ok ((GetAnalogInputByNumber (CommandPlatform := example_platform)
           <$> seqZ 7 (last - 7 + 1)) ++
        replicate (Z.to_nat (NUM - (last - 7 + 1))) None).
Proof.
  split; [repeat split; evaluate |].
  apply (channel_range_is_resolved (platform := example_platform) 0 "7-12" 7 "-" "12");
    [evaluate | split; evaluate | evaluate | evaluate | evaluate].
Defined.

(** [channel_range_from_zero_is_channel_zero] for the selector 0-5. *)
Lemma channel_range_from_zero_is_channel_zero_witness :
  let NUM := NUM_ANALOG_INPUTS (CommandPlatform := example_platform) in
  (strtol "0-5" = (0, String "-" "5") /\ wrap8 0 = 0 /\ 0 < NUM) /\
  BuildAnalogInputList (platform := example_platform) 0 CHANNEL_RANGE "0-5" =
    Ok (GetAnalogInputByNumber (CommandPlatform := example_platform) 0
        :: replicate (Z.to_nat NUM - 1) None).
Proof.
  split; [repeat split |].
  apply (channel_range_from_zero_is_channel_zero (platform := example_platform)
           0 "0-5" 0 "-" "5"); reflexivity.
Defined.

(** [reversed_channel_range_overruns_the_array] for the selector 9-2. *)
Lemma reversed_channel_range_overruns_the_array_witness :
  let NUM := NUM_ANALOG_INPUTS (CommandPlatform := example_platform) in
  let v2 := (strtol "2").1 in
  (strtol "9-2" = (9, String "-" "2") /\
   0 < v2 /\ v2 + 1 < 9 /\ 9 < 256 /\ 0 <= NUM < 256 + v2 - 9 + 1) /\
  BuildAnalogInputList (platform := example_platform) 0 CHANNEL_RANGE "9-2" = Undefined.
Proof.
  split; [repeat split; evaluate |].
  apply (reversed_channel_range_overruns_the_array (platform := example_platform)
           0 "9-2" 9 "-" "2");
    [evaluate | evaluate | evaluate | evaluate | split; evaluate].
Defined.

(** [terminated_channel_set_drops_its_first_entry] for the selector 4,9,
    with its delimiter at the end. *)
Lemma terminated_channel_set_drops_its_first_entry_witness :
  let NUM := NUM_ANALOG_INPUTS (CommandPlatform := example_platform) in
  (strtol "4,9," = (4, String SET_DELIMETER "9,") /\
   strtol "9," = (9, String SET_DELIMETER EmptyString) /\
   (strtol EmptyString).1 = 0 /\
   4 <> 0 /\ 9 <> 0 /\ 2 <= NUM /\ (2 <= 5)%nat) /\
  BuildAnalogInputList (platform := example_platform) 5 CHANNEL_SET "4,9," =
    Ok (GetAnalogInputByNumber (CommandPlatform := example_platform) 9
        :: GetAnalogInputByNumber (CommandPlatform := example_platform) 0
        :: replicate (Z.to_nat NUM - 2) None).
Proof.
  split; [repeat split; evaluate |].
  apply (terminated_channel_set_drops_its_first_entry (platform := example_platform)
           5 "4,9," 4 "9," 9 EmptyString); evaluate.
Defined.

(** [command_lines_are_case_insensitive] for a SYSTEM_GCAL line and a line
    feed. *)
Lemma command_lines_are_case_insensitive_witness :
  let line1 := "system_gcal --input=ext0"%string in
  let line2 := "SYSTEM_GCAL --Input=EXT0"%string in
  (ToUpperCase line1 = ToUpperCase line2 /\
   ("010"%char = "010"%char \/ "010"%char = "013"%char) /\
   Z.of_nat (String.length line1) < MAX_COMMANDLINE_LENGTH (CommandPlatform := example_platform)) /\
  Command_AddChar (platform := example_platform) (driver := example_driver)
      (digital := example_digital) (module := example_module) (modules := example_modules)
      0 example_stack "010" {| command_buffer := line1; lastFunctionError := ERR_FUNCTION_OK |} =
  Command_AddChar (platform := example_platform) (driver := example_driver)
      (digital := example_digital) (module := example_module) (modules := example_modules)
      0 example_stack "010" {| command_buffer := line2; lastFunctionError := ERR_FUNCTION_OK |}.
Proof.
  split; [split; [reflexivity | split; [by left | reflexivity]] |].
  apply (command_lines_are_case_insensitive (platform := example_platform)
           (driver := example_driver) (digital := example_digital)
           (module := example_module) (modules := example_modules) 0); [reflexivity | by left | reflexivity].
Defined.

(** [key_value_argument_is_split] for the two arguments of a READ_ANALOG_INPUT
    command, the second of them with an empty value. *)
Lemma key_value_argument_is_split_witness :
  let raw_args := array_of (platform := example_platform) ["--input=ext0"; "--number="]%string in
  let keys := array_of (platform := example_platform) [] in
  let values := array_of (platform := example_platform) [] in
  let keys' := <[1%nat := "NUMBER"%string]> (<[0%nat := "INPUT"%string]> keys) in
  let values' := <[0%nat := "EXT0"%string]> values in
  (ParseKeyValuePairs (platform := example_platform) raw_args keys values 2
     = Ok (keys', values') /\
   (1 < 2)%nat /\
   length keys = Z.to_nat (MAX_NUM_ARGUMENTS (CommandPlatform := example_platform)) /\
   length values = Z.to_nat (MAX_NUM_ARGUMENTS (CommandPlatform := example_platform)) /\
   string_at raw_args 1 =
     KEY_VALUE_PAIR_FLAG +:+ "number" +:+ KEY_VALUE_PAIR_DELIMETER +:+ EmptyString /\
   "number"%string <> EmptyString /\
   free_of KEY_VALUE_PAIR_DELIMETER "number" = true /\
   free_of KEY_VALUE_PAIR_DELIMETER EmptyString = true) /\
  (string_at keys' 1 = ToUpperCase "number" /\ string_at values' 1 = ToUpperCase EmptyString).
Proof.
  split; [repeat split; evaluate |].
  apply (key_value_argument_is_split (platform := example_platform)
           (array_of (platform := example_platform) ["--input=ext0"; "--number="]%string)
           (array_of (platform := example_platform) [])
           (array_of (platform := example_platform) []) 2 _ _ 1 "number" EmptyString);
    evaluate.
Defined.

(** [unflagged_argument_keeps_what_the_arrays_held] for an argument without
    the flag, and a stack that held the key INPUT. *)
Lemma unflagged_argument_keeps_what_the_arrays_held_witness :
  let raw_args := array_of (platform := example_platform) ["ext0"%string] in
  let keys := array_of (platform := example_platform) ["INPUT"%string] in
  let values := array_of (platform := example_platform) ["EXT7"%string] in
  (ParseKeyValuePairs (platform := example_platform) raw_args keys values 1
     = Ok (keys, values) /\
   starts_with KEY_VALUE_PAIR_FLAG (string_at raw_args 0) = false) /\
  (string_at keys 0 = string_at keys 0 /\ string_at values 0 = string_at values 0).
Proof.
  split; [split; reflexivity |].
  apply (unflagged_argument_keeps_what_the_arrays_held (platform := example_platform)
           (array_of (platform := example_platform) ["ext0"%string])
           (array_of (platform := example_platform) ["INPUT"%string])
           (array_of (platform := example_platform) ["EXT7"%string]) 1 _ _ 0);
    reflexivity.
Defined.

(** [add_analog_input_reports_success_for_rejected_arguments] for six
    arguments, one more than ADD_ANALOG_INPUT declares. *)
Lemma add_analog_input_reports_success_for_rejected_arguments_witness :
  let keys := ["INPUT"; "BUFFER"; "RATE"; "GAIN"; "NAME"; "INPUT"]%string in
  (isADCSampling (AnalogInputModule := example_module) = false /\
   InputArgsCheck keys [] 6 NUM_ADD_ANALOG_INPUT_PARAMS ADD_ANALOG_INPUT_PARAMS = false) /\
  (Ex_AddAnalogInput (module := example_module) keys [] 6 ERR_FUNCTION_OK
     = (ERR_COMMAND_OK, ERR_FUNCTION_OK, []) /\
   (forall keys' values' count' e',
      (Ex_AddAnalogInput (module := example_module) keys' values' count' e').1.1
        <> ERR_COMMAND_BAD_PARAM) /\
   (InputArgsCheck keys [] 6 NUM_REMOVE_ANALOG_INPUT_PARAMS REMOVE_ANALOG_INPUT_PARAMS = false ->
    Ex_RemoveAnalogInput (module := example_module) keys [] 6 ERR_FUNCTION_OK
      = (ERR_COMMAND_BAD_PARAM, ERR_FUNCTION_OK, []))).
Proof.
  split; [split; reflexivity |].
  apply (add_analog_input_reports_success_for_rejected_arguments (module := example_module));
    reflexivity.
Defined.
